(** * brain.js [lib/neural-network.js]: a shallow embedding and its properties

    The file follows the source function by function.  JavaScript numbers are
    kept behind the interface [JSNumber]; its instance [ieee] is the IEEE-754
    binary64 arithmetic the program runs on (Rocq's primitive floats), and the
    instance [exact] is real arithmetic with a single not-a-number value, used
    for the statements that only hold without rounding.  Arrays are lists,
    objects are key-ordered association lists, [null] fields are [None], and
    a JavaScript [TypeError] is the [TypeError] outcome of the [result] monad.

    Arrays are values here: the development assumes that an array handed to
    the network by its caller is not one of the network's own buffers.

    The loops over layers, units and examples run a number of rounds that is
    known when they start, and are recursions on that number.  The loop over
    the epochs of [train] has no such bound ([iterations] is any number, and
    the counter is a double): it is followed for a given number of rounds,
    and the outcome says whether it has ended by then. *)

From Stdlib Require Import String.
From Stdlib Require Import List ZArith Lia Bool PeanoNat Arith.
From Stdlib Require Import Floats Reals Lra.
Import ListNotations.

Set Implicit Arguments.

(* ================================================================== *)
(** ** JavaScript numbers *)

(** The operations on numbers that the source uses.  [NaN] is also what
    [undefined] becomes in every arithmetic position, so a missing array
    element is read as [NaN]. *)
Class JSNumber (num : Type) : Type := {
  of_Z : Z -> num;
  NaN : num;
  add : num -> num -> num;
  sub : num -> num -> num;
  mul : num -> num -> num;
  div : num -> num -> num;
  neg : num -> num;
  (** the remainder [x % y] *)
  rem : num -> num -> num;
  (** [x > y], [x < y], [x <= y] and [x == y] on numbers *)
  gtb : num -> num -> bool;
  ltb : num -> num -> bool;
  leb : num -> num -> bool;
  eqb : num -> num -> bool;
  (** [ToBoolean]: false exactly on [+0], [-0] and [NaN] *)
  truthy : num -> bool;
  (** the runtime's [Math.exp], [Math.pow(x, 2)] and [Math.max.apply] *)
  Math_exp : num -> num;
  Math_pow_2 : num -> num;
  Math_max : list num -> num
}.

Declare Scope js_scope.
Delimit Scope js_scope with js.
Infix "+" := add : js_scope.
Infix "-" := sub : js_scope.
Infix "*" := mul : js_scope.
Infix "/" := div : js_scope.
Notation "- x" := (neg x) : js_scope.
Infix ">?" := gtb (at level 70, no associativity) : js_scope.
Infix "<?" := ltb (at level 70, no associativity) : js_scope.
Infix "<=?" := leb (at level 70, no associativity) : js_scope.
Infix "==?" := eqb (at level 70, no associativity) : js_scope.

(** A decimal literal [m / 10^e] of the source text, such as [0.005]. *)
Definition dec {num} {N : JSNumber num} (m : Z) (e : nat) : num :=
  (of_Z m / of_Z (10 ^ Z.of_nat e))%js.

(** [x || d] on a possibly missing number. *)
Definition or_default {num} {N : JSNumber num} (x : option num) (d : num) : num :=
  match x with
  | Some v => if truthy v then v else d
  | None => d
  end.

(* ================================================================== *)
(** ** Outcomes and arrays *)

Inductive result (A : Type) : Type :=
| Ok (a : A)
| TypeError.
Arguments TypeError {A}.

Definition bind {A B} (c : result A) (k : A -> result B) : result B :=
  match c with
  | Ok a => k a
  | TypeError => TypeError
  end.

Notation "x <- c ;; k" := (bind c (fun x => k))
  (at level 61, c at next level, right associativity).
Notation "' pat <- c ;; k" := (bind c (fun x => match x with pat => k end))
  (at level 61, pat pattern, c at next level, right associativity).

(** Reading a property of [null] or [undefined] throws. *)
Definition deref {A} (o : option A) : result A :=
  match o with
  | Some a => Ok a
  | None => TypeError
  end.

(** [a[i]] where the element is itself dereferenced afterwards. *)
Definition elem {A} (a : list A) (i : nat) : result A := deref (nth_error a i).

(** [a[i]] in an arithmetic position. *)
Definition num_at {num} {N : JSNumber num} (a : list num) (i : nat) : num := nth i a NaN.

(** [a[i] = v]: replaces in range, otherwise extends the array, leaving holes
    (given as [hole]) below [i]. *)
Fixpoint array_set {A} (hole : A) (a : list A) (i : nat) (v : A) : list A :=
  match a, i with
  | [], 0 => [v]
  | [], S i' => hole :: array_set hole [] i' v
  | _ :: a', 0 => v :: a'
  | x :: a', S i' => x :: array_set hole a' i' v
  end.

(** [for (i = n - 1; i >= 0; i--) body], the state threaded through. *)
Fixpoint for_down {St} (n : nat) (body : nat -> St -> result St) (s : St) : result St :=
  match n with
  | 0 => Ok s
  | S n' => s' <- body n' s ;; for_down n' body s'
  end.

(** [for (i = lo; i < lo + n; i++) body], the state threaded through. *)
Fixpoint for_loop {St} (n lo : nat) (body : nat -> St -> result St) (s : St) : result St :=
  match n with
  | 0 => Ok s
  | S n' => s' <- body lo s ;; for_loop n' (S lo) body s'
  end.

(* ================================================================== *)
(** ** Objects *)

(** A property key.  JavaScript enumerates the keys that are array indices
    first, in ascending order, and the other strings after them in insertion
    order.  [KIdx n] is the key written as the decimal numeral of [n];
    [KStr s] is any other string. *)
Inductive key : Type :=
| KIdx (n : nat)
| KStr (s : string).

Definition key_eqb (a b : key) : bool :=
  match a, b with
  | KIdx m, KIdx n => Nat.eqb m n
  | KStr s, KStr t => String.eqb s t
  | _, _ => false
  end.

(** An object: its own properties in enumeration order. *)
Definition obj (A : Type) : Type := list (key * A).

Fixpoint obj_get {A} (o : obj A) (k : key) : option A :=
  match o with
  | [] => None
  | (k', v) :: o' => if key_eqb k k' then Some v else obj_get o' k
  end.

(** [true] when a new key [k] is enumerated before the existing key [k']. *)
Definition key_before (k k' : key) : bool :=
  match k, k' with
  | KIdx m, KIdx n => Nat.ltb m n
  | KIdx _, KStr _ => true
  | KStr _, _ => false
  end.

(** [o[k] = v]. *)
Fixpoint obj_set {A} (o : obj A) (k : key) (v : A) : obj A :=
  match o with
  | [] => [(k, v)]
  | (k', v') :: o' =>
      if key_eqb k k' then (k, v) :: o'
      else if key_before k k' then (k, v) :: (k', v') :: o'
      else (k', v') :: obj_set o' k v
  end.

(** [Object.keys(o)], also the order of [for (k in o)]. *)
Definition Object_keys {A} (o : obj A) : list key := map fst o.

(* ================================================================== *)
(** ** The network *)

Section Engine.
Context {num : Type} {N : JSNumber num}.
Local Open Scope js_scope.

(** A lookup table of the [lookup] module: key to index. *)
Definition lookup_table : Type := obj nat.

(** The fields of a [NeuralNetwork] object.  The row arrays [biases],
    [weights] and [changes] have no entry for layer 0 in the source (a hole);
    the hole is the empty list here, and no code reads it. *)
Record NeuralNetwork : Type := mkNN {
  learningRate : num;
  momentum : num;
  hiddenSizes : option (list nat);
  binaryThresh : num;
  sizes : option (list nat);
  outputLayer : option Z;
  biases : option (list (list num));
  weights : option (list (list (list num)));
  outputs : option (list (list num));
  deltas : option (list (list num));
  changes : option (list (list (list num)));
  errors : option (list (list num));
  inputLookup : option lookup_table;
  outputLookup : option lookup_table
}.

Definition set_sizes (n : NeuralNetwork) v :=
  mkNN (learningRate n) (momentum n) (hiddenSizes n) (binaryThresh n) v (outputLayer n) (biases n)
       (weights n) (outputs n) (deltas n) (changes n) (errors n) (inputLookup n) (outputLookup n).
Definition set_outputLayer (n : NeuralNetwork) v :=
  mkNN (learningRate n) (momentum n) (hiddenSizes n) (binaryThresh n) (sizes n) v (biases n)
       (weights n) (outputs n) (deltas n) (changes n) (errors n) (inputLookup n) (outputLookup n).
Definition set_biases (n : NeuralNetwork) v :=
  mkNN (learningRate n) (momentum n) (hiddenSizes n) (binaryThresh n) (sizes n) (outputLayer n) v
       (weights n) (outputs n) (deltas n) (changes n) (errors n) (inputLookup n) (outputLookup n).
Definition set_weights (n : NeuralNetwork) v :=
  mkNN (learningRate n) (momentum n) (hiddenSizes n) (binaryThresh n) (sizes n) (outputLayer n)
       (biases n) v (outputs n) (deltas n) (changes n) (errors n) (inputLookup n) (outputLookup n).
Definition set_outputs (n : NeuralNetwork) v :=
  mkNN (learningRate n) (momentum n) (hiddenSizes n) (binaryThresh n) (sizes n) (outputLayer n)
       (biases n) (weights n) v (deltas n) (changes n) (errors n) (inputLookup n) (outputLookup n).
Definition set_deltas (n : NeuralNetwork) v :=
  mkNN (learningRate n) (momentum n) (hiddenSizes n) (binaryThresh n) (sizes n) (outputLayer n)
       (biases n) (weights n) (outputs n) v (changes n) (errors n) (inputLookup n) (outputLookup n).
Definition set_changes (n : NeuralNetwork) v :=
  mkNN (learningRate n) (momentum n) (hiddenSizes n) (binaryThresh n) (sizes n) (outputLayer n)
       (biases n) (weights n) (outputs n) (deltas n) v (errors n) (inputLookup n) (outputLookup n).
Definition set_errors (n : NeuralNetwork) v :=
  mkNN (learningRate n) (momentum n) (hiddenSizes n) (binaryThresh n) (sizes n) (outputLayer n)
       (biases n) (weights n) (outputs n) (deltas n) (changes n) v (inputLookup n) (outputLookup n).
Definition set_inputLookup (n : NeuralNetwork) v :=
  mkNN (learningRate n) (momentum n) (hiddenSizes n) (binaryThresh n) (sizes n) (outputLayer n)
       (biases n) (weights n) (outputs n) (deltas n) (changes n) (errors n) v (outputLookup n).
Definition set_outputLookup (n : NeuralNetwork) v :=
  mkNN (learningRate n) (momentum n) (hiddenSizes n) (binaryThresh n) (sizes n) (outputLayer n)
       (biases n) (weights n) (outputs n) (deltas n) (changes n) (errors n) (inputLookup n) v.

(** The options object of the constructor. *)
Record ctor_options : Type := mkCtorOptions {
  co_learningRate : option num;
  co_momentum : option num;
  co_hiddenLayers : option (list nat);
  co_binaryThresh : option num
}.

(** [new NeuralNetwork(options)] *)
Definition new_NeuralNetwork (options : ctor_options) : NeuralNetwork :=
  {| learningRate := or_default (co_learningRate options) (dec 3 1);
     momentum := or_default (co_momentum options) (dec 1 1);
     hiddenSizes := co_hiddenLayers options;
     binaryThresh := or_default (co_binaryThresh options) (dec 5 1);
     sizes := None; outputLayer := None; biases := None; weights := None;
     outputs := None; deltas := None; changes := None; errors := None;
     inputLookup := None; outputLookup := None |}.

(** *** Helpers at the end of the source file *)

(** [Math.random()], as the stream of the values it returns: a call takes the
    value at the current position and moves on. *)
Definition random_source : Type := nat -> num.

(** [randomWeight()] at position [p] of the stream. *)
Definition randomWeight (rand : random_source) (p : nat) : num :=
  rand p * dec 4 1 - dec 2 1.

(** [zeros(size)] *)
Definition zeros (size : nat) : list num := repeat (of_Z 0) size.

(** [randos(size)], drawing from position [p] on. *)
Definition randos (rand : random_source) (p size : nat) : list num :=
  map (randomWeight rand) (seq p size).

(** [mse(errors)] *)
Definition mse (errs : list num) : num :=
  fold_left (fun sum e => sum + Math_pow_2 e) errs (of_Z 0) / of_Z (Z.of_nat (length errs)).

(** [range(start, end)] *)
Definition range (start stop : nat) : list nat := seq start (stop - start).

(** [toArray(values)] on an object of numbers (an array is returned as it is). *)
Definition toArray (values : option (obj num)) : list num :=
  match values with
  | Some o => map snd o
  | None => []
  end.

(** [max(values)] on an array. *)
Definition max (values : list num) : num := Math_max values.

(** *** [initialize] *)

(** The loop over the nodes of one layer, lines 67-73. *)
Definition initialize_node (szs : list nat) (keep : bool) (rand : random_source) (layer node : nat)
    (st : NeuralNetwork * nat) : result (NeuralNetwork * nat) :=
  let '(net, p) := st in
  let prevSize := nth (layer - 1) szs 0 in
  '(net, p) <-
    (if negb keep then
       ws <- deref (weights net) ;;
       wl <- elem ws layer ;;
       Ok (set_weights net (Some (array_set [] ws layer (array_set [] wl node (randos rand p prevSize)))),
           (p + prevSize)%nat)
     else Ok (net, p)) ;;
  cs <- deref (changes net) ;;
  cl <- elem cs layer ;;
  Ok (set_changes net (Some (array_set [] cs layer (array_set [] cl node (zeros prevSize)))), p).

(** The body of the loop over the layers, lines 53-74. *)
Definition initialize_layer (szs : list nat) (keep : bool) (rand : random_source) (layer : nat)
    (st : NeuralNetwork * nat) : result (NeuralNetwork * nat) :=
  let '(net, p) := st in
  let size := nth layer szs 0 in
  ds <- deref (deltas net) ;;
  let net := set_deltas net (Some (array_set [] ds layer (zeros size))) in
  es <- deref (errors net) ;;
  let net := set_errors net (Some (array_set [] es layer (zeros size))) in
  net <-
    (if negb keep then
       os <- deref (outputs net) ;;
       Ok (set_outputs net (Some (array_set [] os layer (zeros size))))
     else Ok net) ;;
  if (0 <? layer)%nat then
    bs <- deref (biases net) ;;
    let net := set_biases net (Some (array_set [] bs layer (randos rand p size))) in
    let p := (p + size)%nat in
    net <-
      (if negb keep then
         ws <- deref (weights net) ;;
         Ok (set_weights net (Some (array_set [] ws layer (repeat [] size))))
       else Ok net) ;;
    cs <- deref (changes net) ;;
    let net := set_changes net (Some (array_set [] cs layer (repeat [] size))) in
    for_loop size 0 (initialize_node szs keep rand layer) (net, p)
  else Ok (net, p).

(** [initialize(sizes, keepNetworkIntact)]; [p] is the position in the random
    stream, returned advanced. *)
Definition initialize (szs : list nat) (keep : bool) (rand : random_source) (p : nat)
    (net : NeuralNetwork) : result (NeuralNetwork * nat) :=
  let net := set_sizes net (Some szs) in
  let net := set_outputLayer net (Some (Z.of_nat (length szs) - 1)%Z) in
  let net := if negb keep
             then set_outputs (set_weights (set_biases net (Some [])) (Some [])) (Some [])
             else net in
  let net := set_errors (set_changes (set_deltas net (Some [])) (Some [])) (Some []) in
  for_loop (length szs) 0 (initialize_layer szs keep rand) (net, p).

(** The loop bound [this.outputLayer] as a number: [null] counts as 0. *)
Definition outputLayer_number (net : NeuralNetwork) : Z :=
  match outputLayer net with
  | Some l => l
  | None => 0%Z
  end.

(** [layer == this.outputLayer] *)
Definition is_outputLayer (net : NeuralNetwork) (layer : nat) : bool :=
  match outputLayer net with
  | Some l => Z.eqb (Z.of_nat layer) l
  | None => false
  end.

(** [this.sizes[layer]] as a loop bound: a missing entry admits no iteration. *)
Definition size_of_layer (net : NeuralNetwork) (layer : nat) : result nat :=
  szs <- deref (sizes net) ;; Ok (nth layer szs 0).

(** *** [runInput] *)

(** The sigmoid of line 112. *)
Definition sigmoid (sum : num) : num := of_Z 1 / (of_Z 1 + Math_exp (- sum)).

(** The loop over [k], lines 109-111; [input] is only read when the loop runs. *)
Definition weighted_sum (w : list num) (input : option (list num)) (sum : num) : result num :=
  match w with
  | [] => Ok sum
  | _ :: _ =>
      inp <- deref input ;;
      Ok (fold_left (fun sum k => sum + num_at w k * num_at inp k) (seq 0 (length w)) sum)
  end.

(** The body of the loop over the nodes, lines 106-112. *)
Definition runInput_node (layer : nat) (input : option (list num)) (node : nat)
    (net : NeuralNetwork) : result NeuralNetwork :=
  ws <- deref (weights net) ;;
  wl <- elem ws layer ;;
  bs <- deref (biases net) ;;
  bl <- elem bs layer ;;
  w <- elem wl node ;;
  sum <- weighted_sum w input (num_at bl node) ;;
  os <- deref (outputs net) ;;
  ol <- elem os layer ;;
  Ok (set_outputs net (Some (array_set [] os layer (array_set NaN ol node (sigmoid sum))))).

(** The body of the loop over the layers, lines 105-114.  The state holds the
    network and the variables [input] and [output]. *)
Definition runInput_layer (layer : nat)
    (st : NeuralNetwork * option (list num) * option (list num))
    : result (NeuralNetwork * option (list num) * option (list num)) :=
  let '(net, input, _) := st in
  size <- size_of_layer net layer ;;
  net <- for_loop size 0 (runInput_node layer input) net ;;
  os <- deref (outputs net) ;;
  Ok (net, nth_error os layer, nth_error os layer).

(** [runInput(input)]: the network afterwards and the returned value
    ([None] is [undefined]). *)
Definition runInput (input : list num) (net : NeuralNetwork)
    : result (NeuralNetwork * option (list num)) :=
  os <- deref (outputs net) ;;
  let net := set_outputs net (Some (array_set [] os 0 input)) in
  '(net, _, output) <-
    for_loop (Z.to_nat (outputLayer_number net)) 1 runInput_layer (net, Some input, None) ;;
  Ok (net, output).

(** *** [calculateDeltas] *)

(** The loop over [k], lines 211-213. *)
Definition backpropagated_error (net : NeuralNetwork) (layer node : nat) : result num :=
  ds <- deref (deltas net) ;;
  dl <- elem ds (layer + 1) ;;
  for_loop (length dl) 0
    (fun k error =>
       ws <- deref (weights net) ;;
       wl <- elem ws (layer + 1) ;;
       w <- elem wl k ;;
       Ok (error + num_at dl k * num_at w node))
    (of_Z 0).

(** The body of the loop over the nodes, lines 203-216. *)
Definition calculateDeltas_node (target : list num) (layer node : nat)
    (net : NeuralNetwork) : result NeuralNetwork :=
  os <- deref (outputs net) ;;
  ol <- elem os layer ;;
  let output := num_at ol node in
  error <-
    (if is_outputLayer net layer then Ok (num_at target node - output)
     else backpropagated_error net layer node) ;;
  es <- deref (errors net) ;;
  el <- elem es layer ;;
  let net := set_errors net (Some (array_set [] es layer (array_set NaN el node error))) in
  ds <- deref (deltas net) ;;
  dl <- elem ds layer ;;
  Ok (set_deltas net
        (Some (array_set [] ds layer (array_set NaN dl node (error * output * (of_Z 1 - output)))))).

(** The body of the loop over the layers, lines 202-217. *)
Definition calculateDeltas_layer (target : list num) (layer : nat)
    (net : NeuralNetwork) : result NeuralNetwork :=
  size <- size_of_layer net layer ;;
  for_loop size 0 (calculateDeltas_node target layer) net.

(** [calculateDeltas(target)] *)
Definition calculateDeltas (target : list num) (net : NeuralNetwork) : result NeuralNetwork :=
  match outputLayer net with
  | Some l => for_down (Z.to_nat (l + 1)) (calculateDeltas_layer target) net
  | None => _ <- size_of_layer net 0 ;; Ok net
  end.

(** *** [adjustWeights] *)

(** The body of the loop over [k], lines 233-239. *)
Definition adjustWeights_k (learningRate : num) (layer node : nat) (incoming : list num)
    (delta : num) (k : nat) (net : NeuralNetwork) : result NeuralNetwork :=
  cs <- deref (changes net) ;;
  cl <- elem cs layer ;;
  c <- elem cl node ;;
  let change := num_at c k in
  let change := (learningRate * delta * num_at incoming k) + (momentum net * change) in
  let net :=
    set_changes net (Some (array_set [] cs layer (array_set [] cl node (array_set NaN c k change)))) in
  ws <- deref (weights net) ;;
  wl <- elem ws layer ;;
  w <- elem wl node ;;
  Ok (set_weights net
        (Some (array_set [] ws layer (array_set [] wl node (array_set NaN w k (num_at w k + change)))))).

(** The body of the loop over the nodes, lines 230-241. *)
Definition adjustWeights_node (learningRate : num) (layer : nat) (incoming : option (list num))
    (node : nat) (net : NeuralNetwork) : result NeuralNetwork :=
  ds <- deref (deltas net) ;;
  dl <- elem ds layer ;;
  let delta := num_at dl node in
  incoming <- deref incoming ;;
  net <- for_loop (length incoming) 0 (adjustWeights_k learningRate layer node incoming delta) net ;;
  bs <- deref (biases net) ;;
  bl <- elem bs layer ;;
  Ok (set_biases net
        (Some (array_set [] bs layer (array_set NaN bl node (num_at bl node + learningRate * delta))))).

(** The body of the loop over the layers, lines 227-242. *)
Definition adjustWeights_layer (learningRate : num) (layer : nat)
    (net : NeuralNetwork) : result NeuralNetwork :=
  os <- deref (outputs net) ;;
  let incoming := nth_error os (layer - 1) in
  size <- size_of_layer net layer ;;
  for_loop size 0 (adjustWeights_node learningRate layer incoming) net.

(** [adjustWeights(learningRate)] *)
Definition adjustWeights (learningRate : num) (net : NeuralNetwork) : result NeuralNetwork :=
  for_loop (Z.to_nat (outputLayer_number net)) 1 (adjustWeights_layer learningRate) net.

(** *** [trainPattern] *)

(** [this.errors[this.outputLayer]], dereferenced by [mse]. *)
Definition output_errors (net : NeuralNetwork) : result (list num) :=
  es <- deref (errors net) ;;
  l <- deref (outputLayer net) ;;
  if (l <? 0)%Z then TypeError else elem es (Z.to_nat l).

(** [trainPattern(input, target, learningRate)] *)
Definition trainPattern (input target : list num) (learningRate' : option num)
    (net : NeuralNetwork) : result (NeuralNetwork * num) :=
  let learningRate' := or_default learningRate' (learningRate net) in
  '(net, _) <- runInput input net ;;
  net <- calculateDeltas target net ;;
  net <- adjustWeights learningRate' net ;;
  errs <- output_errors net ;;
  Ok (net, mse errs).

(** *** Data sets *)

(** A training example with array-shaped input and output. *)
Record example : Type := mkExample {
  input : list num;
  output : list num
}.

(** What [train] and [test] are handed: one example or an array of them.
    Examples are array-shaped; the keyed records that [formatData] would pass
    through the [lookup] module are outside the model. *)
Inductive training_data : Type :=
| Single (datum : example)
| Many (data : list example).

(** [formatData(data)] on array-shaped examples: a single datum is wrapped. *)
Definition formatData (data : training_data) : list example :=
  match data with
  | Single datum => [datum]
  | Many data => data
  end.

(** *** [train] *)

(** [options.log] when it is truthy: a function, or anything else (then
    [console.log] is used). *)
Inductive log_sink : Type := LogFunction | ConsoleLog.

Record train_options : Type := mkTrainOptions {
  o_iterations : option num;
  o_errorThresh : option num;
  o_log : option log_sink;
  o_logPeriod : option num;
  o_learningRate : option num;
  o_callback : bool;
  o_callbackPeriod : option num;
  o_keepNetworkIntact : bool
}.

(** The calls made to the log and to the callback, in order. *)
Inductive event : Type :=
| Logged (sink : log_sink) (iterations : num) (error : num)
| CalledBack (error : num) (iterations : num).

(** The object [train] returns. *)
Record train_result : Type := mkTrainResult {
  tr_error : num;
  tr_iterations : num
}.

(** The loop over the examples, lines 156-159: the network and [sum]. *)
Fixpoint train_examples (data : list example) (learningRate : num)
    (st : NeuralNetwork * num) : result (NeuralNetwork * num) :=
  match data with
  | [] => Ok st
  | d :: data' =>
      let '(net, sum) := st in
      '(net, err) <- trainPattern (input d) (output d) (Some learningRate) net ;;
      train_examples data' learningRate (net, sum + err)
  end.

(** The calls of lines 162-167 after the epoch numbered [i]. *)
Definition epoch_events (log : option log_sink) (logPeriod : num) (callback : bool)
    (callbackPeriod : num) (i : num) (error : num) : list event :=
  (match log with
   | Some sink => if rem i logPeriod ==? of_Z 0 then [Logged sink i error] else []
   | None => []
   end) ++
  (if callback && (rem i callbackPeriod ==? of_Z 0) then [CalledBack error i] else []).

(** The loop over the epochs, line 154, from the values [i] and [error] on.
    Nothing bounds the number of its rounds, so it is followed for [fuel]
    rounds at most: [None] says that the loop is still running after them,
    [Some] gives what the loop has ended with. *)
Fixpoint train_epochs (fuel : nat) (i : num) (data : list example)
    (iterations errorThresh learningRate : num)
    (log : option log_sink) (logPeriod : num) (callback : bool) (callbackPeriod : num)
    (error : num) (net : NeuralNetwork) (trace : list event)
    : option (result (NeuralNetwork * list event * train_result)) :=
  if (i <? iterations) && (error >? errorThresh) then
    match fuel with
    | 0 => None
    | S fuel' =>
        match train_examples data learningRate (net, of_Z 0) with
        | TypeError => Some TypeError
        | Ok (net, sum) =>
            let error := sum / of_Z (Z.of_nat (length data)) in
            train_epochs fuel' (i + of_Z 1) data iterations errorThresh learningRate
              log logPeriod callback callbackPeriod error net
              (trace ++ epoch_events log logPeriod callback callbackPeriod i error)
        end
    end
  else Some (Ok (net, trace, mkTrainResult error i)).

(** The layer sizes that [train] derives, lines 136-149. *)
Definition train_sizes (net : NeuralNetwork) (inputSize outputSize : nat) : list nat :=
  inputSize ::
  (match hiddenSizes net with
   | None => [Nat.max 3 (inputSize / 2)]
   | Some hidden => hidden
   end) ++ [outputSize].

(** [train(data, options)], its loop followed for [fuel] rounds at most: the
    network, the position in the random stream, the calls made to the log and
    the callback, and the returned object; [None] when the loop is still
    running after [fuel] rounds. *)
Definition train (fuel : nat) (data : training_data) (options : train_options)
    (rand : random_source) (p : nat) (net : NeuralNetwork)
    : option (result (NeuralNetwork * nat * list event * train_result)) :=
  let data := formatData data in
  let iterations := or_default (o_iterations options) (of_Z 20000) in
  let errorThresh := or_default (o_errorThresh options) (dec 5 3) in
  let logPeriod := or_default (o_logPeriod options) (of_Z 10) in
  let learningRate' :=
    or_default (o_learningRate options) (or_default (Some (learningRate net)) (dec 3 1)) in
  let callbackPeriod := or_default (o_callbackPeriod options) (of_Z 10) in
  match elem data 0 with
  | TypeError => Some TypeError
  | Ok d0 =>
      let szs := train_sizes net (length (input d0)) (length (output d0)) in
      match initialize szs (o_keepNetworkIntact options) rand p net with
      | TypeError => Some TypeError
      | Ok (net, p) =>
          match
            train_epochs fuel (of_Z 0) data iterations errorThresh learningRate' (o_log options)
              logPeriod (o_callback options) callbackPeriod (of_Z 1) net []
          with
          | None => None
          | Some r => Some ('(net, trace, res) <- r ;; Ok (net, p, trace, res))
          end
      end
  end.

(** *** [test] *)

(** [a.indexOf(x)] as a number: the first position holding [x], or -1. *)
Fixpoint indexOf_from (a : list num) (x : num) (i : Z) : Z :=
  match a with
  | [] => (-1)%Z
  | y :: a' => if y ==? x then i else indexOf_from a' x (i + 1)%Z
  end.

Definition indexOf (a : list num) (x : num) : num := of_Z (indexOf_from a x 0).

(** The labels [actual] and [expected] of lines 311-319. *)
Definition classify (isBinary : bool) (thresh : num) (out target : list num) : num * num :=
  if isBinary then
    ((if num_at out 0 >? thresh then of_Z 1 else of_Z 0), num_at target 0)
  else
    (indexOf out (max out), indexOf target (max target)).

(** A misclassified example, with the two labels assigned to it. *)
Record misclass : Type := mkMisclass {
  m_datum : example;
  m_actual : num;
  m_expected : num
}.

(** The running state of the loop of [test]. *)
Record test_state : Type := mkTestState {
  falsePos : nat;
  falseNeg : nat;
  truePos : nat;
  trueNeg : nat;
  misclasses : list misclass;
  sum_mse : num
}.

(** Lines 330-343. *)
Definition count_binary (actual expected : num) (st : test_state) : test_state :=
  if (actual ==? of_Z 0) && (expected ==? of_Z 0) then
    mkTestState (falsePos st) (falseNeg st) (truePos st) (S (trueNeg st)) (misclasses st) (sum_mse st)
  else if (actual ==? of_Z 1) && (expected ==? of_Z 1) then
    mkTestState (falsePos st) (falseNeg st) (S (truePos st)) (trueNeg st) (misclasses st) (sum_mse st)
  else if (actual ==? of_Z 0) && (expected ==? of_Z 1) then
    mkTestState (falsePos st) (S (falseNeg st)) (truePos st) (trueNeg st) (misclasses st) (sum_mse st)
  else if (actual ==? of_Z 1) && (expected ==? of_Z 0) then
    mkTestState (S (falsePos st)) (falseNeg st) (truePos st) (trueNeg st) (misclasses st) (sum_mse st)
  else st.

(** Lines 345-347: [output.map(function(value, i) { return target[i] - value; })]. *)
Definition output_error_vector (out target : list num) : list num :=
  map (fun i => num_at target i - num_at out i) (seq 0 (length out)).

(** The accounting for one example once its output is known, lines 311-348. *)
Definition test_account (isBinary : bool) (thresh : num) (d : example) (out : list num)
    (st : test_state) : test_state :=
  let target := output d in
  let '(actual, expected) := classify isBinary thresh out target in
  let st :=
    if negb (actual ==? expected) then
      mkTestState (falsePos st) (falseNeg st) (truePos st) (trueNeg st)
        (misclasses st ++ [mkMisclass d actual expected]) (sum_mse st)
    else st in
  let st := if isBinary then count_binary actual expected st else st in
  mkTestState (falsePos st) (falseNeg st) (truePos st) (trueNeg st) (misclasses st)
    (sum_mse st + mse (output_error_vector out target)).

(** The loop of lines 307-349. *)
Fixpoint test_examples (isBinary : bool) (data : list example)
    (st : NeuralNetwork * test_state) : result (NeuralNetwork * test_state) :=
  match data with
  | [] => Ok st
  | d :: data' =>
      let '(net, ts) := st in
      '(net, out) <- runInput (input d) net ;;
      out <- deref out ;;
      test_examples isBinary data' (net, test_account isBinary (binaryThresh net) d out ts)
  end.

(** The statistics that are only reported for a single output node. *)
Record binary_stats : Type := mkBinaryStats {
  s_trueNeg : nat;
  s_truePos : nat;
  s_falseNeg : nat;
  s_falsePos : nat;
  s_total : nat;
  s_precision : num;
  s_recall : num;
  s_accuracy : num
}.

(** The object [test] returns. *)
Record test_stats : Type := mkTestStats {
  s_error : num;
  s_misclasses : list misclass;
  s_binary : option binary_stats
}.

Definition of_nat (n : nat) : num := of_Z (Z.of_nat n).

(** [test(data)] *)
Definition test (data : training_data) (net : NeuralNetwork)
    : result (NeuralNetwork * test_stats) :=
  let data := formatData data in
  d0 <- elem data 0 ;;
  let isBinary := (length (output d0) =? 1)%nat in
  '(net, ts) <-
    test_examples isBinary data (net, mkTestState 0 0 0 0 [] (of_Z 0)) ;;
  let error := sum_mse ts / of_nat (length data) in
  Ok (net,
      mkTestStats error (misclasses ts)
        (if isBinary then
           Some (mkBinaryStats (trueNeg ts) (truePos ts) (falseNeg ts) (falsePos ts) (length data)
                   (of_nat (truePos ts) / of_nat (truePos ts + falsePos ts))
                   (of_nat (truePos ts) / of_nat (truePos ts + falseNeg ts))
                   (of_nat (trueNeg ts + truePos ts) / of_nat (length data)))
         else None)).

(** *** [toJSON] and [fromJSON] *)

(** The record of one node in the serialized form; a node of layer 0 has
    neither field. *)
Record node_json : Type := mkNodeJson {
  nj_bias : option num;
  nj_weights : option (obj num)
}.

(** The object [toJSON] returns and [fromJSON] reads. *)
Record network_json : Type := mkNetworkJson {
  j_layers : list (obj node_json);
  j_outputLookup : bool;
  j_inputLookup : bool
}.

(** [a[k]] for a property key [k]: only an index key names an element. *)
Definition num_at_key (a : list num) (k : key) : num :=
  match k with
  | KIdx n => num_at a n
  | KStr _ => NaN
  end.

(** Lines 415-423: the node names of a layer. *)
Definition toJSON_nodes (net : NeuralNetwork) (layer : nat) : result (list key) :=
  match layer, inputLookup net with
  | 0, Some l => Ok (Object_keys l)
  | _, _ =>
      match is_outputLayer net layer, outputLookup net with
      | true, Some l => Ok (Object_keys l)
      | _, _ => size <- size_of_layer net layer ;; Ok (map KIdx (range 0 size))
      end
  end.

(** The loop over [k], lines 432-438: the weights object of node [j]. *)
Fixpoint toJSON_weights (net : NeuralNetwork) (layer j : nat) (previous : list key)
    (ws : obj num) : result (obj num) :=
  match previous with
  | [] => Ok ws
  | k :: previous' =>
      w <- deref (weights net) ;;
      wl <- elem w layer ;;
      row <- elem wl j ;;
      let v :=
        match layer, inputLookup net with
        | 1, Some l =>
            match obj_get l k with
            | Some index => num_at row index
            | None => NaN
            end
        | _, _ => num_at_key row k
        end in
      toJSON_weights net layer j previous' (obj_set ws k v)
  end.

(** The body of the loop over the nodes, lines 426-439. *)
Definition toJSON_node (net : NeuralNetwork) (layer : nat) (previous : list key)
    (j : nat) (node : key) (l : obj node_json) : result (obj node_json) :=
  if (0 <? layer)%nat then
    bs <- deref (biases net) ;;
    bl <- elem bs layer ;;
    ws <- toJSON_weights net layer j previous [] ;;
    Ok (obj_set l node (mkNodeJson (Some (num_at bl j)) (Some ws)))
  else Ok (obj_set l node (mkNodeJson None None)).

(** The loop over the nodes of one layer, from position [j] on. *)
Fixpoint toJSON_layer_nodes (net : NeuralNetwork) (layer : nat) (previous : list key)
    (j : nat) (nodes : list key) (l : obj node_json) : result (obj node_json) :=
  match nodes with
  | [] => Ok l
  | node :: nodes' =>
      l <- toJSON_node net layer previous j node l ;;
      toJSON_layer_nodes net layer previous (S j) nodes' l
  end.

(** The body of the loop over the layers, lines 411-440. *)
Definition toJSON_layer (net : NeuralNetwork) (layer : nat) (layers : list (obj node_json))
    : result (list (obj node_json)) :=
  nodes <- toJSON_nodes net layer ;;
  let previous := Object_keys (nth (layer - 1) layers []) in
  l <- toJSON_layer_nodes net layer previous 0 nodes [] ;;
  Ok (array_set [] layers layer l).

(** [toJSON()] *)
Definition toJSON (net : NeuralNetwork) : result network_json :=
  layers <- for_loop (Z.to_nat (outputLayer_number net + 1)) 0 (toJSON_layer net) [] ;;
  Ok (mkNetworkJson layers
        (match outputLookup net with Some _ => true | None => false end)
        (match inputLookup net with Some _ => true | None => false end)).

(** Modelled from the spec: [lookup.lookupFromHash] of the [lookup] module,
    which is not part of the source file.  Each key of the record receives the
    next index, in the order the record enumerates its keys. *)
Definition lookupFromHash {A} (hash : obj A) : lookup_table :=
  fold_left (fun l ik => obj_set l (snd ik) (fst ik))
    (combine (seq 0 (length hash)) (Object_keys hash)) [].

(** Lines 461-466. *)
Definition fromJSON_lookups (json : network_json) (i : nat) (layer : obj node_json)
    (net : NeuralNetwork) : NeuralNetwork :=
  let no_node_0 := match obj_get layer (KIdx 0) with Some _ => false | None => true end in
  if (i =? 0)%nat && (no_node_0 || j_inputLookup json) then
    set_inputLookup net (Some (lookupFromHash layer))
  else if is_outputLayer net i && (no_node_0 || j_outputLookup json) then
    set_outputLookup net (Some (lookupFromHash layer))
  else net.

(** The loop over the nodes, lines 474-478: the rows of biases and weights. *)
Fixpoint fromJSON_nodes (layer : obj node_json) (j : nat) (nodes : list key)
    (rows : list num * list (list num)) : result (list num * list (list num)) :=
  match nodes with
  | [] => Ok rows
  | node :: nodes' =>
      nj <- deref (obj_get layer node) ;;
      let b := match nj_bias nj with Some b => b | None => NaN end in
      fromJSON_nodes layer (S j) nodes'
        (array_set NaN (fst rows) j b, array_set [] (snd rows) j (toArray (nj_weights nj)))
  end.

(** The body of the loop over the layers, lines 460-478. *)
Definition fromJSON_layer (json : network_json) (i : nat) (net : NeuralNetwork)
    : result NeuralNetwork :=
  layer <- elem (j_layers json) i ;;
  let net := fromJSON_lookups json i layer net in
  let nodes := Object_keys layer in
  szs <- deref (sizes net) ;;
  let net := set_sizes net (Some (array_set 0 szs i (length nodes))) in
  '(bl, wl) <- fromJSON_nodes layer 0 nodes ([], []) ;;
  ws <- deref (weights net) ;;
  let net := set_weights net (Some (array_set [] ws i wl)) in
  bs <- deref (biases net) ;;
  let net := set_biases net (Some (array_set [] bs i bl)) in
  os <- deref (outputs net) ;;
  Ok (set_outputs net (Some (array_set [] os i []))).

(** [fromJSON(json)], on the network [net] that receives the parameters. *)
Definition fromJSON (json : network_json) (net : NeuralNetwork) : result NeuralNetwork :=
  let size := length (j_layers json) in
  let net := set_outputLayer net (Some (Z.of_nat size - 1)%Z) in
  let net := set_sizes net (Some (repeat 0 size)) in
  let net := set_weights net (Some (repeat [] size)) in
  let net := set_biases net (Some (repeat [] size)) in
  let net := set_outputs net (Some (repeat [] size)) in
  for_loop size 0 (fromJSON_layer json) net.

End Engine.

Arguments NeuralNetwork num : clear implicits.
Arguments ctor_options num : clear implicits.
Arguments random_source num : clear implicits.
Arguments example num : clear implicits.
Arguments training_data num : clear implicits.
Arguments train_options num : clear implicits.
Arguments event num : clear implicits.
Arguments train_result num : clear implicits.
Arguments misclass num : clear implicits.
Arguments test_state num : clear implicits.
Arguments binary_stats num : clear implicits.
Arguments test_stats num : clear implicits.
Arguments node_json num : clear implicits.
Arguments network_json num : clear implicits.

(* ================================================================== *)
(** ** IEEE-754 binary64: the arithmetic of the program *)

Module IEEE.

(** What the runtime supplies and ECMAScript leaves to the implementation
    outside a few prescribed values: [Math.exp] and [Math.pow(x, 2)]. *)
Record runtime : Type := mkRuntime {
  rt_exp : float -> float;
  rt_pow_2 : float -> float
}.

(** The values of [Math.exp] that ECMAScript prescribes. *)
Definition exp_prescribed (E : float -> float) : Prop :=
  E nan = nan /\ E zero = one /\ E neg_zero = one /\
  E infinity = infinity /\ E neg_infinity = zero.

(** The nearest double to an integer. *)
Definition float_of_Z (z : Z) : float := SF2Prim (binary_normalize prec emax z 0 false).

(** [ToBoolean] on a number. *)
Definition float_truthy (x : float) : bool := negb (is_zero x || is_nan x).

(** [Math.max] of two numbers: [NaN] wins, and [+0] is larger than [-0]. *)
Definition float_max2 (a b : float) : float :=
  if is_nan a || is_nan b then nan
  else if PrimFloat.ltb a b then b
  else if PrimFloat.ltb b a then a
  else if get_sign a then b else a.

Definition float_max (l : list float) : float := fold_left float_max2 l neg_infinity.

(** The remainder [x % y]: [x - y * q] for the integer [q] that is [x / y]
    rounded towards zero, which is a double; it has the sign of [x].  [NaN]
    when [x] is infinite or [y] is zero, and [x] when [y] is infinite. *)
Definition SFrem (x y : spec_float) : spec_float :=
  match x, y with
  | S754_nan, _ | _, S754_nan => S754_nan
  | S754_infinity _, _ => S754_nan
  | _, S754_zero _ => S754_nan
  | _, S754_infinity _ => x
  | S754_zero _, _ => x
  | S754_finite sx mx ex, S754_finite _ my ey =>
      let e := Z.min ex ey in
      let a := (Zpos mx * 2 ^ (ex - e))%Z in
      let b := (Zpos my * 2 ^ (ey - e))%Z in
      binary_normalize prec emax (cond_Zopp sx (a mod b)) e sx
  end.

Definition float_rem (x y : float) : float := SF2Prim (SFrem (Prim2SF x) (Prim2SF y)).

#[export] Instance ieee (rt : runtime) : JSNumber float := {|
  of_Z := float_of_Z;
  NaN := nan;
  add := PrimFloat.add;
  sub := PrimFloat.sub;
  mul := PrimFloat.mul;
  div := PrimFloat.div;
  neg := PrimFloat.opp;
  rem := float_rem;
  gtb := fun x y => PrimFloat.ltb y x;
  ltb := PrimFloat.ltb;
  leb := PrimFloat.leb;
  eqb := PrimFloat.eqb;
  truthy := float_truthy;
  Math_exp := rt_exp rt;
  Math_pow_2 := rt_pow_2 rt;
  Math_max := float_max
|}.

(** A reference runtime, for evaluating the model: [exp] by halving the
    argument [halvings] times, a Taylor polynomial, and repeated squaring. *)
Fixpoint taylor_exp (terms : nat) (n : float) (x term acc : float) : float :=
  match terms with
  | 0 => acc
  | S t => let term := (term * x / n)%float in taylor_exp t (n + 1)%float x term (acc + term)%float
  end.

Fixpoint squarings (k : nat) (y : float) : float :=
  match k with
  | 0 => y
  | S k' => squarings k' (y * y)%float
  end.

Definition halvings : nat := 12.

Definition reference_exp (x : float) : float :=
  if is_nan x then nan
  else if PrimFloat.eqb x infinity then infinity
  else if PrimFloat.eqb x neg_infinity then zero
  else squarings halvings (taylor_exp 18 one (x / 4096)%float one one).

Definition reference : runtime := mkRuntime reference_exp (fun x => (x * x)%float).

End IEEE.

(* ================================================================== *)
(** ** Exact arithmetic: the real numbers and one not-a-number value *)

Module Exact.

(** A real number, or [None] for every result that is not one ([NaN], and
    the infinities of a division by zero or of [Math.max()]). *)
Definition xreal : Type := option R.

Definition lift2 (f : R -> R -> R) (x y : xreal) : xreal :=
  match x, y with
  | Some a, Some b => Some (f a b)
  | _, _ => None
  end.

Definition xdiv (x y : xreal) : xreal :=
  match x, y with
  | Some a, Some b => if Req_dec_T b 0 then None else Some (a / b)%R
  | _, _ => None
  end.

Definition xcompare (test : R -> R -> bool) (x y : xreal) : bool :=
  match x, y with
  | Some a, Some b => test a b
  | _, _ => false
  end.

Definition Rgtb (a b : R) : bool := if Rlt_dec b a then true else false.
Definition Rltb (a b : R) : bool := if Rlt_dec a b then true else false.
Definition Rleb (a b : R) : bool := if Rle_dec a b then true else false.
Definition Reqb (a b : R) : bool := if Req_dec_T a b then true else false.

(** [a] rounded towards zero. *)
Definition Rtrunc (a : R) : Z :=
  if Rle_dec 0 a then Int_part a else (- Int_part (- a))%Z.

Definition xrem (x y : xreal) : xreal :=
  match x, y with
  | Some a, Some b => if Req_dec_T b 0 then None else Some (a - b * IZR (Rtrunc (a / b)))%R
  | _, _ => None
  end.

Definition xtruthy (x : xreal) : bool :=
  match x with
  | Some a => negb (Reqb a 0)
  | None => false
  end.

Definition xmax (l : list xreal) : xreal :=
  match l with
  | [] => None
  | x :: l' => fold_left (lift2 Rmax) l' x
  end.

#[export] Instance exact : JSNumber xreal := {|
  of_Z := fun z => Some (IZR z);
  NaN := None;
  add := lift2 Rplus;
  sub := lift2 Rminus;
  mul := lift2 Rmult;
  div := xdiv;
  neg := option_map Ropp;
  rem := xrem;
  gtb := xcompare Rgtb;
  ltb := xcompare Rltb;
  leb := xcompare Rleb;
  eqb := xcompare Reqb;
  truthy := xtruthy;
  Math_exp := option_map exp;
  Math_pow_2 := option_map (fun a => (a * a)%R);
  Math_max := xmax
|}.

End Exact.

(* ================================================================== *)
(** ** Arrays, loops and objects: basic facts *)

(** The array left by the assignments [a[i] = f i] for [lo <= i < lo + n]. *)
Definition patched {A} (old : list A) (lo n : nat) (f : nat -> A) : list A :=
  firstn lo old ++ map f (seq lo n) ++ skipn (lo + n) old.

Section ArrayFacts.
Context {A : Type}.
Implicit Types (a p r : list A) (h v : A).

Lemma array_set_prefix h p r i v :
  length p = i -> array_set h (p ++ r) i v = p ++ v :: tl r.
Proof.
  revert i; induction p as [|x p IH]; intros i Hi; subst i; simpl.
  - destruct r; reflexivity.
  - f_equal. apply IH. reflexivity.
Qed.

Lemma tl_skipn a k : tl (skipn k a) = skipn (S k) a.
Proof.
  revert a; induction k as [|k IH]; intros [|x a]; try reflexivity.
  change (tl (skipn k a) = skipn (S k) a). apply IH.
Qed.

Lemma array_set_length_in h a i v : i < length a -> length (array_set h a i v) = length a.
Proof.
  revert i; induction a as [|x a IH]; intros [|i] Hi; simpl in *; try lia.
  rewrite IH by lia. reflexivity.
Qed.

Lemma nth_error_array_set_eq h a i v : nth_error (array_set h a i v) i = Some v.
Proof.
  revert a; induction i as [|i IH]; intros [|x a]; simpl; auto.
Qed.

Lemma nth_error_array_set_neq h a i k v :
  k <> i -> i < length a -> nth_error (array_set h a i v) k = nth_error a k.
Proof.
  revert i k; induction a as [|x a IH]; intros [|i] [|k] Hk Hi; simpl in *; try lia; auto.
  apply IH; lia.
Qed.

Lemma nth_array_set_neq h a i k v d :
  k <> i -> i < length a -> nth k (array_set h a i v) d = nth k a d.
Proof.
  revert i k; induction a as [|x a IH]; intros [|i] [|k] Hk Hi; simpl in *; try lia; auto.
  apply IH; lia.
Qed.

Lemma nth_array_set_eq h a i v d : nth i (array_set h a i v) d = v.
Proof.
  revert a; induction i as [|i IH]; intros [|x a]; simpl; auto.
Qed.

Lemma array_set_twice h a i v w : array_set h (array_set h a i v) i w = array_set h a i w.
Proof.
  revert a; induction i as [|i IH]; intros [|x a]; simpl; auto; f_equal; auto.
Qed.

Lemma array_set_same h a i v : nth_error a i = Some v -> array_set h a i v = a.
Proof.
  revert a; induction i as [|i IH]; intros [|x a]; simpl; intros H; try discriminate.
  - congruence.
  - f_equal. auto.
Qed.

Lemma array_set_length h a i v : length (array_set h a i v) = Nat.max (length a) (S i).
Proof.
  revert a; induction i as [|i IH]; intros [|x a]; simpl; try rewrite IH; simpl; lia.
Qed.

Lemma nth_array_set_other h a i k v : k <> i -> nth k (array_set h a i v) h = nth k a h.
Proof.
  revert a k; induction i as [|i IH]; intros [|x a] [|k] Hk; simpl; try lia; auto.
  - destruct k; reflexivity.
  - rewrite IH by lia. destruct k; reflexivity.
Qed.

Lemma nth_error_nth_in a i d : i < length a -> nth_error a i = Some (nth i a d).
Proof.
  revert i; induction a as [|x a IH]; intros [|i] Hi; simpl in *; try lia; auto.
  apply IH; lia.
Qed.

Lemma patched_none a lo f : patched a lo 0 f = a.
Proof.
  unfold patched. simpl. rewrite Nat.add_0_r. apply firstn_skipn.
Qed.

Lemma patched_snoc h a lo n f :
  lo <= length a ->
  array_set h (patched a lo n f) (lo + n) (f (lo + n)) = patched a lo (S n) f.
Proof.
  intros Hlo. unfold patched.
  rewrite app_assoc, array_set_prefix.
  - rewrite tl_skipn, seq_S, map_app, <- !app_assoc. simpl.
    replace (lo + S n) with (S (lo + n)) by lia. reflexivity.
  - rewrite length_app, length_firstn, length_map, length_seq. lia.
Qed.

Lemma patched_push h a n f :
  array_set h (patched a 0 n f) n (f n) = patched a 0 (S n) f.
Proof. apply (patched_snoc h a (lo := 0) n f). lia. Qed.

Lemma patched_push_from_1 h a l f :
  1 <= l -> 1 <= length a ->
  array_set h (patched a 1 (l - 1) f) l (f l) = patched a 1 (S l - 1) f.
Proof.
  intros Hl Ha. replace (S l - 1) with (S (l - 1)) by lia.
  rewrite <- (patched_snoc h a (lo := 1) (l - 1) f) by lia.
  replace (1 + (l - 1)) with l by lia. reflexivity.
Qed.

Lemma patched_cons h a lo n f :
  lo < length a ->
  array_set h (patched a (S lo) n f) lo (f lo) = patched a lo (S n) f.
Proof.
  intros Hlo. unfold patched.
  destruct (nth_error a lo) as [x|] eqn:Hx.
  2:{ apply nth_error_None in Hx. lia. }
  assert (Hf : firstn (S lo) a = firstn lo a ++ [x]).
  { clear Hlo. revert a Hx; induction lo as [|lo IH]; intros [|y a] Hx; simpl in *;
      try discriminate.
    - congruence.
    - f_equal. apply IH. exact Hx. }
  rewrite Hf, <- app_assoc, array_set_prefix.
  - simpl. replace (lo + S n) with (S (lo + n)) by lia. reflexivity.
  - rewrite length_firstn. lia.
Qed.

Lemma patched_ext a lo n f g :
  (forall i, lo <= i < lo + n -> f i = g i) -> patched a lo n f = patched a lo n g.
Proof.
  intros H. unfold patched. do 2 f_equal.
  apply map_ext_in. intros i Hi. apply in_seq in Hi. apply H. lia.
Qed.

Lemma length_patched a lo n f :
  lo <= length a -> length (patched a lo n f) = Nat.max (length a) (lo + n).
Proof.
  intros Hlo. unfold patched.
  rewrite !length_app, length_firstn, length_map, length_seq, length_skipn. lia.
Qed.

Lemma nth_error_patched_in a lo n f i :
  lo <= length a -> lo <= i < lo + n -> nth_error (patched a lo n f) i = Some (f i).
Proof.
  intros Hlo Hi. unfold patched.
  rewrite nth_error_app2; rewrite length_firstn; try lia.
  rewrite nth_error_app1 by (rewrite length_map, length_seq; lia).
  rewrite nth_error_map, nth_error_seq.
  replace (Nat.min lo (length a)) with lo by lia.
  destruct (Nat.ltb_spec (i - lo) n); try lia.
  simpl. f_equal. f_equal. lia.
Qed.

Lemma nth_error_patched_below a lo n f i :
  lo <= length a -> i < lo -> nth_error (patched a lo n f) i = nth_error a i.
Proof.
  intros Hlo Hi. unfold patched.
  rewrite nth_error_app1 by (rewrite length_firstn; lia).
  rewrite nth_error_firstn.
  destruct (Nat.ltb_spec i lo); [reflexivity | lia].
Qed.

Lemma nth_error_patched_above a lo n f i :
  lo <= length a -> lo + n <= i -> nth_error (patched a lo n f) i = nth_error a i.
Proof.
  intros Hlo Hi. unfold patched.
  rewrite nth_error_app2; rewrite length_firstn; try lia.
  rewrite nth_error_app2; rewrite length_map, length_seq; try lia.
  rewrite nth_error_skipn. f_equal. lia.
Qed.

Lemma nth_patched_in a lo n f i d :
  lo <= length a -> lo <= i < lo + n -> nth i (patched a lo n f) d = f i.
Proof.
  intros Hlo Hi. apply nth_error_nth. apply nth_error_patched_in; assumption.
Qed.

Lemma nth_patched_below a lo n f i d :
  lo <= length a -> i < lo -> nth i (patched a lo n f) d = nth i a d.
Proof.
  intros Hlo Hi.
  rewrite (nth_error_nth (patched a lo n f) i d (x := nth i a d)); [reflexivity|].
  rewrite nth_error_patched_below by assumption. apply nth_error_nth_in. lia.
Qed.

Lemma nth_patched_above a lo n f i d :
  lo <= length a -> lo + n <= i -> nth i (patched a lo n f) d = nth i a d.
Proof.
  intros Hlo Hi. destruct (Nat.lt_ge_cases i (length a)) as [Hl|Hl].
  - rewrite (nth_error_nth (patched a lo n f) i d (x := nth i a d)); [reflexivity|].
    rewrite nth_error_patched_above by assumption. apply nth_error_nth_in. lia.
  - rewrite !nth_overflow; [reflexivity | lia |].
    rewrite length_patched by assumption. lia.
Qed.

End ArrayFacts.

(** Reads an element just written, and merges two writes at one index. *)
Ltac array_reads :=
  unfold elem;
  repeat (rewrite ?nth_error_array_set_eq, ?array_set_twice; progress cbn [deref bind]);
  rewrite ?nth_error_array_set_eq, ?array_set_twice.

Section LoopFacts.
Context {St : Type}.

Lemma for_loop_exact (F : nat -> St) n lo body :
  (forall i, lo <= i < lo + n -> body i (F i) = Ok (F (S i))) ->
  for_loop n lo body (F lo) = Ok (F (lo + n)).
Proof.
  revert lo; induction n as [|n IH]; intros lo H; simpl.
  - rewrite Nat.add_0_r. reflexivity.
  - rewrite H by lia. simpl. rewrite IH.
    + do 2 f_equal. lia.
    + intros i Hi. apply H. lia.
Qed.

Lemma for_down_exact (F : nat -> St) n body :
  (forall i, i < n -> body i (F (S i)) = Ok (F i)) ->
  for_down n body (F n) = Ok (F 0).
Proof.
  induction n as [|n IH]; intros H; simpl.
  - reflexivity.
  - rewrite H by lia. simpl. apply IH. intros i Hi. apply H. lia.
Qed.

Lemma for_loop_inv (P : nat -> St -> Prop) n lo body s :
  P lo s ->
  (forall i s, lo <= i < lo + n -> P i s -> exists s', body i s = Ok s' /\ P (S i) s') ->
  exists s', for_loop n lo body s = Ok s' /\ P (lo + n) s'.
Proof.
  revert lo s; induction n as [|n IH]; intros lo s H0 Hstep; simpl.
  - exists s. rewrite Nat.add_0_r. auto.
  - destruct (Hstep lo s ltac:(lia) H0) as (s1 & -> & H1). simpl.
    destruct (IH (S lo) s1 H1) as (s2 & Hs2 & H2).
    + intros i s' Hi. apply Hstep. lia.
    + exists s2. split; [exact Hs2|]. replace (lo + S n) with (S lo + n) by lia. exact H2.
Qed.

Lemma for_loop_ext n lo (body body' : nat -> St -> result St) s :
  (forall i s, lo <= i < lo + n -> body i s = body' i s) ->
  for_loop n lo body s = for_loop n lo body' s.
Proof.
  revert lo s; induction n as [|n IH]; intros lo s H; simpl.
  - reflexivity.
  - rewrite H by lia. destruct (body' lo s); simpl; auto.
    apply IH. intros i s' Hi. apply H. lia.
Qed.

End LoopFacts.

Section NumAtFacts.
Context {num : Type} {N : JSNumber num}.

Lemma num_at_patched_next (a : list num) n f : num_at (patched a 0 n f) n = num_at a n.
Proof. unfold num_at. apply nth_patched_above; lia. Qed.

Lemma num_at_patched_in (a : list num) n f i : i < n -> num_at (patched a 0 n f) i = f i.
Proof. intros Hi. unfold num_at. apply nth_patched_in; lia. Qed.

End NumAtFacts.

(* ================================================================== *)
(** ** The forward pass as a function of the parameters *)

Section Forward.
Context {num : Type} {N : JSNumber num}.
Local Open Scope js_scope.

(** The activation of a unit with bias [b] and incoming weights [w] on the
    previous layer's activations [inp]. *)
Definition activation (b : num) (w inp : list num) : num :=
  sigmoid (fold_left (fun sum k => sum + num_at w k * num_at inp k) (seq 0 (length w)) b).

(** The activations of layer [l], written over what [outputs[l]] held. *)
Fixpoint activations (szs : list nat) (bs : list (list num)) (ws : list (list (list num)))
    (os : list (list num)) (inp : list num) (l : nat) : list num :=
  match l with
  | 0 => inp
  | S l' =>
      patched (nth l os []) 0 (nth l szs 0)
        (fun j => activation (num_at (nth l bs []) j) (nth j (nth l ws []) [])
                    (activations szs bs ws os inp l'))
  end.

Lemma weighted_sum_Some (w inp : list num) (b : num) :
  weighted_sum w (Some inp) b
  = Ok (fold_left (fun sum k => sum + num_at w k * num_at inp k) (seq 0 (length w)) b).
Proof. destruct w; reflexivity. Qed.

Lemma elem_in {A} (a : list A) (i : nat) (d : A) : i < length a -> elem a i = Ok (nth i a d).
Proof. intros H. unfold elem. rewrite (nth_error_nth_in a d H). reflexivity. Qed.

Lemma set_outputs_same (net : NeuralNetwork num) os :
  outputs net = Some os -> set_outputs net (Some os) = net.
Proof. destruct net; simpl; intros ->; reflexivity. Qed.

Lemma runInput_nodes (net : NeuralNetwork num) ws bs os layer size inp :
  weights net = Some ws -> biases net = Some bs -> outputs net = Some os ->
  layer < length ws -> layer < length bs -> layer < length os ->
  size <= length (nth layer ws []) ->
  for_loop size 0 (runInput_node layer (Some inp)) net
  = Ok (set_outputs net
          (Some (array_set [] os layer
                   (patched (nth layer os []) 0 size
                      (fun j => activation (num_at (nth layer bs []) j)
                                  (nth j (nth layer ws []) []) inp))))).
Proof.
  intros Hw Hb Ho Hlw Hlb Hlo Hsz.
  set (f := fun j => activation (num_at (nth layer bs []) j) (nth j (nth layer ws []) []) inp).
  set (F := fun node =>
              set_outputs net (Some (array_set [] os layer (patched (nth layer os []) 0 node f)))).
  assert (H0 : F 0 = net).
  { unfold F. rewrite patched_none, array_set_same.
    - apply set_outputs_same, Ho.
    - apply nth_error_nth_in, Hlo. }
  rewrite <- H0 at 1. apply (for_loop_exact F). intros node Hnode.
  unfold runInput_node, F. cbn [weights biases outputs set_outputs].
  rewrite Hw, Hb. cbn [deref bind].
  rewrite (elem_in ws [] Hlw), (elem_in bs [] Hlb). cbn [bind].
  rewrite (elem_in (nth layer ws []) []) by lia. cbn [bind].
  rewrite weighted_sum_Some. cbn [bind].
  unfold elem. rewrite nth_error_array_set_eq. cbn [deref bind].
  rewrite array_set_twice.
  rewrite <- (patched_push NaN (nth layer os []) node f).
  reflexivity.
Qed.

Lemma runInput_exact (net : NeuralNetwork num) szs bs ws os L input :
  sizes net = Some szs -> outputLayer net = Some (Z.of_nat L) ->
  weights net = Some ws -> biases net = Some bs -> outputs net = Some os ->
  L < length ws -> L < length bs -> L < length os ->
  (forall l, 1 <= l <= L -> nth l szs 0 <= length (nth l ws [])) ->
  runInput input net
  = Ok (set_outputs net (Some (patched os 0 (S L) (activations szs bs ws os input))),
        match L with
        | 0 => None
        | S L' => Some (activations szs bs ws os input L)
        end).
Proof.
  intros Hs HL Hw Hb Ho Hlw Hlb Hlo Hrows.
  set (act := activations szs bs ws os input).
  unfold runInput. rewrite Ho. cbn [deref bind].
  unfold outputLayer_number. cbn [outputLayer set_outputs]. rewrite HL, Nat2Z.id.
  set (F := fun l =>
              (set_outputs net (Some (patched os 0 l act)),
               Some (act (l - 1)%nat),
               match l with
               | 0 | 1 => None
               | S (S _) => Some (act (l - 1)%nat)
               end)).
  assert (H1 : (set_outputs net (Some (array_set [] os 0 input)), Some input, @None (list num))
               = F 1).
  { unfold F. f_equal. f_equal. f_equal. f_equal.
    rewrite <- (patched_none os 0 act) at 1.
    apply (patched_push [] os 0 act). }
  rewrite H1, (for_loop_exact F).
  - cbn [bind F]. destruct L as [|L']; reflexivity.
  - intros l Hl. unfold runInput_layer, F, size_of_layer.
    cbn [sizes set_outputs]. rewrite Hs. cbn [deref bind].
    assert (Hol : nth_error (patched os 0 l act) l = Some (nth l os [])).
    { rewrite nth_error_patched_above by lia. apply nth_error_nth_in. lia. }
    erewrite runInput_nodes with (ws := ws) (bs := bs) (os := patched os 0 l act);
      try reflexivity; try assumption; try lia.
    2:{ rewrite length_patched by lia. lia. }
    2:{ apply Hrows. lia. }
    cbn [bind outputs set_outputs deref].
    rewrite (nth_error_nth (patched os 0 l act) l [] Hol).
    assert (Hact : patched (nth l os []) 0 (nth l szs 0)
               (fun j => activation (num_at (nth l bs []) j) (nth j (nth l ws []) [])
                           (act (l - 1)%nat)) = act l).
    { destruct l as [|l']; [lia|]. unfold act. cbn [activations Nat.sub].
      rewrite Nat.sub_0_r. reflexivity. }
    rewrite Hact, nth_error_array_set_eq, (patched_push [] os l act).
    cbn [Nat.sub]. rewrite Nat.sub_0_r.
    destruct l as [|l']; [lia|]. reflexivity.
Qed.

End Forward.

(* ================================================================== *)
(** ** The error and delta pass as a function of the activations *)

Section Backward.
Context {num : Type} {N : JSNumber num}.
Local Open Scope js_scope.

(** The error backpropagated to unit [node] from the deltas [dnext] of the
    next layer through its weights [wnext]. *)
Definition backprop (dnext : list num) (wnext : list (list num)) (node : nat) : num :=
  fold_left (fun error k => error + num_at dnext k * num_at (nth k wnext []) node)
    (seq 0 (length dnext)) (of_Z 0).

(** The delta of a unit from its error and its activation. *)
Definition delta_of (error out : num) : num := error * out * (of_Z 1 - out).

(** The errors and the deltas of layer [L - d], written over what the two
    arrays held.  [os] are the activations left by the forward pass. *)
Fixpoint back (szs : list nat) (ws : list (list (list num))) (os es ds : list (list num))
    (target : list num) (L d : nat) : list num * list num :=
  let l := (L - d)%nat in
  let err :=
    match d with
    | 0 => fun j => num_at target j - num_at (nth l os []) j
    | S d' => backprop (snd (back szs ws os es ds target L d')) (nth (l + 1) ws [])
    end in
  (patched (nth l es []) 0 (nth l szs 0) err,
   patched (nth l ds []) 0 (nth l szs 0) (fun j => delta_of (err j) (num_at (nth l os []) j))).

Definition errors_of szs ws os es ds target L (l : nat) : list num :=
  fst (back szs ws os es ds target L (L - l)).

Definition deltas_of szs ws os es ds target L (l : nat) : list num :=
  snd (back szs ws os es ds target L (L - l)).

Lemma backpropagated_error_exact (net : NeuralNetwork num) ws ds layer node :
  weights net = Some ws -> deltas net = Some ds ->
  layer + 1 < length ws -> layer + 1 < length ds ->
  length (nth (layer + 1) ds []) <= length (nth (layer + 1) ws []) ->
  backpropagated_error net layer node
  = Ok (backprop (nth (layer + 1) ds []) (nth (layer + 1) ws []) node).
Proof.
  intros Hw Hd Hlw Hld Hrows.
  unfold backpropagated_error, backprop. rewrite Hd. cbn [deref bind].
  rewrite (elem_in ds [] Hld). cbn [bind].
  set (dl := nth (layer + 1) ds []) in *. set (wl := nth (layer + 1) ws []) in *.
  set (F := fun k => fold_left (fun error k => error + num_at dl k * num_at (nth k wl []) node)
                       (seq 0 k) (of_Z 0)).
  change (of_Z 0) with (F 0) at 1.
  rewrite (for_loop_exact F); [reflexivity|].
  intros k Hk. rewrite Hw. cbn [deref bind].
  rewrite (elem_in ws [] Hlw). cbn [bind]. fold wl.
  rewrite (elem_in wl []) by lia. cbn [bind].
  unfold F. rewrite seq_S, fold_left_app. reflexivity.
Qed.

(** The error of unit [node] of layer [layer], as [calculateDeltas] takes it. *)
Definition node_error (ws : list (list (list num))) (os ds : list (list num))
    (target : list num) (L layer node : nat) : num :=
  if (layer =? L)%nat then num_at target node - num_at (nth layer os []) node
  else backprop (nth (layer + 1) ds []) (nth (layer + 1) ws []) node.

Lemma calculateDeltas_nodes (net : NeuralNetwork num) ws os es ds target L layer size :
  outputLayer net = Some (Z.of_nat L) ->
  weights net = Some ws -> outputs net = Some os -> errors net = Some es ->
  deltas net = Some ds ->
  layer < length os -> layer < length es -> layer < length ds ->
  (layer <> L -> layer + 1 < length ws /\ layer + 1 < length ds /\
                 length (nth (layer + 1) ds []) <= length (nth (layer + 1) ws [])) ->
  for_loop size 0 (calculateDeltas_node target layer) net
  = Ok (set_deltas
          (set_errors net
             (Some (array_set [] es layer
                      (patched (nth layer es []) 0 size (node_error ws os ds target L layer)))))
          (Some (array_set [] ds layer
                   (patched (nth layer ds []) 0 size
                      (fun j => delta_of (node_error ws os ds target L layer j)
                                  (num_at (nth layer os []) j)))))).
Proof.
  intros HL Hw Ho He Hd Hlo Hle Hld Hnext.
  set (err := node_error ws os ds target L layer).
  set (dlt := fun j => delta_of (err j) (num_at (nth layer os []) j)).
  set (F := fun node =>
              set_deltas
                (set_errors net
                   (Some (array_set [] es layer (patched (nth layer es []) 0 node err))))
                (Some (array_set [] ds layer (patched (nth layer ds []) 0 node dlt)))).
  assert (H0 : F 0 = net).
  { unfold F. rewrite !patched_none, !array_set_same by (apply nth_error_nth_in; assumption).
    destruct net; simpl in *. subst. reflexivity. }
  rewrite <- H0 at 1. apply (for_loop_exact F). intros node Hnode.
  unfold calculateDeltas_node, F.
  cbn [outputs errors deltas set_errors set_deltas]. rewrite Ho. cbn [deref bind].
  rewrite (elem_in os [] Hlo). cbn [bind].
  assert (Herr : (if is_outputLayer
                        (set_deltas
                           (set_errors net
                              (Some (array_set [] es layer (patched (nth layer es []) 0 node err))))
                           (Some (array_set [] ds layer (patched (nth layer ds []) 0 node dlt))))
                        layer
                  then Ok (num_at target node - num_at (nth layer os []) node)
                  else backpropagated_error
                         (set_deltas
                            (set_errors net
                               (Some (array_set [] es layer
                                        (patched (nth layer es []) 0 node err))))
                            (Some (array_set [] ds layer
                                     (patched (nth layer ds []) 0 node dlt))))
                         layer node)
                 = Ok (err node)).
  { unfold is_outputLayer, err, node_error. cbn [outputLayer set_errors set_deltas].
    rewrite HL.
    destruct (Nat.eqb_spec layer L) as [->|Hne].
    - rewrite Z.eqb_refl. reflexivity.
    - destruct (Z.eqb_spec (Z.of_nat layer) (Z.of_nat L)) as [Heq|_]; [lia|].
      destruct (Hnext Hne) as (H1 & H2 & H3).
      rewrite backpropagated_error_exact
        with (ws := ws) (ds := array_set [] ds layer (patched (nth layer ds []) 0 node dlt));
        try reflexivity; try assumption.
      + rewrite nth_array_set_neq by lia. reflexivity.
      + rewrite array_set_length_in by lia. lia.
      + rewrite nth_array_set_neq by lia. lia. }
  rewrite Herr. cbn [bind].
  unfold elem. rewrite !nth_error_array_set_eq. cbn [deref bind].
  rewrite !array_set_twice.
  rewrite <- (patched_push NaN (nth layer es []) node err).
  rewrite <- (patched_push NaN (nth layer ds []) node dlt).
  reflexivity.
Qed.

Lemma back_top szs ws os es ds target L :
  back szs ws os es ds target L 0
  = (patched (nth L es []) 0 (nth L szs 0)
       (fun j => num_at target j - num_at (nth L os []) j),
     patched (nth L ds []) 0 (nth L szs 0)
       (fun j => delta_of (num_at target j - num_at (nth L os []) j) (num_at (nth L os []) j))).
Proof. cbn [back]. rewrite Nat.sub_0_r. reflexivity. Qed.

Lemma back_below szs ws os es ds target L l :
  l < L ->
  back szs ws os es ds target L (L - l)
  = (patched (nth l es []) 0 (nth l szs 0)
       (backprop (deltas_of szs ws os es ds target L (l + 1)) (nth (l + 1) ws [])),
     patched (nth l ds []) 0 (nth l szs 0)
       (fun j => delta_of
                   (backprop (deltas_of szs ws os es ds target L (l + 1)) (nth (l + 1) ws []) j)
                   (num_at (nth l os []) j))).
Proof.
  intros Hl. unfold deltas_of.
  replace (L - l)%nat with (S (L - (l + 1))) by lia.
  cbn [back]. replace (L - S (L - (l + 1)))%nat with l by lia. reflexivity.
Qed.

Lemma deltas_of_shape szs ws os es ds target L l :
  l <= L ->
  exists f, deltas_of szs ws os es ds target L l = patched (nth l ds []) 0 (nth l szs 0) f.
Proof.
  intros Hl. unfold deltas_of. destruct (Nat.eq_dec l L) as [->|Hne].
  - rewrite Nat.sub_diag, back_top. cbn [snd]. eexists. reflexivity.
  - rewrite back_below by lia. cbn [snd]. eexists. reflexivity.
Qed.

Lemma errors_of_shape szs ws os es ds target L l :
  l <= L ->
  exists f, errors_of szs ws os es ds target L l = patched (nth l es []) 0 (nth l szs 0) f.
Proof.
  intros Hl. unfold errors_of. destruct (Nat.eq_dec l L) as [->|Hne].
  - rewrite Nat.sub_diag, back_top. cbn [fst]. eexists. reflexivity.
  - rewrite back_below by lia. cbn [fst]. eexists. reflexivity.
Qed.

Lemma calculateDeltas_exact (net : NeuralNetwork num) szs ws os es ds target L :
  sizes net = Some szs -> outputLayer net = Some (Z.of_nat L) ->
  weights net = Some ws -> outputs net = Some os -> errors net = Some es ->
  deltas net = Some ds ->
  L < length ws -> L < length os -> L < length es -> L < length ds ->
  (forall l, 1 <= l <= L ->
             length (nth l ds []) <= length (nth l ws []) /\
             nth l szs 0 <= length (nth l ws [])) ->
  calculateDeltas target net
  = Ok (set_deltas
          (set_errors net (Some (patched es 0 (S L) (errors_of szs ws os es ds target L))))
          (Some (patched ds 0 (S L) (deltas_of szs ws os es ds target L)))).
Proof.
  intros Hs HL Hw Ho He Hd Hlw Hlo Hle Hld Hrows.
  set (E := errors_of szs ws os es ds target L).
  set (D := deltas_of szs ws os es ds target L).
  unfold calculateDeltas. rewrite HL.
  replace (Z.to_nat (Z.of_nat L + 1)) with (S L) by lia.
  set (F := fun l =>
              set_deltas (set_errors net (Some (patched es l (S L - l) E)))
                (Some (patched ds l (S L - l) D))).
  assert (Hstart : F (S L) = net).
  { unfold F. rewrite Nat.sub_diag, !patched_none.
    destruct net; simpl in *. subst. reflexivity. }
  assert (Hend : F 0
                 = set_deltas (set_errors net (Some (patched es 0 (S L) E)))
                     (Some (patched ds 0 (S L) D))).
  { reflexivity. }
  rewrite <- Hend, <- Hstart at 1. apply (for_down_exact F). intros i Hi.
  unfold calculateDeltas_layer, size_of_layer, F.
  cbn [sizes set_errors set_deltas]. rewrite Hs. cbn [deref bind].
  replace (S L - S i)%nat with (L - i)%nat by lia.
  erewrite calculateDeltas_nodes
    with (ws := ws) (os := os) (es := patched es (S i) (L - i) E)
         (ds := patched ds (S i) (L - i) D) (L := L);
    try reflexivity; try assumption;
    try (rewrite length_patched by lia; lia); try lia.
  2:{ intros Hne. split; [lia|]. split; [rewrite length_patched by lia; lia|].
      rewrite nth_patched_in by lia. unfold D.
      destruct (deltas_of_shape szs ws os es ds target (L := L) (l := i + 1)) as [f ->]; [lia|].
      rewrite length_patched by lia.
      destruct (Hrows (i + 1)%nat) as [H1 H2]; lia. }
  cbn [bind set_errors set_deltas].
  rewrite !nth_patched_below by lia.
  assert (HE : patched (nth i es []) 0 (nth i szs 0)
                 (node_error ws os (patched ds (S i) (L - i) D) target L i) = E i).
  { unfold E, errors_of. destruct (Nat.eq_dec i L) as [->|Hne].
    - rewrite Nat.sub_diag, back_top. cbn [fst]. apply patched_ext. intros j _.
      unfold node_error. rewrite Nat.eqb_refl. reflexivity.
    - rewrite back_below by lia. cbn [fst]. apply patched_ext. intros j _.
      unfold node_error. destruct (Nat.eqb_spec i L) as [|_]; [contradiction|].
      rewrite nth_patched_in by lia. reflexivity. }
  assert (HD : patched (nth i ds []) 0 (nth i szs 0)
                 (fun j => delta_of (node_error ws os (patched ds (S i) (L - i) D) target L i j)
                             (num_at (nth i os []) j)) = D i).
  { unfold D, deltas_of. destruct (Nat.eq_dec i L) as [->|Hne].
    - rewrite Nat.sub_diag, back_top. cbn [snd]. apply patched_ext. intros j _.
      unfold node_error. rewrite Nat.eqb_refl. reflexivity.
    - rewrite back_below by lia. cbn [snd]. apply patched_ext. intros j _.
      unfold node_error. destruct (Nat.eqb_spec i L) as [|_]; [contradiction|].
      rewrite nth_patched_in by lia. reflexivity. }
  rewrite HE, HD.
  rewrite (patched_cons [] es (lo := i) (L - i) E) by lia.
  rewrite (patched_cons [] ds (lo := i) (L - i) D) by lia.
  replace (S (L - i)) with (S L - i)%nat by lia. reflexivity.
Qed.

End Backward.

(* ================================================================== *)
(** ** The update pass as a function of the deltas and activations *)

Section Update.
Context {num : Type} {N : JSNumber num}.
Local Open Scope js_scope.

(** The change applied to weight [k] of a unit, from its delta, the incoming
    activations and the row [c] of previous changes. *)
Definition new_change (lr mom delta : num) (incoming c : list num) (k : nat) : num :=
  (lr * delta * num_at incoming k) + (mom * num_at c k).

Definition changes_row (lr mom delta : num) (incoming c : list num) : list num :=
  patched c 0 (length incoming) (new_change lr mom delta incoming c).

Definition weights_row (lr mom delta : num) (incoming c w : list num) : list num :=
  patched w 0 (length incoming) (fun k => num_at w k + new_change lr mom delta incoming c k).

Definition changes_layer (lr mom : num) (dl incoming : list num) (cl : list (list num))
    (size : nat) : list (list num) :=
  patched cl 0 size (fun j => changes_row lr mom (num_at dl j) incoming (nth j cl [])).

Definition weights_layer (lr mom : num) (dl incoming : list num) (cl wl : list (list num))
    (size : nat) : list (list num) :=
  patched wl 0 size
    (fun j => weights_row lr mom (num_at dl j) incoming (nth j cl []) (nth j wl [])).

Definition biases_layer (lr : num) (dl bl : list num) (size : nat) : list num :=
  patched bl 0 size (fun j => num_at bl j + lr * num_at dl j).

Lemma adjustWeights_ks (net : NeuralNetwork num) lr ws cs layer node incoming delta n :
  weights net = Some ws -> changes net = Some cs ->
  layer < length ws -> layer < length cs ->
  node < length (nth layer ws []) -> node < length (nth layer cs []) ->
  for_loop n 0 (adjustWeights_k lr layer node incoming delta) net
  = Ok (set_weights
          (set_changes net
             (Some (array_set [] cs layer
                      (array_set [] (nth layer cs []) node
                         (patched (nth node (nth layer cs []) []) 0 n
                            (new_change lr (momentum net) delta incoming
                               (nth node (nth layer cs []) [])))))))
          (Some (array_set [] ws layer
                   (array_set [] (nth layer ws []) node
                      (patched (nth node (nth layer ws []) []) 0 n
                         (fun k => num_at (nth node (nth layer ws []) []) k
                                   + new_change lr (momentum net) delta incoming
                                       (nth node (nth layer cs []) []) k)))))).
Proof.
  intros Hw Hc Hlw Hlc Hnw Hnc.
  set (cl := nth layer cs []) in *. set (wl := nth layer ws []) in *.
  set (c := nth node cl []). set (w := nth node wl []).
  set (fc := new_change lr (momentum net) delta incoming c).
  set (fw := fun k => num_at w k + fc k).
  set (F := fun k =>
              set_weights
                (set_changes net
                   (Some (array_set [] cs layer (array_set [] cl node (patched c 0 k fc)))))
                (Some (array_set [] ws layer (array_set [] wl node (patched w 0 k fw))))).
  assert (H0 : F 0 = net).
  { unfold F. rewrite !patched_none.
    rewrite (array_set_same [] cl node (v := c)) by (apply nth_error_nth_in; assumption).
    rewrite (array_set_same [] wl node (v := w)) by (apply nth_error_nth_in; assumption).
    rewrite (array_set_same [] cs layer (v := cl)) by (apply nth_error_nth_in; assumption).
    rewrite (array_set_same [] ws layer (v := wl)) by (apply nth_error_nth_in; assumption).
    destruct net; simpl in *. subst. reflexivity. }
  rewrite <- H0 at 1. apply (for_loop_exact F). intros k Hk.
  unfold adjustWeights_k, F. cbn [changes weights momentum set_changes set_weights].
  cbn [deref bind]. array_reads. rewrite !num_at_patched_next.
  change (lr * delta * num_at incoming k + momentum net * num_at c k) with (fc k).
  change (num_at w k + fc k) with (fw k).
  rewrite (patched_push NaN c k fc), (patched_push NaN w k fw). reflexivity.
Qed.

Lemma changes_layer_step lr mom dl incoming cl node :
  array_set [] (changes_layer lr mom dl incoming cl node) node
    (patched (nth node (changes_layer lr mom dl incoming cl node) []) 0 (length incoming)
       (new_change lr mom (num_at dl node) incoming
          (nth node (changes_layer lr mom dl incoming cl node) [])))
  = changes_layer lr mom dl incoming cl (S node).
Proof.
  unfold changes_layer. rewrite nth_patched_above by lia.
  apply (patched_push [] cl node
           (fun j => changes_row lr mom (num_at dl j) incoming (nth j cl []))).
Qed.

Lemma weights_layer_step lr mom dl incoming cl wl node :
  array_set [] (weights_layer lr mom dl incoming cl wl node) node
    (patched (nth node (weights_layer lr mom dl incoming cl wl node) []) 0 (length incoming)
       (fun k => num_at (nth node (weights_layer lr mom dl incoming cl wl node) []) k
                 + new_change lr mom (num_at dl node) incoming
                     (nth node (changes_layer lr mom dl incoming cl node) []) k))
  = weights_layer lr mom dl incoming cl wl (S node).
Proof.
  unfold weights_layer, changes_layer. rewrite !nth_patched_above by lia.
  apply (patched_push [] wl node
           (fun j => weights_row lr mom (num_at dl j) incoming (nth j cl []) (nth j wl []))).
Qed.

Lemma biases_layer_step lr dl bl node :
  array_set NaN (biases_layer lr dl bl node) node
    (num_at (biases_layer lr dl bl node) node + lr * num_at dl node)
  = biases_layer lr dl bl (S node).
Proof.
  unfold biases_layer. rewrite num_at_patched_next.
  apply (patched_push NaN bl node (fun j => num_at bl j + lr * num_at dl j)).
Qed.

Lemma adjustWeights_nodes (net : NeuralNetwork num) lr ws bs ds cs layer incoming size :
  weights net = Some ws -> biases net = Some bs -> deltas net = Some ds ->
  changes net = Some cs ->
  layer < length ws -> layer < length bs -> layer < length ds -> layer < length cs ->
  size <= length (nth layer ws []) -> size <= length (nth layer cs []) ->
  for_loop size 0 (adjustWeights_node lr layer (Some incoming)) net
  = Ok (set_biases
          (set_weights
             (set_changes net
                (Some (array_set [] cs layer
                         (changes_layer lr (momentum net) (nth layer ds []) incoming
                            (nth layer cs []) size))))
             (Some (array_set [] ws layer
                      (weights_layer lr (momentum net) (nth layer ds []) incoming
                         (nth layer cs []) (nth layer ws []) size))))
          (Some (array_set [] bs layer
                   (biases_layer lr (nth layer ds []) (nth layer bs []) size)))).
Proof.
  intros Hw Hb Hd Hc Hlw Hlb Hld Hlc Hsw Hsc.
  set (cl := nth layer cs []) in *. set (wl := nth layer ws []) in *.
  set (bl := nth layer bs []). set (dl := nth layer ds []).
  set (F := fun node =>
              set_biases
                (set_weights
                   (set_changes net
                      (Some (array_set [] cs layer
                               (changes_layer lr (momentum net) dl incoming cl node))))
                   (Some (array_set [] ws layer
                            (weights_layer lr (momentum net) dl incoming cl wl node))))
                (Some (array_set [] bs layer (biases_layer lr dl bl node)))).
  assert (H0 : F 0 = net).
  { unfold F, changes_layer, weights_layer, biases_layer. rewrite !patched_none.
    rewrite (array_set_same [] cs layer (v := cl)) by (apply nth_error_nth_in; assumption).
    rewrite (array_set_same [] ws layer (v := wl)) by (apply nth_error_nth_in; assumption).
    rewrite (array_set_same [] bs layer (v := bl)) by (apply nth_error_nth_in; assumption).
    destruct net; simpl in *. subst. reflexivity. }
  rewrite <- H0 at 1. apply (for_loop_exact F). intros node Hnode.
  unfold adjustWeights_node.
  assert (Hd' : deltas (F node) = Some ds) by exact Hd.
  rewrite Hd'. cbn [deref bind]. rewrite (elem_in ds [] Hld). cbn [bind]. fold dl.
  erewrite adjustWeights_ks
    with (ws := array_set [] ws layer (weights_layer lr (momentum net) dl incoming cl wl node))
         (cs := array_set [] cs layer (changes_layer lr (momentum net) dl incoming cl node));
    try reflexivity; try (rewrite array_set_length_in by assumption; assumption).
  2:{ rewrite nth_array_set_eq. unfold weights_layer. rewrite length_patched by lia.
      fold wl in Hsw. lia. }
  2:{ rewrite nth_array_set_eq. unfold changes_layer. rewrite length_patched by lia.
      fold cl in Hsc. lia. }
  cbn [bind biases set_changes set_weights set_biases F momentum].
  array_reads. rewrite !nth_array_set_eq.
  rewrite changes_layer_step, weights_layer_step, biases_layer_step. reflexivity.
Qed.

(** The rows of changes, weights and biases of layer [l] after the update;
    layer 0 has none and keeps what the array held. *)
Definition new_changes lr mom szs (os ds : list (list num)) cs (l : nat) : list (list num) :=
  changes_layer lr mom (nth l ds []) (nth (l - 1) os []) (nth l cs []) (nth l szs 0).

Definition new_weights lr mom szs (os ds : list (list num)) cs ws (l : nat)
    : list (list num) :=
  weights_layer lr mom (nth l ds []) (nth (l - 1) os []) (nth l cs []) (nth l ws [])
    (nth l szs 0).

Definition new_biases lr szs (ds bs : list (list num)) (l : nat) : list num :=
  biases_layer lr (nth l ds []) (nth l bs []) (nth l szs 0).

Lemma adjustWeights_exact (net : NeuralNetwork num) lr szs ws bs os ds cs L :
  sizes net = Some szs -> outputLayer net = Some (Z.of_nat L) ->
  weights net = Some ws -> biases net = Some bs -> outputs net = Some os ->
  deltas net = Some ds -> changes net = Some cs ->
  L < length ws -> L < length bs -> L < length os -> L < length ds -> L < length cs ->
  (forall l, 1 <= l <= L ->
             nth l szs 0 <= length (nth l ws []) /\ nth l szs 0 <= length (nth l cs [])) ->
  adjustWeights lr net
  = Ok (set_biases
          (set_weights
             (set_changes net (Some (patched cs 1 L (new_changes lr (momentum net) szs os ds cs))))
             (Some (patched ws 1 L (new_weights lr (momentum net) szs os ds cs ws))))
          (Some (patched bs 1 L (new_biases lr szs ds bs)))).
Proof.
  intros Hs HL Hw Hb Ho Hd Hc Hlw Hlb Hlo Hld Hlc Hrows.
  set (C := new_changes lr (momentum net) szs os ds cs).
  set (W := new_weights lr (momentum net) szs os ds cs ws).
  set (B := new_biases lr szs ds bs).
  unfold adjustWeights, outputLayer_number. rewrite HL, Nat2Z.id.
  set (F := fun l =>
              set_biases
                (set_weights (set_changes net (Some (patched cs 1 (l - 1) C)))
                   (Some (patched ws 1 (l - 1) W)))
                (Some (patched bs 1 (l - 1) B))).
  assert (H1 : F 1 = net).
  { unfold F. cbn [Nat.sub]. rewrite !patched_none.
    destruct net; simpl in *. subst. reflexivity. }
  rewrite <- H1 at 1. rewrite (for_loop_exact F).
  { unfold F. replace (1 + L - 1)%nat with L by lia. reflexivity. }
  intros l Hl. unfold adjustWeights_layer, size_of_layer.
  assert (Ho' : outputs (F l) = Some os) by exact Ho.
  assert (Hs' : sizes (F l) = Some szs) by exact Hs.
  rewrite Ho', Hs'. cbn [deref bind].
  rewrite (nth_error_nth_in os (i := l - 1) []) by lia.
  destruct (Hrows l ltac:(lia)) as [Hrw Hrc].
  erewrite adjustWeights_nodes
    with (ws := patched ws 1 (l - 1) W) (bs := patched bs 1 (l - 1) B) (ds := ds)
         (cs := patched cs 1 (l - 1) C);
    try reflexivity; try assumption; try (rewrite length_patched by lia; lia); try lia.
  2,3: rewrite nth_patched_above by lia; assumption.
  cbn [momentum set_changes set_weights set_biases F bind].
  rewrite !nth_patched_above by lia. array_reads.
  change (changes_layer lr (momentum net) (nth l ds []) (nth (l - 1) os []) (nth l cs [])
            (nth l szs 0)) with (C l).
  change (weights_layer lr (momentum net) (nth l ds []) (nth (l - 1) os []) (nth l cs [])
            (nth l ws []) (nth l szs 0)) with (W l).
  change (biases_layer lr (nth l ds []) (nth l bs []) (nth l szs 0)) with (B l).
  rewrite (patched_push_from_1 [] cs C), (patched_push_from_1 [] ws W),
    (patched_push_from_1 [] bs B) by lia.
  reflexivity.
Qed.

End Update.

(* ================================================================== *)
(** ** What [initialize] allocates *)

Section Allocation.
Context {num : Type} {N : JSNumber num}.

(** The length of the row arrays once the layers below [k] are set up: the
    first assignment is at index 1. *)
Definition rows_len (k : nat) : nat := if (k <=? 1)%nat then 0 else k.

(** The arrays of a network while [initialize] runs: the buffers are set up
    for the layers below [kd], the rows for the layers below [kw]; with
    [keep], the parameters and the activations are those already there. *)
Definition fields_ok (szs : list nat) (keep : bool) (kd kw : nat) (net : NeuralNetwork num)
    : Prop :=
  sizes net = Some szs /\
  outputLayer net = Some (Z.of_nat (length szs) - 1)%Z /\
  (exists ds, deltas net = Some ds /\ length ds = kd /\
              forall l, l < kd -> length (nth l ds []) = nth l szs 0) /\
  (exists es, errors net = Some es /\ length es = kd) /\
  (exists os, outputs net = Some os /\ length os = if keep then length szs else kd) /\
  (exists bs, biases net = Some bs /\ length bs = if keep then length szs else kw) /\
  (exists ws, weights net = Some ws /\ length ws = (if keep then length szs else kw) /\
              forall l, 1 <= l < (if keep then length szs else kw) ->
                        length (nth l ws []) = nth l szs 0) /\
  (exists cs, changes net = Some cs /\ length cs = kw /\
              forall l, 1 <= l < kw -> length (nth l cs []) = nth l szs 0).

(** A network whose arrays are all in place for the sizes [szs]: what
    [initialize] leaves, and what a training step needs and keeps. *)
Definition allocated (szs : list nat) (net : NeuralNetwork num) : Prop :=
  2 <= length szs /\ fields_ok szs true (length szs) (length szs) net.

(** The parameters that [initialize] reuses when asked to keep the network. *)
Definition parameters_allocated (szs : list nat) (net : NeuralNetwork num) : Prop :=
  (exists os, outputs net = Some os /\ length os = length szs) /\
  (exists bs, biases net = Some bs /\ length bs = length szs) /\
  (exists ws, weights net = Some ws /\ length ws = length szs /\
              forall l, 1 <= l < length szs -> length (nth l ws []) = nth l szs 0).

Ltac split_fields :=
  unfold fields_ok;
  cbn [sizes outputLayer biases weights outputs deltas changes errors
       set_sizes set_outputLayer set_biases set_weights set_outputs set_deltas set_changes
       set_errors];
  repeat match goal with |- _ /\ _ => split end; try assumption; try reflexivity.

Lemma length_zeros (n : nat) : length (zeros n) = n.
Proof. apply repeat_length. Qed.

Lemma initialize_node_ok szs keep rand k node net p :
  1 <= k -> k < length szs -> node < nth k szs 0 ->
  fields_ok szs keep (S k) (S k) net ->
  exists net' p', initialize_node szs keep rand k node (net, p) = Ok (net', p') /\
                  fields_ok szs keep (S k) (S k) net'.
Proof.
  intros Hk Hklen Hnode (Hs & HL & Hd & He & Ho & Hb & Hws & Hcs).
  pose proof Hws as (ws & Hw & Hlw & Hrw).
  unfold initialize_node.
  assert (Hstep1 : exists net1 p1,
             (if negb keep
              then ws <- deref (weights net);;
                   wl <- elem ws k;;
                   Ok (set_weights net
                         (Some (array_set [] ws k
                                  (array_set [] wl node (randos rand p (nth (k - 1) szs 0))))),
                       p + nth (k - 1) szs 0)
              else Ok (net, p)) = Ok (net1, p1) /\
             fields_ok szs keep (S k) (S k) net1).
  { destruct keep; cbn [negb].
    - exists net, p. split; [reflexivity|]. split_fields; eauto.
    - rewrite Hw. cbn [deref bind]. rewrite (elem_in ws []) by lia. cbn [bind].
      eexists _, _. split; [reflexivity|].
      split_fields. eexists. split; [reflexivity|]. split.
      + rewrite array_set_length. lia.
      + intros l Hl. destruct (Nat.eq_dec l k) as [->|Hne].
        * rewrite nth_array_set_eq, array_set_length, (Hrw k) by lia. lia.
        * rewrite nth_array_set_other by assumption. apply Hrw. lia. }
  destruct Hstep1 as (net1 & p1 & -> & (Hs1 & HL1 & Hd1 & He1 & Ho1 & Hb1 & Hw1 & Hcs1)).
  pose proof Hcs1 as (cs1 & Hc1 & Hlc1 & Hrc1).
  cbn [bind]. rewrite Hc1. cbn [deref bind]. rewrite (elem_in cs1 []) by lia. cbn [bind].
  eexists _, _. split; [reflexivity|].
  split_fields. eexists. split; [reflexivity|]. split.
  - rewrite array_set_length. lia.
  - intros l Hl. destruct (Nat.eq_dec l k) as [->|Hne].
    + rewrite nth_array_set_eq, array_set_length, (Hrc1 k) by lia. lia.
    + rewrite nth_array_set_other by assumption. apply Hrc1. lia.
Qed.

Lemma initialize_layer_ok szs keep rand k net p :
  k < length szs ->
  fields_ok szs keep k (rows_len k) net ->
  exists net' p', initialize_layer szs keep rand k (net, p) = Ok (net', p') /\
                  fields_ok szs keep (S k) (rows_len (S k)) net'.
Proof.
  intros Hk (Hs & HL & Hds & Hes & Hos & Hbs & Hws & Hcs).
  pose proof Hds as (ds & Hd & Hld & Hrd). pose proof Hes as (es & He & Hle).
  pose proof Hos as (os & Ho & Hlo). pose proof Hbs as (bs & Hb & Hlb).
  pose proof Hws as (ws & Hw & Hlw & Hrw). pose proof Hcs as (cs & Hc & Hlc & Hrc).
  unfold initialize_layer. rewrite Hd. cbn [deref bind errors set_deltas].
  rewrite He. cbn [deref bind].
  (* the three buffers of the layer *)
  assert (Hbuf : exists net1,
             (if negb keep
              then os <- deref (outputs (set_errors (set_deltas net
                                   (Some (array_set [] ds k (zeros (nth k szs 0)))))
                                   (Some (array_set [] es k (zeros (nth k szs 0))))));;
                   Ok (set_outputs (set_errors (set_deltas net
                                   (Some (array_set [] ds k (zeros (nth k szs 0)))))
                                   (Some (array_set [] es k (zeros (nth k szs 0)))))
                         (Some (array_set [] os k (zeros (nth k szs 0)))))
              else Ok (set_errors (set_deltas net
                                   (Some (array_set [] ds k (zeros (nth k szs 0)))))
                                   (Some (array_set [] es k (zeros (nth k szs 0))))))
             = Ok net1 /\ fields_ok szs keep (S k) (rows_len k) net1).
  { assert (Hds' : exists ds', Some (array_set [] ds k (zeros (nth k szs 0))) = Some ds' /\
                     length ds' = S k /\
                     forall l, l < S k -> length (nth l ds' []) = nth l szs 0).
    { eexists. split; [reflexivity|]. split.
      - rewrite array_set_length. lia.
      - intros l Hl. destruct (Nat.eq_dec l k) as [->|Hne].
        + rewrite nth_array_set_eq. apply length_zeros.
        + rewrite nth_array_set_other by assumption. apply Hrd. lia. }
    assert (Hes' : exists es', Some (array_set [] es k (zeros (nth k szs 0))) = Some es' /\
                     length es' = S k).
    { eexists. split; [reflexivity|]. rewrite array_set_length. lia. }
    destruct keep; cbn [negb].
    - eexists. split; [reflexivity|]. split_fields.
    - cbn [outputs set_errors set_deltas]. rewrite Ho. cbn [deref bind].
      eexists. split; [reflexivity|]. split_fields.
      eexists. split; [reflexivity|]. rewrite array_set_length. lia. }
  destruct Hbuf as (net1 & -> & (Hs1 & HL1 & Hds1 & Hes1 & Hos1 & Hbs1 & Hws1 & Hcs1)).
  cbn [bind].
  destruct (Nat.ltb_spec 0 k) as [Hpos|Hzero].
  2:{ exists net1, p. split; [reflexivity|].
      replace k with 0 in * by lia. split_fields. }
  pose proof Hbs1 as (bs1 & Hb1 & Hlb1). pose proof Hws1 as (ws1 & Hw1 & Hlw1 & Hrw1).
  pose proof Hcs1 as (cs1 & Hc1 & Hlc1 & Hrc1).
  assert (Hrl : rows_len k <= k).
  { unfold rows_len. destruct (k <=? 1)%nat; lia. }
  assert (HrS : rows_len (S k) = S k).
  { unfold rows_len. destruct (Nat.leb_spec (S k) 1); [lia | reflexivity]. }
  rewrite Hb1. cbn [deref bind].
  (* the rows of the layer *)
  assert (Hrows : exists net2,
             (net2 <-
                (if negb keep
                 then ws <- deref (weights (set_biases net1
                                     (Some (array_set [] bs1 k (randos rand p (nth k szs 0))))));;
                      Ok (set_weights (set_biases net1
                                     (Some (array_set [] bs1 k (randos rand p (nth k szs 0)))))
                            (Some (array_set [] ws k (repeat [] (nth k szs 0)))))
                 else Ok (set_biases net1
                            (Some (array_set [] bs1 k (randos rand p (nth k szs 0))))));;
              cs <- deref (changes net2);;
              Ok (set_changes net2 (Some (array_set [] cs k (repeat [] (nth k szs 0))))))
             = Ok net2 /\ fields_ok szs keep (S k) (S k) net2).
  { assert (Hbs' : exists bs', Some (array_set [] bs1 k (randos rand p (nth k szs 0))) = Some bs' /\
                     length bs' = if keep then length szs else S k).
    { eexists. split; [reflexivity|]. rewrite array_set_length, Hlb1. destruct keep; lia. }
    assert (Hcs' : exists cs', Some (array_set [] cs1 k (repeat [] (nth k szs 0))) = Some cs' /\
                     length cs' = S k /\
                     forall l, 1 <= l < S k -> length (nth l cs' []) = nth l szs 0).
    { eexists. split; [reflexivity|]. split.
      - rewrite array_set_length. lia.
      - intros l Hl. destruct (Nat.eq_dec l k) as [->|Hne].
        + rewrite nth_array_set_eq. apply repeat_length.
        + rewrite nth_array_set_other by assumption. apply Hrc1.
          unfold rows_len in *. destruct (k <=? 1)%nat eqn:E.
          * apply Nat.leb_le in E. lia.
          * lia. }
    destruct keep; cbn [negb bind].
    - cbn [changes set_biases]. rewrite Hc1. cbn [deref bind].
      eexists. split; [reflexivity|]. split_fields.
    - cbn [weights set_biases]. rewrite Hw1. cbn [deref bind changes set_weights set_biases].
      rewrite Hc1. cbn [deref bind].
      eexists. split; [reflexivity|]. split_fields.
      eexists. split; [reflexivity|]. split.
      + rewrite array_set_length. lia.
      + intros l Hl. destruct (Nat.eq_dec l k) as [->|Hne].
        * rewrite nth_array_set_eq. apply repeat_length.
        * rewrite nth_array_set_other by assumption. apply Hrw1.
          unfold rows_len in *. destruct (k <=? 1)%nat eqn:E.
          -- apply Nat.leb_le in E. lia.
          -- lia. }
  destruct Hrows as (net2 & Hnet2 & Hf2).
  destruct (@for_loop_inv _
              (fun (_ : nat) (st : NeuralNetwork num * nat) =>
                 fields_ok szs keep (S k) (S k) (fst st))
              (nth k szs 0) 0 (initialize_node szs keep rand k) (net2, p + nth k szs 0))
    as ([net3 p3] & Hloop & Hf3).
  { exact Hf2. }
  { intros i [n0 p0] Hi Hinv.
    destruct (@initialize_node_ok szs keep rand k i n0 p0 Hpos Hk ltac:(lia) Hinv)
      as (n1 & p1 & E1 & Hf1).
    exists (n1, p1). split; assumption. }
  exists net3, p3. split; [|rewrite HrS; exact Hf3].
  revert Hnet2 Hloop. clear.
  destruct keep; cbn [negb bind]; intros Hnet2 Hloop.
  - destruct (deref (changes _)); cbn [bind] in *; [|discriminate].
    injection Hnet2 as <-. exact Hloop.
  - destruct (deref (weights _)); cbn [bind] in *; [|discriminate].
    destruct (deref (changes _)); cbn [bind] in *; [|discriminate].
    injection Hnet2 as <-. exact Hloop.
Qed.

End Allocation.

(** Splits a goal about the arrays of a network into its parts. *)
Ltac split_arrays :=
  unfold fields_ok;
  cbn [sizes outputLayer biases weights outputs deltas changes errors
       set_sizes set_outputLayer set_biases set_weights set_outputs set_deltas set_changes
       set_errors];
  repeat match goal with |- _ /\ _ => split end; try assumption; try reflexivity.

(* ================================================================== *)
(** ** One training step as a function of the network *)

Section TrainingStep.
Context {num : Type} {N : JSNumber num}.

(** What a training step needs of the arrays: they hold a row for every unit. *)
Definition step_ready (szs : list nat) (L : nat) (ws : list (list (list num)))
    (bs os ds : list (list num)) (cs : list (list (list num))) (es : list (list num)) : Prop :=
  L < length ws /\ L < length bs /\ L < length os /\ L < length ds /\ L < length cs /\
  L < length es /\
  forall l, 1 <= l <= L ->
            nth l szs 0 <= length (nth l ws []) /\ nth l szs 0 <= length (nth l cs []) /\
            length (nth l ds []) <= length (nth l ws []).

Lemma length_patched_same {A} (a : list A) lo n f :
  lo + n <= length a -> length (patched a lo n f) = length a.
Proof. intros H. rewrite length_patched by lia. lia. Qed.

Lemma trainPattern_exact (net : NeuralNetwork num) szs L ws bs os ds cs es inp target lr' :
  sizes net = Some szs -> outputLayer net = Some (Z.of_nat L) ->
  weights net = Some ws -> biases net = Some bs -> outputs net = Some os ->
  deltas net = Some ds -> changes net = Some cs -> errors net = Some es ->
  step_ready szs L ws bs os ds cs es ->
  let lr := or_default lr' (learningRate net) in
  let os1 := patched os 0 (S L) (activations szs bs ws os inp) in
  let es1 := patched es 0 (S L) (errors_of szs ws os1 es ds target L) in
  let ds1 := patched ds 0 (S L) (deltas_of szs ws os1 es ds target L) in
  trainPattern inp target lr' net
  = Ok (set_biases
          (set_weights
             (set_changes
                (set_deltas (set_errors (set_outputs net (Some os1)) (Some es1)) (Some ds1))
                (Some (patched cs 1 L (new_changes lr (momentum net) szs os1 ds1 cs))))
             (Some (patched ws 1 L (new_weights lr (momentum net) szs os1 ds1 cs ws))))
          (Some (patched bs 1 L (new_biases lr szs ds1 bs))),
        mse (nth L es1 [])).
Proof.
  intros Hs HL Hw Hb Ho Hd Hc He (Hlw & Hlb & Hlo & Hld & Hlc & Hle & Hrows) lr os1 es1 ds1.
  unfold trainPattern. fold lr.
  rewrite (@runInput_exact _ _ net szs bs ws os L inp Hs HL Hw Hb Ho Hlw Hlb Hlo).
  2:{ intros l Hl. apply Hrows. exact Hl. }
  cbn [bind]. fold os1.
  rewrite (@calculateDeltas_exact _ _ (set_outputs net (Some os1)) szs ws os1 es ds target L);
    try assumption; try reflexivity.
  2:{ unfold os1. rewrite length_patched_same; lia. }
  2:{ intros l Hl. destruct (Hrows l Hl) as (H1 & H2 & H3). split; assumption. }
  cbn [bind]. fold es1 ds1.
  rewrite (@adjustWeights_exact _ _
             (set_deltas (set_errors (set_outputs net (Some os1)) (Some es1)) (Some ds1))
             lr szs ws bs os1 ds1 cs L);
    try assumption; try reflexivity.
  2:{ unfold os1. rewrite length_patched_same; lia. }
  2:{ unfold ds1. rewrite length_patched_same; lia. }
  2:{ intros l Hl. destruct (Hrows l Hl) as (H1 & H2 & H3). split; assumption. }
  cbn [bind momentum set_outputs set_errors set_deltas].
  unfold output_errors.
  cbn [errors outputLayer set_outputs set_errors set_deltas set_changes set_weights set_biases].
  rewrite HL. cbn [deref bind].
  destruct (Z.ltb_spec (Z.of_nat L) 0) as [Hneg|_]; [lia|].
  rewrite Nat2Z.id, (elem_in es1 []).
  2:{ unfold es1. rewrite length_patched_same; lia. }
  reflexivity.
Qed.

End TrainingStep.

(* ================================================================== *)
(** ** Networks with parameters in place *)

Section Shapes.
Context {num : Type} {N : JSNumber num}.
Local Open Scope js_scope.

(** Biases and weights sized by the topology [szs]: layer [l >= 1] has
    [szs[l]] biases and [szs[l]] rows of [szs[l-1]] weights. *)
Definition parameters_shaped (szs : list nat) (bs : list (list num))
    (ws : list (list (list num))) : Prop :=
  length bs = length szs /\ length ws = length szs /\
  forall l, (1 <= l < length szs)%nat ->
    length (nth l bs []) = nth l szs 0%nat /\
    length (nth l ws []) = nth l szs 0%nat /\
    forall j, (j < nth l szs 0)%nat ->
              length (nth j (nth l ws []) []) = nth (l - 1) szs 0%nat.

(** A per-layer buffer that holds no more than one entry per unit: the zero
    arrays of [initialize], the empty arrays of [fromJSON], or what an earlier
    pass wrote. *)
Definition buffers_shaped (szs : list nat) (b : list (list num)) : Prop :=
  length b = length szs /\
  forall l, (l < length szs)%nat -> (length (nth l b []) <= nth l szs 0)%nat.

(** A network ready for the forward pass. *)
Definition initialized (szs : list nat) (bs : list (list num)) (ws : list (list (list num)))
    (os : list (list num)) (net : NeuralNetwork num) : Prop :=
  (2 <= length szs)%nat /\ sizes net = Some szs /\
  outputLayer net = Some (Z.of_nat (length szs) - 1)%Z /\
  biases net = Some bs /\ weights net = Some ws /\ outputs net = Some os /\
  parameters_shaped szs bs ws /\ buffers_shaped szs os.

(** The weighted input sum of unit [j] of layer [l], as the claim writes it:
    the bias, then one product per unit of the previous layer. *)
Definition weighted_input (szs : list nat) (bs : list (list num)) (ws : list (list (list num)))
    (acts : list (list num)) (l j : nat) : num :=
  fold_left
    (fun sum k => sum + num_at (nth j (nth l ws []) []) k * num_at (nth (l - 1) acts []) k)
    (seq 0 (nth (l - 1) szs 0%nat)) (num_at (nth l bs []) j).

(** The activations that the forward pass leaves in [outputs]. *)
Definition forward (szs : list nat) (bs : list (list num)) (ws : list (list (list num)))
    (os : list (list num)) (inp : list num) : list (list num) :=
  patched os 0 (length szs) (activations szs bs ws os inp).

Lemma runInput_initialized szs bs ws os (net : NeuralNetwork num) inp :
  initialized szs bs ws os net ->
  runInput inp net
  = Ok (set_outputs net (Some (forward szs bs ws os inp)),
        Some (nth (length szs - 1) (forward szs bs ws os inp) [])).
Proof.
  intros (Hlen & Hs & HL & Hb & Hw & Ho & (Hlb & Hlw & Hrows) & (Hlo & Hro)).
  assert (HL' : outputLayer net = Some (Z.of_nat (length szs - 1))).
  { rewrite HL. f_equal. lia. }
  rewrite (@runInput_exact _ _ net szs bs ws os (length szs - 1) inp Hs HL' Hw Hb Ho);
    try lia.
  2:{ intros l Hl. destruct (Hrows l) as (_ & H & _); lia. }
  unfold forward. replace (S (length szs - 1)) with (length szs) by lia.
  destruct (length szs - 1)%nat as [|L'] eqn:E; [lia|].
  rewrite nth_patched_in by lia. rewrite <- E. reflexivity.
Qed.

Lemma forward_layer szs bs ws os inp l :
  length os = length szs -> (l < length szs)%nat ->
  nth l (forward szs bs ws os inp) [] = activations szs bs ws os inp l.
Proof. intros Ho Hl. unfold forward. apply nth_patched_in; lia. Qed.

Lemma length_forward szs bs ws os inp :
  length os = length szs -> length (forward szs bs ws os inp) = length szs.
Proof. intros Ho. unfold forward. rewrite length_patched; lia. Qed.

Lemma length_activations szs bs ws os inp l :
  buffers_shaped szs os -> (1 <= l < length szs)%nat ->
  length (activations szs bs ws os inp l) = nth l szs 0%nat.
Proof.
  intros (Hlo & Hro) Hl. destruct l as [|l']; [lia|]. cbn [activations].
  rewrite length_patched by lia. specialize (Hro (S l')). lia.
Qed.

Lemma activations_unit szs bs ws os inp l j :
  parameters_shaped szs bs ws -> length os = length szs ->
  (1 <= l < length szs)%nat -> (j < nth l szs 0)%nat ->
  length inp = nth 0 szs 0%nat -> buffers_shaped szs os ->
  num_at (activations szs bs ws os inp l) j
  = sigmoid (weighted_input szs bs ws (forward szs bs ws os inp) l j).
Proof.
  intros (Hlb & Hlw & Hrows) Hlo Hl Hj Hinp Hbuf.
  destruct l as [|l']; [lia|]. cbn [activations].
  rewrite num_at_patched_in by assumption.
  unfold activation, weighted_input. f_equal.
  destruct (Hrows (S l')) as (_ & _ & Hrow); [lia|].
  rewrite (Hrow j Hj). cbn [Nat.sub]. rewrite Nat.sub_0_r.
  rewrite forward_layer by lia. reflexivity.
Qed.

End Shapes.

(* ================================================================== *)
(** ** Sample networks, in IEEE arithmetic with the reference runtime *)

Module Samples.
Import IEEE.

Definition N0 : JSNumber float := ieee reference.

(** A stream of random numbers in [0, 1): the eighths, in a fixed order. *)
Definition rand0 : random_source float :=
  fun n => (float_of_Z (Z.of_nat ((3 * n + 1) mod 8)) / 8)%float.

Definition fresh : NeuralNetwork float :=
  new_NeuralNetwork (N := N0) (mkCtorOptions None None None None).

(** The network that [initialize([2, 2, 1])] builds from [rand0]. *)
Definition net221 : NeuralNetwork float :=
  Eval vm_compute in
    match initialize (N := N0) [2; 2; 1] false rand0 0 fresh with
    | Ok (net, _) => net
    | TypeError => fresh
    end.

Definition sizes221 : list nat := [2; 2; 1].
Definition biases221 : list (list float) :=
  Eval vm_compute in match biases net221 with Some b => b | None => [] end.
Definition weights221 : list (list (list float)) :=
  Eval vm_compute in match weights net221 with Some w => w | None => [] end.
Definition outputs221 : list (list float) :=
  Eval vm_compute in match outputs net221 with Some o => o | None => [] end.
Definition deltas221 : list (list float) :=
  Eval vm_compute in match deltas net221 with Some d => d | None => [] end.
Definition changes221 : list (list (list float)) :=
  Eval vm_compute in match changes net221 with Some c => c | None => [] end.
Definition errors221 : list (list float) :=
  Eval vm_compute in match errors net221 with Some e => e | None => [] end.

(** The same network with named inputs and a named output. *)
Definition named221 : NeuralNetwork float :=
  Eval vm_compute in
    set_outputLookup
      (set_inputLookup net221 (Some [(KStr "r", 0); (KStr "g", 1)]))
      (Some [(KStr "white", 0)]).

(** The four examples of exclusive or. *)
Definition xor : training_data float :=
  Many [mkExample [0; 0] [0]; mkExample [0; 1] [1];
        mkExample [1; 0] [1]; mkExample [1; 1] [0]]%float.

End Samples.

(** Settles a bounded quantification over layers or units by cases. *)
Ltac by_cases l :=
  let rec go l n :=
    lazymatch n with
    | O => idtac
    | S ?n' => destruct l as [|l]; [| go l n']
    end in
  go l 6.

Section ForwardClaims.
Context {num : Type} {N : JSNumber num}.

(** C5: on an initialized network and an input of width [sizes[0]],
    [runInput] stores the input as the activation of layer 0, gives every
    unit [j] of every layer [l >= 1] the activation
    [sigmoid(bias[l][j] + sum_k weight[l][j][k] * activation[l-1][k])] with
    [sigmoid(x) = 1 / (1 + exp(-x))], changes nothing else in the network,
    and returns the activations of the last layer. *)
Theorem runInput_forward_pass szs bs ws os (net : NeuralNetwork num) inp :
  initialized szs bs ws os net -> length inp = nth 0 szs 0 ->
  exists acts,
    runInput inp net = Ok (set_outputs net (Some acts), Some (nth (length szs - 1) acts [])) /\
    length acts = length szs /\
    nth 0 acts [] = inp /\
    forall l j, 1 <= l < length szs -> j < nth l szs 0 ->
      num_at (nth l acts []) j
      = div (of_Z 1) (add (of_Z 1) (Math_exp (neg (weighted_input szs bs ws acts l j)))).
Proof.
  intros Hinit Hinp. exists (forward szs bs ws os inp).
  pose proof Hinit as (Hlen & _ & _ & _ & _ & _ & Hpar & Hbuf).
  pose proof Hbuf as (Hlo & _).
  split; [apply runInput_initialized; assumption|].
  split; [apply length_forward; assumption|].
  split; [rewrite forward_layer by lia; reflexivity|].
  intros l j Hl Hj. rewrite forward_layer by lia.
  apply activations_unit; assumption.
Qed.

End ForwardClaims.

#[local] Existing Instance Samples.N0.

Lemma initialized_net221 :
  initialized Samples.sizes221 Samples.biases221 Samples.weights221 Samples.outputs221
    Samples.net221.
Proof.
  unfold initialized, parameters_shaped, buffers_shaped.
  repeat match goal with |- _ /\ _ => split end; try reflexivity; simpl; try lia.
  - intros l Hl. by_cases l; simpl in *; try lia;
      (repeat split; try reflexivity; intros j Hj; by_cases j; simpl in *; try lia; reflexivity).
  - intros l Hl. by_cases l; simpl in *; lia.
Defined.

Lemma runInput_forward_pass_witness :
  exists acts,
    runInput (N := Samples.N0) [1; 0]%float Samples.net221
    = Ok (set_outputs Samples.net221 (Some acts), Some (nth 2 acts [])) /\
    length acts = 3 /\
    nth 0 acts [] = [1; 0]%float /\
    forall l j, 1 <= l < 3 -> j < nth l Samples.sizes221 0 ->
      num_at (N := Samples.N0) (nth l acts []) j
      = div (of_Z 1)
          (add (of_Z 1)
             (Math_exp (neg (weighted_input (N := Samples.N0) Samples.sizes221 Samples.biases221
                               Samples.weights221 acts l j)))).
Proof.
  apply (@runInput_forward_pass _ Samples.N0 _ _ _ _ _ [1; 0]%float initialized_net221).
  reflexivity.
Defined.

(* ================================================================== *)
(** ** Networks ready for training *)

Section Training.
Context {num : Type} {N : JSNumber num}.
Local Open Scope js_scope.

(** The momentum store sized like the weights. *)
Definition changes_shaped (szs : list nat) (cs : list (list (list num))) : Prop :=
  length cs = length szs /\
  forall l, (1 <= l < length szs)%nat ->
    length (nth l cs []) = nth l szs 0%nat /\
    forall j, (j < nth l szs 0)%nat ->
              length (nth j (nth l cs []) []) = nth (l - 1) szs 0%nat.

(** A network ready for a training step: initialized, with its three
    training arrays in place. *)
Definition trainable (szs : list nat) (bs : list (list num)) (ws : list (list (list num)))
    (os ds : list (list num)) (cs : list (list (list num))) (es : list (list num))
    (net : NeuralNetwork num) : Prop :=
  initialized szs bs ws os net /\
  deltas net = Some ds /\ changes net = Some cs /\ errors net = Some es /\
  buffers_shaped szs ds /\ buffers_shaped szs es /\ changes_shaped szs cs.

Lemma trainable_step_ready szs bs ws os ds cs es net :
  trainable szs bs ws os ds cs es net ->
  step_ready szs (length szs - 1) ws bs os ds cs es.
Proof.
  intros ((Hlen & _ & _ & _ & _ & _ & (Hlb & Hlw & Hrows) & (Hlo & _)) & _ & _ & _ &
          (Hld & Hrd) & (Hle & _) & (Hlc & Hrc)).
  unfold step_ready. repeat match goal with |- _ /\ _ => split end; try lia.
  intros l Hl. destruct (Hrows l) as (_ & H1 & _); [lia|].
  destruct (Hrc l) as (H2 & _); [lia|]. specialize (Hrd l). lia.
Qed.

Lemma trainable_outputLayer szs bs ws os ds cs es net :
  trainable szs bs ws os ds cs es net ->
  outputLayer net = Some (Z.of_nat (length szs - 1)).
Proof.
  intros ((Hlen & _ & HL & _) & _). rewrite HL. f_equal. lia.
Qed.

Section Deltas.
Variables (szs : list nat) (ws : list (list (list num))) (os es ds : list (list num)).
Variables (target : list num) (L : nat).
Hypothesis Hes : forall l, (l <= L)%nat -> (length (nth l es []) <= nth l szs 0)%nat.
Hypothesis Hds : forall l, (l <= L)%nat -> (length (nth l ds []) <= nth l szs 0)%nat.

Let E := errors_of szs ws os es ds target L.
Let D := deltas_of szs ws os es ds target L.

Lemma length_deltas_of l : (l <= L)%nat -> length (D l) = nth l szs 0%nat.
Proof.
  intros Hl. destruct (@deltas_of_shape _ _ szs ws os es ds target L l Hl) as [f Hf].
  unfold D. rewrite Hf, length_patched by lia. specialize (Hds Hl). lia.
Qed.

Lemma length_errors_of l : (l <= L)%nat -> length (E l) = nth l szs 0%nat.
Proof.
  intros Hl. destruct (@errors_of_shape _ _ szs ws os es ds target L l Hl) as [f Hf].
  unfold E. rewrite Hf, length_patched by lia. specialize (Hes Hl). lia.
Qed.

Lemma errors_of_output j :
  (j < nth L szs 0)%nat -> num_at (E L) j = num_at target j - num_at (nth L os []) j.
Proof.
  intros Hj. unfold E, errors_of. rewrite Nat.sub_diag, back_top. cbn [fst].
  rewrite num_at_patched_in by exact Hj. reflexivity.
Qed.

Lemma errors_of_inner l j :
  (l < L)%nat -> (j < nth l szs 0)%nat ->
  num_at (E l) j
  = fold_left (fun e k => e + num_at (D (l + 1)) k * num_at (nth k (nth (l + 1) ws []) []) j)
      (seq 0 (nth (l + 1) szs 0%nat)) (of_Z 0).
Proof.
  intros Hl Hj. unfold E, errors_of. rewrite back_below by assumption. cbn [fst].
  rewrite num_at_patched_in by exact Hj. unfold backprop.
  fold D. rewrite length_deltas_of by lia. reflexivity.
Qed.

Lemma deltas_of_unit l j :
  (l <= L)%nat -> (j < nth l szs 0)%nat ->
  num_at (D l) j = num_at (E l) j * num_at (nth l os []) j * (of_Z 1 - num_at (nth l os []) j).
Proof.
  intros Hl Hj. unfold D, E, deltas_of, errors_of.
  destruct (Nat.eq_dec l L) as [->|Hne].
  - rewrite Nat.sub_diag, back_top. cbn [fst snd].
    rewrite !num_at_patched_in by exact Hj. reflexivity.
  - rewrite back_below by lia. cbn [fst snd].
    rewrite !num_at_patched_in by exact Hj. reflexivity.
Qed.

End Deltas.

(** C7: after the forward pass on the same input, [calculateDeltas] gives the
    output layer the errors [target[j] - activation[L][j]], every layer below
    the errors [sum_k delta[l+1][k] * weight[l+1][k][j]], and every layer
    down to layer 0 the deltas [error * activation * (1 - activation)];
    [trainPattern] returns the mean of the squared output errors. *)
Theorem calculateDeltas_backward_pass szs bs ws os ds cs es (net : NeuralNetwork num)
    inp target lr :
  trainable szs bs ws os ds cs es net -> length inp = nth 0 szs 0%nat ->
  exists acts errs dlts net1 net3,
    runInput inp net = Ok (net1, Some (nth (length szs - 1) acts [])) /\
    outputs net1 = Some acts /\ weights net1 = Some ws /\
    calculateDeltas target net1
    = Ok (set_deltas (set_errors net1 (Some errs)) (Some dlts)) /\
    (forall j, (j < nth (length szs - 1) szs 0)%nat ->
       num_at (nth (length szs - 1) errs []) j
       = num_at target j - num_at (nth (length szs - 1) acts []) j) /\
    (forall l j, (l < length szs - 1)%nat -> (j < nth l szs 0)%nat ->
       num_at (nth l errs []) j
       = fold_left
           (fun e k => e + num_at (nth (l + 1) dlts []) k
                           * num_at (nth k (nth (l + 1) ws []) []) j)
           (seq 0 (nth (l + 1) szs 0%nat)) (of_Z 0)) /\
    (forall l j, (l <= length szs - 1)%nat -> (j < nth l szs 0)%nat ->
       num_at (nth l dlts []) j
       = num_at (nth l errs []) j * num_at (nth l acts []) j
         * (of_Z 1 - num_at (nth l acts []) j)) /\
    trainPattern inp target lr net
    = Ok (net3,
          fold_left (fun sum e => sum + Math_pow_2 e) (nth (length szs - 1) errs []) (of_Z 0)
          / of_Z (Z.of_nat (nth (length szs - 1) szs 0%nat))).
Proof.
  intros Htr Hinp.
  pose proof (trainable_step_ready Htr) as Hready.
  pose proof (trainable_outputLayer Htr) as HL.
  destruct Htr as (Hinit & Hd & Hc & He & (Hld & Hrd) & (Hle & Hre) & Hcs).
  pose proof Hinit as (Hlen & Hs & _ & Hb & Hw & Ho & Hpar & (Hlo & Hro)).
  set (L := (length szs - 1)%nat) in *.
  set (acts := forward szs bs ws os inp).
  set (errs := patched es 0 (S L) (errors_of szs ws acts es ds target L)).
  set (dlts := patched ds 0 (S L) (deltas_of szs ws acts es ds target L)).
  assert (Hacts : acts = patched os 0 (S L) (activations szs bs ws os inp)).
  { unfold acts, forward. f_equal. lia. }
  assert (HresE : forall l, (l <= L)%nat -> (length (nth l es []) <= nth l szs 0)%nat).
  { intros l Hl. apply Hre. lia. }
  assert (HresD : forall l, (l <= L)%nat -> (length (nth l ds []) <= nth l szs 0)%nat).
  { intros l Hl. apply Hrd. lia. }
  assert (HnE : forall l, (l <= L)%nat -> nth l errs [] = errors_of szs ws acts es ds target L l).
  { intros l Hl. unfold errs. apply nth_patched_in; lia. }
  assert (HnD : forall l, (l <= L)%nat -> nth l dlts [] = deltas_of szs ws acts es ds target L l).
  { intros l Hl. unfold dlts. apply nth_patched_in; lia. }
  destruct Hready as (Hlw' & Hlb' & Hlo' & Hld' & Hlc' & Hle' & Hrows).
  exists acts, errs, dlts, (set_outputs net (Some acts)).
  eexists.
  split; [apply runInput_initialized; exact Hinit|].
  split; [reflexivity|]. split; [exact Hw|].
  split.
  { rewrite (@calculateDeltas_exact _ _ (set_outputs net (Some acts)) szs ws acts es ds target L);
      try assumption; try reflexivity.
    - rewrite Hacts, length_patched_same; lia.
    - intros l Hl. destruct (Hrows l Hl) as (H1 & H2 & H3). split; assumption. }
  split.
  { intros j Hj. rewrite HnE by lia. apply errors_of_output. exact Hj. }
  split.
  { intros l j Hl Hj. rewrite HnE, HnD by lia.
    apply errors_of_inner; assumption. }
  split.
  { intros l j Hl Hj. rewrite HnE, HnD by lia.
    apply deltas_of_unit; assumption. }
  rewrite (@trainPattern_exact _ _ net szs L ws bs os ds cs es inp target lr
             Hs HL Hw Hb Ho Hd Hc He).
  2:{ unfold step_ready. repeat match goal with |- _ /\ _ => split end; assumption. }
  cbv zeta. rewrite <- Hacts. fold errs dlts. unfold mse.
  rewrite (HnE L) by lia.
  rewrite (@length_errors_of szs ws acts es ds target L HresE L) by lia.
  reflexivity.
Qed.




End Training.

(* ================================================================== *)
(** ** Training never throws on an allocated network *)

Section TrainingTotal.
Context {num : Type} {N : JSNumber num}.

Lemma initialize_allocated szs keep rand p (net : NeuralNetwork num) :
  2 <= length szs ->
  (keep = true -> parameters_allocated szs net) ->
  exists net' p', initialize szs keep rand p net = Ok (net', p') /\ allocated szs net'.
Proof.
  intros Hlen Hkeep. unfold initialize.
  destruct (@for_loop_inv _
              (fun (k : nat) (st : NeuralNetwork num * nat) =>
                 fields_ok szs keep k (rows_len k) (fst st))
              (length szs) 0 (initialize_layer szs keep rand)
              (set_errors
                 (set_changes
                    (set_deltas
                       (if negb keep
                        then set_outputs
                               (set_weights
                                  (set_biases
                                     (set_outputLayer (set_sizes net (Some szs))
                                        (Some (Z.of_nat (length szs) - 1)%Z))
                                     (Some [])) (Some [])) (Some [])
                        else set_outputLayer (set_sizes net (Some szs))
                               (Some (Z.of_nat (length szs) - 1)%Z))
                       (Some [])) (Some [])) (Some []), p))
    as ([net' p'] & Hloop & Hfinal).
  - cbn [fst]. destruct keep; cbn [negb].
    + destruct (Hkeep eq_refl) as (Hos & Hbs & Hws). split_arrays.
      * exists []. repeat split. intros l Hl. lia.
      * exists []. repeat split.
      * exists []. repeat split. intros l Hl. unfold rows_len in Hl. simpl in Hl. lia.
    + split_arrays.
      * exists []. repeat split. intros l Hl. lia.
      * exists []. repeat split.
      * exists []. repeat split.
      * exists []. repeat split.
      * exists []. repeat split. intros l Hl. unfold rows_len in Hl. simpl in Hl. lia.
      * exists []. repeat split. intros l Hl. unfold rows_len in Hl. simpl in Hl. lia.
  - intros k [n0 p0] Hk Hinv. cbn [fst] in Hinv.
    destruct (@initialize_layer_ok _ _ szs keep rand k n0 p0 ltac:(lia) Hinv)
      as (n1 & p1 & E1 & Hf1).
    exists (n1, p1). split; assumption.
  - exists net', p'. split; [exact Hloop|]. split; [exact Hlen|].
    cbn [fst Nat.add] in Hfinal.
    assert (Hrl : rows_len (length szs) = length szs).
    { unfold rows_len. destruct (Nat.leb_spec (length szs) 1); [lia | reflexivity]. }
    rewrite Hrl in Hfinal.
    destruct Hfinal as (Hs & HL & Hds & Hes & Hos & Hbs & Hws & Hcs).
    destruct keep; split_arrays.
Qed.




End TrainingTotal.

(* ================================================================== *)
(** ** Comparisons of IEEE numbers *)

Section FloatOrder.



End FloatOrder.

(* ================================================================== *)
(** ** The epoch loop *)

Section Epochs.
Context {num : Type} {N : JSNumber num}.
Local Open Scope js_scope.

(** The loop counter [i] after [k] increments [i++]. *)
Definition counter (k : nat) : num := Nat.iter k (fun i => i + of_Z 1) (of_Z 0).

(** The training steps of one epoch, example after example: the network
    they leave and the error that each step returns. *)
Fixpoint epoch_steps (data : list (example num)) (lr : num) (net : NeuralNetwork num)
    : result (NeuralNetwork num * list num) :=
  match data with
  | [] => Ok (net, [])
  | d :: data' =>
      '(net, e) <- trainPattern (input d) (output d) (Some lr) net ;;
      '(net, es) <- epoch_steps data' lr net ;;
      Ok (net, e :: es)
  end.

(** One epoch: its steps, and the mean [(0 + e1 + ... + em) / m] of the
    errors that they return, [m] being the number of examples. *)
Definition epoch_error (data : list (example num)) (lr : num) (net : NeuralNetwork num)
    : result (NeuralNetwork num * num) :=
  '(net, es) <- epoch_steps data lr net ;;
  Ok (net, fold_left add es (of_Z 0) / of_Z (Z.of_nat (length data))).

(** [k] epochs in a row, whatever their errors: the network afterwards and the
    mean error of each epoch, in order. *)
Fixpoint mean_errors (k : nat) (data : list (example num)) (lr : num)
    (net : NeuralNetwork num) : result (NeuralNetwork num * list num) :=
  match k with
  | O => Ok (net, [])
  | S k' =>
      '(net, e) <- epoch_error data lr net ;;
      '(net, es) <- mean_errors k' data lr net ;;
      Ok (net, e :: es)
  end.

(** The calls made after the epochs whose mean errors are [history], the
    first of them being the epoch that the counter numbers [counter k]. *)
Definition epoch_calls (log : option log_sink) (logPeriod : num) (callback : bool)
    (callbackPeriod : num) (k : nat) (history : list num) : list (event num) :=
  flat_map (fun j => epoch_events log logPeriod callback callbackPeriod (counter (k + j))
                       (nth j history NaN))
    (seq 0 (length history)).


Lemma last_cons_default {A} (x : A) (l : list A) (d : A) : last (x :: l) d = last l x.
Proof.
  revert x d; induction l as [|y l IH]; intros x d; [reflexivity|].
  change (last (y :: l) d = last (y :: l) x). rewrite !IH. reflexivity.
Qed.

Lemma flat_map_seq_shift {A} (f : nat -> list A) n :
  flat_map f (seq 1 n) = flat_map (fun j => f (S j)) (seq 0 n).
Proof.
  rewrite <- seq_shift, !flat_map_concat_map, map_map. reflexivity.
Qed.

Lemma epoch_calls_cons log lp cb cp k e history :
  epoch_calls log lp cb cp k (e :: history)
  = epoch_events log lp cb cp (counter k) e ++ epoch_calls log lp cb cp (S k) history.
Proof.
  unfold epoch_calls. cbn [length seq flat_map nth]. rewrite Nat.add_0_r. f_equal.
  rewrite flat_map_seq_shift. apply flat_map_ext. intros j.
  replace (k + S j)%nat with (S k + j)%nat by lia. reflexivity.
Qed.

(** The loop over the examples adds up the errors of the steps. *)
Lemma train_examples_steps data lr :
  forall (net : NeuralNetwork num) sum,
    train_examples data lr (net, sum)
    = ('(net', es) <- epoch_steps data lr net ;; Ok (net', fold_left add es sum)).
Proof.
  induction data as [|d data IH]; intros net sum; cbn [train_examples epoch_steps bind];
    [reflexivity|].
  destruct (trainPattern (input d) (output d) (Some lr) net) as [[net1 e]|]; cbn [bind];
    [|reflexivity].
  rewrite IH. destruct (epoch_steps data lr net1) as [[net2 es]|]; reflexivity.
Qed.

Lemma epoch_error_examples data lr (net : NeuralNetwork num) :
  epoch_error data lr net
  = ('(net', sum) <- train_examples data lr (net, of_Z 0) ;;
     Ok (net', sum / of_Z (Z.of_nat (length data)))).
Proof.
  unfold epoch_error. rewrite train_examples_steps.
  destruct (epoch_steps data lr net) as [[net1 es]|]; reflexivity.
Qed.

(** One round of the loop of [train]. *)
Lemma train_epochs_eq fuel i data iterations thresh lr log lp cb cp error
    (net : NeuralNetwork num) trace :
  train_epochs fuel i data iterations thresh lr log lp cb cp error net trace
  = if (i <? iterations) && (error >? thresh) then
      match fuel with
      | O => None
      | S fuel' =>
          match epoch_error data lr net with
          | TypeError => Some TypeError
          | Ok (net', e) =>
              train_epochs fuel' (i + of_Z 1) data iterations thresh lr log lp cb cp e net'
                (trace ++ epoch_events log lp cb cp i e)
          end
      end
    else Some (Ok (net, trace, mkTrainResult error i)).
Proof.
  destruct fuel as [|fuel]; cbn [train_epochs]; [reflexivity|].
  rewrite epoch_error_examples.
  destruct (train_examples data lr (net, of_Z 0)) as [[net1 sum]|]; reflexivity.
Qed.

(** What the loop has done when it has ended without an error. *)
Lemma train_epochs_returned data iterations thresh lr log lp cb cp fuel :
  forall k error (net net' : NeuralNetwork num) trace trace' res,
    train_epochs fuel (counter k) data iterations thresh lr log lp cb cp error net trace
    = Some (Ok (net', trace', res)) ->
    exists history,
      (length history <= fuel)%nat /\
      mean_errors (length history) data lr net = Ok (net', history) /\
      res = mkTrainResult (last history error) (counter (k + length history)) /\
      (forall j, (j < length history)%nat ->
         (counter (k + j) <? iterations) = true /\
         (nth j (error :: history) NaN >? thresh) = true) /\
      (counter (k + length history) <? iterations) && (last history error >? thresh) = false /\
      trace' = trace ++ epoch_calls log lp cb cp k history.
Proof.
  induction fuel as [|fuel IH]; intros k error net net' trace trace' res H;
    rewrite train_epochs_eq in H;
    destruct ((counter k <? iterations) && (error >? thresh)) eqn:C.
  - discriminate H.
  - injection H as <- <- <-. exists []. cbn [length last]. rewrite Nat.add_0_r.
    unfold epoch_calls. cbn [length seq flat_map]. rewrite app_nil_r.
    repeat match goal with |- _ /\ _ => split end; try reflexivity; try assumption; try lia.
  - destruct (epoch_error data lr net) as [[net1 e]|] eqn:E; [|discriminate H].
    change (counter k + of_Z 1) with (counter (S k)) in H.
    apply IH in H. destruct H as (history & Hlen & Hmean & Hres & Hgo & Hstop & Htrace).
    apply andb_true_iff in C. destruct C as [C1 C2].
    exists (e :: history). rewrite last_cons_default. cbn [length].
    replace (k + S (length history))%nat with (S k + length history)%nat by lia.
    repeat match goal with |- _ /\ _ => split end; try assumption; try lia.
    + cbn [mean_errors]. rewrite E. cbn [bind]. rewrite Hmean. reflexivity.
    + intros [|j] Hj.
      * rewrite Nat.add_0_r. split; [exact C1 | exact C2].
      * replace (k + S j)%nat with (S k + j)%nat by lia. apply (Hgo j). lia.
    + rewrite Htrace, epoch_calls_cons, <- app_assoc. reflexivity.
  - injection H as <- <- <-. exists []. cbn [length last]. rewrite Nat.add_0_r.
    unfold epoch_calls. cbn [length seq flat_map]. rewrite app_nil_r.
    repeat match goal with |- _ /\ _ => split end; try reflexivity; try assumption; try lia.
Qed.

(** Conversely: epochs that the loop condition lets through, up to one that
    it stops at, are what the loop does, given that many rounds. *)
Lemma train_epochs_replay data iterations thresh lr log lp cb cp :
  forall history k error (net net' : NeuralNetwork num) trace fuel,
    mean_errors (length history) data lr net = Ok (net', history) ->
    (forall j, (j < length history)%nat ->
       (counter (k + j) <? iterations) = true /\
       (nth j (error :: history) NaN >? thresh) = true) ->
    (counter (k + length history) <? iterations) && (last history error >? thresh) = false ->
    (length history <= fuel)%nat ->
    train_epochs fuel (counter k) data iterations thresh lr log lp cb cp error net trace
    = Some (Ok (net', trace ++ epoch_calls log lp cb cp k history,
                mkTrainResult (last history error) (counter (k + length history)))).
Proof.
  induction history as [|e history IH]; intros k error net net' trace fuel Hmean Hgo Hstop Hfuel;
    rewrite train_epochs_eq.
  - cbn [length last] in *. rewrite Nat.add_0_r in *. rewrite Hstop.
    cbn [mean_errors] in Hmean. injection Hmean as <-.
    unfold epoch_calls. cbn [length seq flat_map]. rewrite app_nil_r. reflexivity.
  - destruct (Hgo 0%nat ltac:(cbn [length]; lia)) as [C1 C2].
    rewrite Nat.add_0_r in C1. cbn [nth] in C2. rewrite C1, C2. cbn [andb].
    cbn [length] in Hfuel. destruct fuel as [|fuel]; [lia|].
    cbn [length mean_errors] in Hmean.
    destruct (epoch_error data lr net) as [[net1 e1]|]; cbn [bind] in Hmean; [|discriminate Hmean].
    destruct (mean_errors (length history) data lr net1) as [[net2 h]|] eqn:E2;
      cbn [bind] in Hmean; [|discriminate Hmean].
    injection Hmean as -> -> ->.
    change (counter k + of_Z 1) with (counter (S k)).
    rewrite (IH (S k) e net1 net' (trace ++ epoch_events log lp cb cp (counter k) e) fuel E2).
    + rewrite epoch_calls_cons, <- app_assoc, last_cons_default. cbn [length].
      replace (S k + length history)%nat with (k + S (length history))%nat by lia. reflexivity.
    + intros j Hj. destruct (Hgo (S j) ltac:(cbn [length]; lia)) as [G1 G2].
      replace (k + S j)%nat with (S k + j)%nat in G1 by lia. split; [exact G1 | exact G2].
    + rewrite last_cons_default in Hstop. cbn [length] in Hstop.
      replace (k + S (length history))%nat with (S k + length history)%nat in Hstop by lia.
      exact Hstop.
    + lia.
Qed.

(** While every epoch returns and keeps [Inv], the loop throws nothing, and it
    ends once the counter is no longer below [iterations]. *)
Section Invariant.
Variable Inv : NeuralNetwork num -> Prop.
Variables (data : list (example num)) (iterations thresh lr : num).
Variables (log : option log_sink) (lp : num) (cb : bool) (cp : num).
Hypothesis Hepoch :
  forall net, Inv net -> exists net' e, epoch_error data lr net = Ok (net', e) /\ Inv net'.

Lemma train_epochs_safe fuel :
  forall i error (net : NeuralNetwork num) trace,
    Inv net ->
    match train_epochs fuel i data iterations thresh lr log lp cb cp error net trace with
    | Some TypeError => False
    | Some (Ok (net', _, _)) => Inv net'
    | None => True
    end.
Proof.
  induction fuel as [|fuel IH]; intros i error net trace Hinv; rewrite train_epochs_eq;
    destruct ((i <? iterations) && (error >? thresh)); try exact I; try exact Hinv.
  destruct (Hepoch Hinv) as (net1 & e & -> & Hinv1). apply IH. exact Hinv1.
Qed.

Lemma train_epochs_ends K :
  forall k error (net : NeuralNetwork num) trace,
    Inv net ->
    (counter (k + K) <? iterations) = false ->
    exists r, train_epochs K (counter k) data iterations thresh lr log lp cb cp error net trace
              = Some (Ok r).
Proof.
  induction K as [|K IH]; intros k error net trace Hinv Hend; rewrite train_epochs_eq.
  - rewrite Nat.add_0_r in Hend. rewrite Hend. cbn [andb]. eexists. reflexivity.
  - destruct ((counter k <? iterations) && (error >? thresh)); [|eexists; reflexivity].
    destruct (Hepoch Hinv) as (net1 & e & -> & Hinv1).
    change (counter k + of_Z 1) with (counter (S k)). apply IH; [exact Hinv1|].
    replace (S k + K)%nat with (k + S K)%nat by lia. exact Hend.
Qed.

End Invariant.


(** What [train] has done when it has returned. *)
Lemma train_returned fuel data options rand p (net net' : NeuralNetwork num) p' trace res :
  let iterations := or_default (o_iterations options) (of_Z 20000) in
  let thresh := or_default (o_errorThresh options) (dec 5 3) in
  let lr := or_default (o_learningRate options) (or_default (Some (learningRate net)) (dec 3 1)) in
  train fuel data options rand p net = Some (Ok (net', p', trace, res)) ->
  exists d0 net0 history,
    nth_error (formatData data) 0 = Some d0 /\
    initialize (train_sizes net (length (input d0)) (length (output d0)))
      (o_keepNetworkIntact options) rand p net = Ok (net0, p') /\
    (length history <= fuel)%nat /\
    mean_errors (length history) (formatData data) lr net0 = Ok (net', history) /\
    res = mkTrainResult (last history (of_Z 1)) (counter (length history)) /\
    (forall j, (j < length history)%nat ->
       (counter j <? iterations) = true /\
       (nth j (of_Z 1 :: history) NaN >? thresh) = true) /\
    (counter (length history) <? iterations) && (last history (of_Z 1) >? thresh) = false /\
    trace = epoch_calls (o_log options) (or_default (o_logPeriod options) (of_Z 10))
              (o_callback options) (or_default (o_callbackPeriod options) (of_Z 10)) 0 history.
Proof.
  intros iterations thresh lr H. unfold train in H. unfold elem in H.
  destruct (nth_error (formatData data) 0) as [d0|] eqn:Ed; cbn [deref] in H; [|discriminate H].
  destruct (initialize _ _ _ _ _) as [[net0 p0]|] eqn:Ei; [|discriminate H].
  destruct (train_epochs _ _ _ _ _ _ _ _ _ _ _ _ _) as [[[[net1 trace1] res1]|]|] eqn:E;
    cbn [bind] in H; try discriminate H.
  injection H as <- <- <- <-.
  change (of_Z 0) with (counter 0) in E.
  apply train_epochs_returned in E.
  destruct E as (history & Hlen & Hmean & Hres & Hgo & Hstop & Htrace).
  exists d0, net0, history. cbn [Nat.add app] in *.
  repeat match goal with |- _ /\ _ => split end; try reflexivity; assumption.
Qed.

(** The run of [train] that goes through the epochs [history]. *)
Lemma train_replay fuel data options rand p (net net0 net' : NeuralNetwork num) p' d0 history :
  let iterations := or_default (o_iterations options) (of_Z 20000) in
  let thresh := or_default (o_errorThresh options) (dec 5 3) in
  let lr := or_default (o_learningRate options) (or_default (Some (learningRate net)) (dec 3 1)) in
  nth_error (formatData data) 0 = Some d0 ->
  initialize (train_sizes net (length (input d0)) (length (output d0)))
    (o_keepNetworkIntact options) rand p net = Ok (net0, p') ->
  mean_errors (length history) (formatData data) lr net0 = Ok (net', history) ->
  (forall j, (j < length history)%nat ->
     (counter j <? iterations) = true /\
     (nth j (of_Z 1 :: history) NaN >? thresh) = true) ->
  (counter (length history) <? iterations) && (last history (of_Z 1) >? thresh) = false ->
  (length history <= fuel)%nat ->
  train fuel data options rand p net
  = Some (Ok (net', p',
              epoch_calls (o_log options) (or_default (o_logPeriod options) (of_Z 10))
                (o_callback options) (or_default (o_callbackPeriod options) (of_Z 10)) 0 history,
              mkTrainResult (last history (of_Z 1)) (counter (length history)))).
Proof.
  intros iterations thresh lr Hd Hinit Hmean Hgo Hstop Hfuel.
  unfold train. unfold elem. rewrite Hd. cbn [deref]. rewrite Hinit.
  change (of_Z 0) with (counter 0).
  rewrite (@train_epochs_replay (formatData data) iterations thresh lr (o_log options)
             (or_default (o_logPeriod options) (of_Z 10)) (o_callback options)
             (or_default (o_callbackPeriod options) (of_Z 10)) history 0 (of_Z 1) net0 net' []
             fuel Hmean Hgo Hstop Hfuel).
  reflexivity.
Qed.

End Epochs.

(* ================================================================== *)
(** ** Counting in doubles *)

Section Rounding.

(** [q] followed by [s] zero bits. *)
Definition shl (q : positive) (s : nat) : positive := Nat.iter s xO q.

Lemma Pos_iter_shl q n : Pos.iter xO q n = shl q (Pos.to_nat n).
Proof. unfold shl. rewrite Pos2Nat.inj_iter. reflexivity. Qed.

Lemma shl_add q s t : shl (shl q s) t = shl q (t + s).
Proof. unfold shl. rewrite Nat.iter_add. reflexivity. Qed.

Lemma Zpos_shl q s : Zpos (shl q s) = (Zpos q * 2 ^ Z.of_nat s)%Z.
Proof.
  induction s as [|s IH].
  - simpl. lia.
  - change (shl q (S s)) with (xO (shl q s)).
    rewrite (Pos2Z.inj_xO (shl q s)), IH, Nat2Z.inj_succ, Z.pow_succ_r by lia. lia.
Qed.

Lemma digits_shl q s : Zpos (digits2_pos (shl q s)) = (Zpos (digits2_pos q) + Z.of_nat s)%Z.
Proof.
  induction s as [|s IH].
  - simpl. lia.
  - change (shl q (S s)) with (xO (shl q s)). cbn [digits2_pos].
    rewrite Pos2Z.inj_succ, IH. lia.
Qed.

Lemma compare_shl p q s : (shl p s ?= shl q s)%positive = (p ?= q)%positive.
Proof.
  induction s as [|s IH]; [reflexivity|].
  change (shl p (S s)) with (xO (shl p s)). change (shl q (S s)) with (xO (shl q s)).
  exact IH.
Qed.

Lemma iter_pos_nat {A} (f : A -> A) n x :
  SpecFloat.iter_pos f n x = Nat.iter (Pos.to_nat n) f x.
Proof.
  revert x; induction n as [n IH|n IH|]; intros x; cbn [SpecFloat.iter_pos].
  - rewrite !IH, Pos2Nat.inj_xI.
    replace (S (2 * Pos.to_nat n)) with (Pos.to_nat n + (Pos.to_nat n + 1))%nat by lia.
    rewrite !Nat.iter_add. reflexivity.
  - rewrite !IH, Pos2Nat.inj_xO.
    replace (2 * Pos.to_nat n)%nat with (Pos.to_nat n + Pos.to_nat n)%nat by lia.
    rewrite Nat.iter_add. reflexivity.
  - reflexivity.
Qed.

Lemma shr_1_shl q t n :
  Nat.iter n shr_1 (Build_shr_record (Zpos (shl q (n + t))) false false)
  = Build_shr_record (Zpos (shl q t)) false false.
Proof.
  induction n as [|n IH]; [reflexivity|].
  rewrite Nat.iter_succ_r. change (shl q (S n + t)) with (xO (shl q (n + t))).
  cbn [shr_1 orb]. exact IH.
Qed.

(** A mantissa of 53 bits is left as it is. *)
Lemma binary_round_aux_canonical m e :
  Zpos (digits2_pos m) = 53%Z -> (-1074 <= e <= 971)%Z ->
  binary_round_aux prec emax false (Zpos m) e loc_Exact = S754_finite false m e.
Proof.
  intros Hd He. unfold binary_round_aux, shr_fexp, fexp, emin, prec, emax.
  cbn [Zdigits2 shr_record_of_loc]. rewrite Hd.
  replace (Z.max (53 + e - 53) (3 - 1024 - 53) - e)%Z with 0%Z by lia.
  cbn [shr shr_m loc_of_shr_record round_nearest_even Zdigits2]. rewrite Hd.
  replace (Z.max (53 + e - 53) (3 - 1024 - 53) - e)%Z with 0%Z by lia.
  cbn [shr shr_m]. replace (e <=? 1024 - 53)%Z with true by (symmetry; apply Z.leb_le; lia).
  reflexivity.
Qed.

(** Rounding [q * 2^s * 2^e] when [q] has at most 53 bits: nothing is lost. *)
Lemma binary_round_shl q s e :
  (Zpos (digits2_pos q) <= 53)%Z ->
  (-1074 <= e + Z.of_nat s + Zpos (digits2_pos q) - 53 <= 971)%Z ->
  binary_round prec emax false (shl q s) e
  = S754_finite false (shl q (Z.to_nat (53 - Zpos (digits2_pos q))))
      (e + Z.of_nat s + Zpos (digits2_pos q) - 53).
Proof.
  intros Hd He. set (d := Zpos (digits2_pos q)) in *.
  unfold binary_round, shl_align, fexp, emin. rewrite digits_shl. fold d.
  unfold prec, emax.
  replace (Z.max (d + Z.of_nat s + e - 53) (3 - 1024 - 53))%Z
    with (e + Z.of_nat s + d - 53)%Z by lia.
  destruct (e + Z.of_nat s + d - 53 - e)%Z as [|n|n] eqn:En.
  - replace (Z.to_nat (53 - d)) with s by lia.
    replace (e + Z.of_nat s + d - 53)%Z with e by lia.
    apply (@binary_round_aux_canonical (shl q s) e); [rewrite digits_shl; fold d; lia | lia].
  - (* more than 53 bits: the bits shifted out are all zero *)
    unfold binary_round_aux, shr_fexp, fexp, emin, prec, emax.
    cbn [Zdigits2 shr_record_of_loc]. rewrite digits_shl. fold d.
    replace (Z.max (d + Z.of_nat s + e - 53) (3 - 1024 - 53) - e)%Z with (Zpos n) by lia.
    assert (Hit : Nat.iter (Pos.to_nat n) shr_1 (Build_shr_record (Zpos (shl q s)) false false)
                  = Build_shr_record (Zpos (shl q (Z.to_nat (53 - d)))) false false).
    { replace s with (Pos.to_nat n + Z.to_nat (53 - d))%nat by lia. apply shr_1_shl. }
    cbn [shr]. rewrite iter_pos_nat, Hit.
    cbn [shr_m loc_of_shr_record round_nearest_even Zdigits2].
    rewrite digits_shl. fold d.
    replace (Z.max (d + Z.of_nat (Z.to_nat (53 - d)) + (e + Z.pos n) - 53) (3 - 1024 - 53)
             - (e + Z.pos n))%Z with 0%Z by lia.
    cbn [shr shr_m].
    replace (e + Z.pos n <=? 1024 - 53)%Z with true by (symmetry; apply Z.leb_le; lia).
    f_equal. lia.
  - rewrite Pos_iter_shl, shl_add.
    replace (Pos.to_nat n + s)%nat with (Z.to_nat (53 - d)) by lia.
    apply (@binary_round_aux_canonical (shl q (Z.to_nat (53 - d))) (e + Z.of_nat s + d - 53));
      [rewrite digits_shl; fold d; lia | lia].
Qed.

Lemma digits_bounds p :
  (2 ^ (Zpos (digits2_pos p) - 1) <= Zpos p < 2 ^ Zpos (digits2_pos p))%Z.
Proof.
  induction p as [p IH|p IH|]; cbn [digits2_pos].
  - rewrite Pos2Z.inj_succ, (Pos2Z.inj_xI p).
    replace (Z.succ (Zpos (digits2_pos p)) - 1)%Z with (Z.succ (Zpos (digits2_pos p) - 1)) by lia.
    rewrite !Z.pow_succ_r by lia. lia.
  - rewrite Pos2Z.inj_succ, (Pos2Z.inj_xO p).
    replace (Z.succ (Zpos (digits2_pos p)) - 1)%Z with (Z.succ (Zpos (digits2_pos p) - 1)) by lia.
    rewrite !Z.pow_succ_r by lia. lia.
  - simpl. lia.
Qed.

Lemma digits_below p : (Zpos p < 2 ^ 53)%Z -> (Zpos (digits2_pos p) <= 53)%Z.
Proof.
  intros Hp. destruct (digits_bounds p) as [Hlo _].
  destruct (Z_le_gt_dec (Zpos (digits2_pos p)) 53) as [H|H]; [exact H|].
  exfalso. assert (2 ^ 53 <= 2 ^ (Zpos (digits2_pos p) - 1))%Z by (apply Z.pow_le_mono_r; lia).
  lia.
Qed.

(** The double that holds the natural number [p], below [2^53]. *)
Definition natural_float (p : positive) : spec_float :=
  S754_finite false (shl p (Z.to_nat (53 - Zpos (digits2_pos p)))) (Zpos (digits2_pos p) - 53).

Lemma natural_float_valid p :
  (Zpos p < 2 ^ 53)%Z -> SpecFloat.valid_binary prec emax (natural_float p) = true.
Proof.
  intros Hp. pose proof (@digits_below p Hp) as Hd.
  unfold natural_float, SpecFloat.valid_binary, SpecFloat.bounded, SpecFloat.canonical_mantissa,
    SpecFloat.fexp, SpecFloat.emin, prec, emax.
  rewrite digits_shl. apply andb_true_iff. split.
  - apply Z.eqb_eq. lia.
  - apply Z.leb_le. lia.
Qed.

Lemma Prim2SF_float_of_Z p :
  (Zpos p < 2 ^ 53)%Z -> Prim2SF (IEEE.float_of_Z (Zpos p)) = natural_float p.
Proof.
  intros Hp. pose proof (@digits_below p Hp) as Hd.
  assert (E : binary_normalize prec emax (Zpos p) 0 false = natural_float p).
  { cbn [binary_normalize]. change p with (shl p 0) at 1.
    rewrite binary_round_shl by (cbn [Z.of_nat]; lia).
    unfold natural_float. f_equal; cbn [Z.of_nat]; lia. }
  unfold IEEE.float_of_Z. rewrite E. apply Prim2SF_SF2Prim. apply natural_float_valid. exact Hp.
Qed.

Lemma fst_shl_align q s e e' :
  (e' <= e)%Z -> fst (shl_align (shl q s) e e') = shl q (Z.to_nat (e - e') + s).
Proof.
  intros He. unfold shl_align. destruct (e' - e)%Z as [|n|n] eqn:En; cbn [fst]; try lia.
  - replace (Z.to_nat (e - e')) with 0%nat by lia. reflexivity.
  - rewrite Pos_iter_shl, shl_add. f_equal. lia.
Qed.

(** Adding 1 to a natural number is exact below [2^53]. *)
Lemma float_of_Z_succ (z : Z) :
  (0 <= z)%Z -> (z + 1 < 2 ^ 53)%Z ->
  (IEEE.float_of_Z z + IEEE.float_of_Z 1)%float = IEEE.float_of_Z (z + 1).
Proof.
  intros H0 Hz. apply Prim2SF_inj. rewrite add_spec.
  destruct z as [|p|p]; [reflexivity| |lia].
  assert (Hp1 : (Zpos p + 1)%Z = Zpos (p + 1)) by lia. rewrite Hp1.
  rewrite !Prim2SF_float_of_Z by lia.
  pose proof (@digits_below p ltac:(lia)) as Hd.
  pose proof (@digits_below (p + 1) ltac:(lia)) as Hd'.
  unfold natural_float at 1 2. unfold SF64add, SFadd.
  change (Zpos (digits2_pos 1)) with 1%Z.
  replace (Z.min (Zpos (digits2_pos p) - 53) (1 - 53))%Z with (-52)%Z by lia.
  rewrite !fst_shl_align by lia. cbn [cond_Zopp].
  replace (Zpos (shl p (Z.to_nat (Zpos (digits2_pos p) - 53 - -52)
                        + Z.to_nat (53 - Zpos (digits2_pos p))))
           + Zpos (shl 1 (Z.to_nat (1 - 53 - -52) + Z.to_nat (53 - 1))))%Z
    with (Zpos (shl (p + 1) 52)).
  2:{ rewrite !Zpos_shl.
      replace (Z.to_nat (Zpos (digits2_pos p) - 53 - -52)
               + Z.to_nat (53 - Zpos (digits2_pos p)))%nat with 52%nat by lia.
      replace (Z.to_nat (1 - 53 - -52) + Z.to_nat (53 - 1))%nat with 52%nat by lia.
      lia. }
  cbn [binary_normalize]. rewrite binary_round_shl by (cbn [Z.of_nat]; lia).
  unfold natural_float. f_equal; lia.
Qed.

(** The order of the doubles that hold natural numbers is that of the numbers. *)
Lemma float_of_Z_ltb (a b : Z) :
  (0 <= a < 2 ^ 53)%Z -> (0 <= b < 2 ^ 53)%Z ->
  PrimFloat.ltb (IEEE.float_of_Z a) (IEEE.float_of_Z b) = (a <? b)%Z.
Proof.
  intros Ha Hb. rewrite ltb_spec. unfold SFltb.
  destruct a as [|p|p], b as [|q|q]; try lia.
  - reflexivity.
  - rewrite (@Prim2SF_float_of_Z q) by lia. reflexivity.
  - rewrite (@Prim2SF_float_of_Z p) by lia. reflexivity.
  - rewrite (@Prim2SF_float_of_Z p), (@Prim2SF_float_of_Z q) by lia.
    unfold natural_float. cbn [SFcompare].
    pose proof (digits_bounds p) as [Hp1 Hp2]. pose proof (digits_bounds q) as [Hq1 Hq2].
    destruct (Z.compare_spec (Zpos (digits2_pos p) - 53) (Zpos (digits2_pos q) - 53)) as [E|E|E].
    + replace (digits2_pos q) with (digits2_pos p) by lia.
      rewrite compare_shl. change (Zpos p <? Zpos q)%Z with (p <? q)%positive.
      unfold Pos.ltb. destruct (p ?= q)%positive; reflexivity.
    + assert (2 ^ Zpos (digits2_pos p) <= 2 ^ (Zpos (digits2_pos q) - 1))%Z
        by (apply Z.pow_le_mono_r; lia).
      symmetry. apply Z.ltb_lt. lia.
    + assert (2 ^ Zpos (digits2_pos q) <= 2 ^ (Zpos (digits2_pos p) - 1))%Z
        by (apply Z.pow_le_mono_r; lia).
      symmetry. apply Z.ltb_ge. lia.
Qed.


Lemma natural_float_scaled p e :
  (Zpos p < 2 ^ 53)%Z -> (e <= Zpos (digits2_pos p) - 53)%Z ->
  (Zpos (shl p (Z.to_nat (53 - Zpos (digits2_pos p)))) * 2 ^ (Zpos (digits2_pos p) - 53 - e)
   = Zpos p * 2 ^ (- e))%Z.
Proof.
  intros Hp He. pose proof (@digits_below p Hp) as Hd.
  rewrite Zpos_shl, <- Z.mul_assoc, <- Z.pow_add_r by lia.
  do 2 f_equal. lia.
Qed.

(** The remainder of two natural numbers below [2^53] is that of the numbers. *)
Lemma float_rem_natural (a b : Z) :
  (0 <= a < 2 ^ 53)%Z -> (0 < b < 2 ^ 53)%Z ->
  IEEE.float_rem (IEEE.float_of_Z a) (IEEE.float_of_Z b) = IEEE.float_of_Z (a mod b).
Proof.
  intros Ha Hb. unfold IEEE.float_rem.
  destruct b as [|q|q]; try lia. rewrite (@Prim2SF_float_of_Z q) by lia.
  destruct a as [|p|p]; try lia.
  - reflexivity.
  - rewrite (@Prim2SF_float_of_Z p) by lia. unfold natural_float. cbn [IEEE.SFrem]. cbv zeta.
    set (e := Z.min (Zpos (digits2_pos p) - 53) (Zpos (digits2_pos q) - 53)).
    pose proof (@digits_below p ltac:(lia)) as Hdp.
    pose proof (@digits_below q ltac:(lia)) as Hdq.
    pose proof (digits_bounds p) as [Hp1 _]. pose proof (digits_bounds q) as [Hq1 _].
    assert (He : (-52 <= e <= 0)%Z) by (unfold e; lia).
    rewrite !natural_float_scaled by (unfold e; lia).
    rewrite Zmult_mod_distr_r.
    pose proof (Z.mod_pos_bound (Zpos p) (Zpos q) ltac:(lia)) as Hr.
    destruct (Zpos p mod Zpos q)%Z as [|t|t] eqn:Er; try lia.
    + reflexivity.
    + cbn [cond_Zopp].
      replace (Zpos t * 2 ^ (- e))%Z with (Zpos (shl t (Z.to_nat (- e))))
        by (rewrite Zpos_shl; do 2 f_equal; lia).
      cbn [binary_normalize].
      pose proof (@digits_below t ltac:(lia)) as Hdt.
      pose proof (digits_bounds t) as [Ht1 _].
      rewrite binary_round_shl by lia.
      replace (e + Z.of_nat (Z.to_nat (- e)) + Zpos (digits2_pos t) - 53)%Z
        with (Zpos (digits2_pos t) - 53)%Z by lia.
      fold (natural_float t). rewrite <- (@Prim2SF_float_of_Z t) by lia.
      apply SF2Prim_Prim2SF.
Qed.

(** A natural number below [2^53] equals 0 as a double when it is 0. *)
Lemma float_of_Z_eqb_zero (r : Z) :
  (0 <= r < 2 ^ 53)%Z ->
  PrimFloat.eqb (IEEE.float_of_Z r) (IEEE.float_of_Z 0) = (r =? 0)%Z.
Proof.
  intros Hr. rewrite eqb_spec. unfold SFeqb.
  destruct r as [|t|t]; try lia.
  - reflexivity.
  - rewrite (@Prim2SF_float_of_Z t) by lia. reflexivity.
Qed.


End Rounding.

Section Counting.
Import IEEE.
Variable rt : runtime.
Let N : JSNumber float := ieee rt.
Local Existing Instance N.

(** Up to [2^53] the loop counter holds the number of its increments. *)
Lemma counter_exact k : (Z.of_nat k < 2 ^ 53)%Z -> counter k = float_of_Z (Z.of_nat k).
Proof.
  induction k as [|k IH]; intros Hk; [reflexivity|].
  change (counter (S k)) with (counter k + float_of_Z 1)%float.
  rewrite IH by lia. rewrite float_of_Z_succ by lia. f_equal. lia.
Qed.

Lemma counter_ltb k m :
  (Z.of_nat k < 2 ^ 53)%Z -> (Z.of_nat m < 2 ^ 53)%Z ->
  PrimFloat.ltb (counter k) (float_of_Z (Z.of_nat m)) = (k <? m)%nat.
Proof.
  intros Hk Hm. rewrite counter_exact by exact Hk. rewrite float_of_Z_ltb by lia.
  destruct (Nat.ltb_spec k m); [apply Z.ltb_lt | apply Z.ltb_ge]; lia.
Qed.



(** A natural number of iterations below [2^53] is reached by counting to it. *)
Lemma natural_iterations_reached m :
  (Z.of_nat m < 2 ^ 53)%Z -> PrimFloat.ltb (counter m) (float_of_Z (Z.of_nat m)) = false.
Proof. intros Hm. rewrite counter_ltb by exact Hm. apply Nat.ltb_irrefl. Qed.

(** The counter modulo a natural period is 0 at the multiples of the period. *)
Lemma counter_rem_zero j m :
  (Z.of_nat j < 2 ^ 53)%Z -> (0 < Z.of_nat m < 2 ^ 53)%Z ->
  PrimFloat.eqb (float_rem (counter j) (float_of_Z (Z.of_nat m))) (float_of_Z 0)
  = (j mod m =? 0)%nat.
Proof.
  intros Hj Hm. rewrite counter_exact by exact Hj.
  rewrite float_rem_natural by lia.
  pose proof (Z.mod_pos_bound (Z.of_nat j) (Z.of_nat m) ltac:(lia)) as Hr.
  rewrite float_of_Z_eqb_zero by lia.
  rewrite <- Nat2Z.inj_mod.
  destruct (Nat.eqb_spec (j mod m) 0) as [E|E]; [apply Z.eqb_eq | apply Z.eqb_neq]; lia.
Qed.

Lemma default_iterations_reached : PrimFloat.ltb (counter 20000) (float_of_Z 20000) = false.
Proof. apply (@natural_iterations_reached 20000). reflexivity. Qed.

End Counting.

(* ================================================================== *)
(** ** [train] and the end of its loop *)

Section TrainTerminates.
Import IEEE.
Variable rt : runtime.
Let N : JSNumber float := ieee rt.
Local Existing Instance N.


End TrainTerminates.

(* ================================================================== *)
(** ** Options that are zero *)

Section ZeroOptions.
Import IEEE.
Variable rt : runtime.
Let N : JSNumber float := ieee rt.
Local Existing Instance N.

Lemma or_default_zero (d : float) : or_default (Some zero) d = d.
Proof. reflexivity. Qed.

(** [train] has returned [res], with the network [net'] and the calls
    [trace], after epochs that ran under the given numbers: started from the
    initialized network and run one after the other with the learning rate
    [lr], each of them entered with the counter below [iterations] and the
    error above [thresh], one of the two no longer so after the last, and
    followed by the calls that [logPeriod] and [callbackPeriod] ask for. *)
Definition ran_under (iterations thresh lr logPeriod callbackPeriod : float)
    (log : option log_sink) (callback keep : bool) (data : training_data float)
    (rand : random_source float) (p : nat) (net net' : NeuralNetwork float) (p' : nat)
    (trace : list (event float)) (res : train_result float) : Prop :=
  exists d0 net0 history,
    nth_error (formatData data) 0 = Some d0 /\
    initialize (train_sizes net (length (input d0)) (length (output d0))) keep rand p net
    = Ok (net0, p') /\
    mean_errors (length history) (formatData data) lr net0 = Ok (net', history) /\
    res = mkTrainResult (last history one) (counter (length history)) /\
    (forall j, j < length history ->
       PrimFloat.ltb (counter j) iterations = true /\
       PrimFloat.ltb thresh (nth j (one :: history) nan) = true) /\
    PrimFloat.ltb (counter (length history)) iterations
    && PrimFloat.ltb thresh (last history one) = false /\
    trace = epoch_calls log logPeriod callback callbackPeriod 0 history.

Lemma train_ran_under fuel data options rand p (net net' : NeuralNetwork float) p' trace res :
  train fuel data options rand p net = Some (Ok (net', p', trace, res)) ->
  ran_under (or_default (o_iterations options) (of_Z 20000))
    (or_default (o_errorThresh options) (dec 5 3))
    (or_default (o_learningRate options) (or_default (Some (learningRate net)) (dec 3 1)))
    (or_default (o_logPeriod options) (of_Z 10))
    (or_default (o_callbackPeriod options) (of_Z 10))
    (o_log options) (o_callback options) (o_keepNetworkIntact options)
    data rand p net net' p' trace res.
Proof.
  intros H. apply train_returned in H.
  destruct H as (d0 & net0 & history & Hd & Hinit & _ & Hmean & Hres & Hgo & Hstop & Htrace).
  exists d0, net0, history.
  split; [exact Hd|]. split; [exact Hinit|]. split; [exact Hmean|]. split; [exact Hres|].
  split; [exact Hgo|]. split; [exact Hstop | exact Htrace].
Qed.

(** C10: a numeric option given as 0 behaves as the omitted option, and the
    default is what is used.  In the constructor, [learningRate], [momentum]
    and [binaryThresh] given as 0 build the network that the omitted option
    builds, with the values 0.3, 0.1 and 0.5.  In [train], each of
    [iterations], [errorThresh], [logPeriod], [learningRate] and
    [callbackPeriod] given as 0 leads to the outcome of the omitted option
    (network, log and callback calls, returned object, or a loop still
    running), whatever the other options are.  And when [train] returns with
    one of them given as 0, its epochs ran under the default in the place of
    that option: 20000 iterations, the threshold 0.005, the period 10, and
    the learning rate of the network (0.3 if that is 0). *)
Theorem zero_option_is_omitted_option :
  (forall lr m h b,
      new_NeuralNetwork (N := N) (mkCtorOptions (Some zero) m h b)
      = new_NeuralNetwork (mkCtorOptions None m h b) /\
      new_NeuralNetwork (N := N) (mkCtorOptions lr (Some zero) h b)
      = new_NeuralNetwork (mkCtorOptions lr None h b) /\
      new_NeuralNetwork (N := N) (mkCtorOptions lr m h (Some zero))
      = new_NeuralNetwork (mkCtorOptions lr m h None) /\
      learningRate (new_NeuralNetwork (N := N) (mkCtorOptions (Some zero) m h b))
      = (3 / 10)%float /\
      momentum (new_NeuralNetwork (N := N) (mkCtorOptions lr (Some zero) h b))
      = (1 / 10)%float /\
      binaryThresh (new_NeuralNetwork (N := N) (mkCtorOptions lr m h (Some zero)))
      = (5 / 10)%float) /\
  (forall fuel data it et lg lp lr cb cp keep rand p (net : NeuralNetwork float),
      train fuel data (mkTrainOptions (Some zero) et lg lp lr cb cp keep) rand p net
      = train fuel data (mkTrainOptions None et lg lp lr cb cp keep) rand p net /\
      train fuel data (mkTrainOptions it (Some zero) lg lp lr cb cp keep) rand p net
      = train fuel data (mkTrainOptions it None lg lp lr cb cp keep) rand p net /\
      train fuel data (mkTrainOptions it et lg (Some zero) lr cb cp keep) rand p net
      = train fuel data (mkTrainOptions it et lg None lr cb cp keep) rand p net /\
      train fuel data (mkTrainOptions it et lg lp (Some zero) cb cp keep) rand p net
      = train fuel data (mkTrainOptions it et lg lp None cb cp keep) rand p net /\
      train fuel data (mkTrainOptions it et lg lp lr cb (Some zero) keep) rand p net
      = train fuel data (mkTrainOptions it et lg lp lr cb None keep) rand p net) /\
  (forall fuel data it et lg lp lr cb cp keep rand p (net net' : NeuralNetwork float)
          p' trace res,
      let iterations := or_default it (of_Z 20000) in
      let thresh := or_default et (dec 5 3) in
      let logPeriod := or_default lp (of_Z 10) in
      let rate := or_default lr (or_default (Some (learningRate net)) (dec 3 1)) in
      let callbackPeriod := or_default cp (of_Z 10) in
      (train fuel data (mkTrainOptions (Some zero) et lg lp lr cb cp keep) rand p net
       = Some (Ok (net', p', trace, res)) ->
       ran_under 20000 thresh rate logPeriod callbackPeriod lg cb keep
         data rand p net net' p' trace res) /\
      (train fuel data (mkTrainOptions it (Some zero) lg lp lr cb cp keep) rand p net
       = Some (Ok (net', p', trace, res)) ->
       ran_under iterations (5 / 1000) rate logPeriod callbackPeriod lg cb keep
         data rand p net net' p' trace res) /\
      (train fuel data (mkTrainOptions it et lg (Some zero) lr cb cp keep) rand p net
       = Some (Ok (net', p', trace, res)) ->
       ran_under iterations thresh rate 10 callbackPeriod lg cb keep
         data rand p net net' p' trace res) /\
      (train fuel data (mkTrainOptions it et lg lp (Some zero) cb cp keep) rand p net
       = Some (Ok (net', p', trace, res)) ->
       ran_under iterations thresh
         (if float_truthy (learningRate net) then learningRate net else (3 / 10)%float)
         logPeriod callbackPeriod lg cb keep data rand p net net' p' trace res) /\
      (train fuel data (mkTrainOptions it et lg lp lr cb (Some zero) keep) rand p net
       = Some (Ok (net', p', trace, res)) ->
       ran_under iterations thresh rate logPeriod 10 lg cb keep
         data rand p net net' p' trace res)).
Proof.
  split; [|split].
  - intros. repeat split.
  - intros. repeat split.
  - intros fuel data it et lg lp lr cb cp keep rand p net net' p' trace res
      iterations thresh logPeriod rate callbackPeriod.
    repeat split; intros H; apply train_ran_under in H; exact H.
Qed.

End ZeroOptions.

(* ================================================================== *)
(** ** Objects built key by key *)

(** [k] can follow [k'] in an object: it is another key, and the enumeration
    order does not place it before [k']. *)
Definition can_follow (k' k : key) : bool := negb (key_eqb k k') && negb (key_before k k').

(** The keys of an object as JavaScript enumerates them: index keys in
    ascending order, then the other keys, none twice. *)
Fixpoint js_ordered (keys : list key) : Prop :=
  match keys with
  | [] => True
  | k' :: rest => Forall (fun k => can_follow k' k = true) rest /\ js_ordered rest
  end.

(** The object whose [p]-th key, counting from [p0], holds [f p]. *)
Fixpoint build_from {A} (p0 : nat) (keys : list key) (f : nat -> A) : obj A :=
  match keys with
  | [] => []
  | k :: rest => (k, f p0) :: build_from (S p0) rest f
  end.

Definition build {A} (keys : list key) (f : nat -> A) : obj A := build_from 0 keys f.

Section ObjectFacts.
Context {A : Type}.

Lemma key_eqb_refl k : key_eqb k k = true.
Proof. destruct k; simpl; [apply Nat.eqb_refl | apply String.eqb_refl]. Qed.

Lemma obj_set_append (o : obj A) k v :
  Forall (fun kv => can_follow (fst kv) k = true) o -> obj_set o k v = o ++ [(k, v)].
Proof.
  induction o as [|[k' v'] o IH]; intros H; [reflexivity|].
  inversion H as [|? ? Hk Ho]; subst. cbn [fst] in Hk.
  unfold can_follow in Hk. apply andb_prop in Hk as [H1 H2].
  apply negb_true_iff in H1, H2.
  cbn [obj_set]. rewrite H1, H2, IH by assumption. reflexivity.
Qed.

Lemma build_from_app p (a b : list key) (f : nat -> A) :
  build_from p (a ++ b) f = build_from p a f ++ build_from (p + length a) b f.
Proof.
  revert p; induction a as [|k a IH]; intros p; cbn [build_from app length].
  - rewrite Nat.add_0_r. reflexivity.
  - rewrite IH. replace (S p + length a) with (p + S (length a)) by lia. reflexivity.
Qed.

Lemma keys_build_from p keys (f : nat -> A) : Object_keys (build_from p keys f) = keys.
Proof.
  revert p; induction keys as [|k keys IH]; intros p; [reflexivity|].
  unfold Object_keys in *. cbn [build_from map fst]. rewrite IH. reflexivity.
Qed.

Lemma values_build_from p keys (f : nat -> A) :
  map snd (build_from p keys f) = map f (seq p (length keys)).
Proof.
  revert p; induction keys as [|k keys IH]; intros p; [reflexivity|].
  cbn [build_from map snd length seq]. rewrite IH. reflexivity.
Qed.

Lemma length_build_from p keys (f : nat -> A) : length (build_from p keys f) = length keys.
Proof.
  revert p; induction keys as [|k keys IH]; intros p; [reflexivity|].
  cbn [build_from length]. rewrite IH. reflexivity.
Qed.

Lemma js_ordered_app a b :
  js_ordered (a ++ b) ->
  js_ordered a /\ js_ordered b /\
  Forall (fun k' => Forall (fun k => can_follow k' k = true) b) a.
Proof.
  induction a as [|k a IH]; cbn [app js_ordered]; intros H.
  - repeat split; auto.
  - destruct H as [Hk Hrest]. destruct (IH Hrest) as (Ha & Hb & Hab).
    apply Forall_app in Hk as [Hka Hkb].
    repeat split; auto.
Qed.

Lemma build_from_follow p pre k (f : nat -> A) :
  Forall (fun k' => can_follow k' k = true) pre ->
  Forall (fun kv => can_follow (fst kv) k = true) (build_from p pre f).
Proof.
  revert p; induction pre as [|k' pre IH]; intros p H; cbn [build_from]; [constructor|].
  inversion H; subst. constructor; [assumption | apply IH; assumption].
Qed.

(** Writing one more key after the keys already written. *)
Lemma obj_set_build pre k rest (f : nat -> A) :
  js_ordered (pre ++ k :: rest) ->
  obj_set (build pre f) k (f (length pre)) = build (pre ++ [k]) f.
Proof.
  intros H. apply js_ordered_app in H as (_ & _ & Hfollow).
  unfold build. rewrite build_from_app. cbn [build_from Nat.add].
  apply obj_set_append, build_from_follow.
  eapply Forall_impl; [|exact Hfollow].
  intros k' Hk'. inversion Hk'; assumption.
Qed.

Lemma obj_get_build_from p keys (f : nat -> A) i d :
  js_ordered keys -> i < length keys ->
  obj_get (build_from p keys f) (nth i keys d) = Some (f (p + i)).
Proof.
  revert p i; induction keys as [|k keys IH]; intros p i Hord Hi; cbn [length] in Hi;
    [lia|].
  destruct Hord as [Hk Hrest]. destruct i as [|i]; cbn [build_from obj_get nth].
  - rewrite key_eqb_refl, Nat.add_0_r. reflexivity.
  - assert (Hne : key_eqb (nth i keys d) k = false).
    { assert (Hi' : i < length keys) by lia.
      rewrite Forall_forall in Hk. specialize (Hk (nth i keys d) (nth_In keys d Hi')).
      unfold can_follow in Hk. apply andb_prop in Hk as [H1 _].
      apply negb_true_iff in H1. exact H1. }
    rewrite Hne, IH by (assumption || lia). f_equal. f_equal. lia.
Qed.

Lemma obj_get_nth (o : obj A) p dk dv :
  js_ordered (Object_keys o) -> p < length o ->
  obj_get o (nth p (Object_keys o) dk) = Some (nth p (map snd o) dv).
Proof.
  revert p; induction o as [|[k v] o IH]; intros p Hord Hp; cbn [length] in Hp; [lia|].
  unfold Object_keys in *. cbn [map fst snd js_ordered] in *.
  destruct Hord as [Hk Hrest]. destruct p as [|p]; cbn [obj_get nth].
  - rewrite key_eqb_refl. reflexivity.
  - assert (Hp' : p < length (map fst o)) by (rewrite length_map; lia).
    assert (Hne : key_eqb (nth p (map fst o) dk) k = false).
    { rewrite Forall_forall in Hk. specialize (Hk _ (nth_In (map fst o) dk Hp')).
      unfold can_follow in Hk. apply andb_prop in Hk as [H1 _].
      apply negb_true_iff in H1. exact H1. }
    rewrite Hne. apply IH; [assumption | lia].
Qed.

End ObjectFacts.

Lemma js_ordered_indices lo n : js_ordered (map KIdx (seq lo n)).
Proof.
  revert lo; induction n as [|n IH]; intros lo; cbn [seq map js_ordered]; [exact I|].
  split; [|apply IH].
  apply Forall_forall. intros k Hk. apply in_map_iff in Hk as (i & <- & Hi).
  apply in_seq in Hi. unfold can_follow. cbn [key_eqb key_before].
  destruct (Nat.eqb_spec i lo); [lia|]. destruct (Nat.ltb_spec i lo); [lia|]. reflexivity.
Qed.

(* ================================================================== *)
(** ** What [toJSON] writes *)

Section Serialization.
Context {num : Type} {N : JSNumber num}.

(** An input lookup table fit for a layer of [n] units: its keys are
    enumerated in the order of their indices [0 .. n-1]. *)
Definition input_lookup_ok (l : option lookup_table) (n : nat) : Prop :=
  match l with
  | Some lk => js_ordered (Object_keys lk) /\ map snd lk = seq 0 n
  | None => True
  end.

(** An output lookup table fit for a layer of [n] units: [n] keys. *)
Definition output_lookup_ok (l : option lookup_table) (n : nat) : Prop :=
  match l with
  | Some lk => js_ordered (Object_keys lk) /\ length lk = n
  | None => True
  end.

Variables (net : NeuralNetwork num) (szs : list nat).
Variables (bs : list (list num)) (ws : list (list (list num))).
Hypothesis Hlen : 2 <= length szs.
Hypothesis Hs : sizes net = Some szs.
Hypothesis HL : outputLayer net = Some (Z.of_nat (length szs) - 1)%Z.
Hypothesis Hb : biases net = Some bs.
Hypothesis Hw : weights net = Some ws.
Hypothesis Hpar : parameters_shaped szs bs ws.
Hypothesis Hin : input_lookup_ok (inputLookup net) (nth 0 szs 0).
Hypothesis Hout : output_lookup_ok (outputLookup net) (nth (length szs - 1) szs 0).

(** The node names of layer [l]. *)
Definition layer_keys (l : nat) : list key :=
  match l, inputLookup net with
  | 0, Some lk => Object_keys lk
  | _, _ =>
      match is_outputLayer net l, outputLookup net with
      | true, Some lk => Object_keys lk
      | _, _ => map KIdx (seq 0 (nth l szs 0))
      end
  end.

(** The serialized weights of unit [j] of layer [l], keyed by the names of
    the previous layer. *)
Definition weights_json (l j : nat) : obj num :=
  build (layer_keys (l - 1)) (fun p => num_at (nth j (nth l ws []) []) p).

(** The record of unit [j] of layer [l]. *)
Definition node_json_of (l j : nat) : node_json num :=
  match l with
  | 0 => mkNodeJson None None
  | S _ => mkNodeJson (Some (num_at (nth l bs []) j)) (Some (weights_json l j))
  end.

Definition layer_json (l : nat) : obj (node_json num) := build (layer_keys l) (node_json_of l).

Lemma is_outputLayer_spec l : is_outputLayer net l = (l =? length szs - 1).
Proof.
  unfold is_outputLayer. rewrite HL.
  destruct (Nat.eqb_spec l (length szs - 1)) as [->|Hne].
  - apply Z.eqb_eq. lia.
  - apply Z.eqb_neq. lia.
Qed.

Lemma toJSON_nodes_keys l : toJSON_nodes net l = Ok (layer_keys l).
Proof.
  unfold toJSON_nodes, layer_keys, size_of_layer, range. rewrite Hs. cbn [deref bind].
  rewrite Nat.sub_0_r.
  repeat match goal with |- context [match ?x with _ => _ end] => destruct x end;
    reflexivity.
Qed.

Lemma layer_keys_ordered l : js_ordered (layer_keys l).
Proof.
  unfold layer_keys, input_lookup_ok, output_lookup_ok in *.
  repeat match goal with |- context [match ?x with _ => _ end] => destruct x end;
    try apply js_ordered_indices; tauto.
Qed.

Lemma length_layer_keys l : l < length szs -> length (layer_keys l) = nth l szs 0.
Proof.
  intros Hl. unfold layer_keys, input_lookup_ok, output_lookup_ok in *.
  rewrite is_outputLayer_spec.
  assert (Hidx : length (map KIdx (seq 0 (nth l szs 0))) = nth l szs 0).
  { rewrite length_map, length_seq. reflexivity. }
  assert (Hinput : forall lk, js_ordered (Object_keys lk) /\ map snd lk = seq 0 (nth 0 szs 0) ->
                     length (Object_keys lk) = nth 0 szs 0).
  { intros lk [_ H]. unfold Object_keys. rewrite length_map.
    rewrite <- (length_map snd lk), H, length_seq. reflexivity. }
  destruct l as [|l'], (inputLookup net) as [lk|];
    try (destruct (Nat.eqb_spec (S l') (length szs - 1)) as [E|E]);
    try (destruct (Nat.eqb_spec 0 (length szs - 1)) as [E|E]);
    try lia; destruct (outputLookup net) as [lo|]; try exact Hidx;
    try (apply Hinput; exact Hin);
    destruct Hout as [_ H]; unfold Object_keys; rewrite length_map, H, E; reflexivity.
Qed.

(** Below the output layer, and above a keyed input layer, the names are the
    unit numbers. *)
Lemma layer_keys_hidden l :
  l < length szs - 1 -> (l = 0 -> inputLookup net = None) ->
  layer_keys l = map KIdx (seq 0 (nth l szs 0)).
Proof.
  intros Hl H0. unfold layer_keys. rewrite is_outputLayer_spec.
  destruct (Nat.eqb_spec l (length szs - 1)); [lia|].
  destruct l; [rewrite H0 by reflexivity|]; destruct (inputLookup net); reflexivity.
Qed.

Lemma parameters_lengths l :
  1 <= l < length szs ->
  l < length bs /\ l < length ws /\ length (nth l ws []) = nth l szs 0.
Proof.
  intros Hl. destruct Hpar as (Hlb & Hlw & Hrows).
  destruct (Hrows l Hl) as (_ & H & _). repeat split; lia || assumption.
Qed.

(** The value that [toJSON] stores under the [p]-th name of the previous
    layer is the [p]-th weight of the row. *)
Lemma toJSON_weight_value l row pre k rest :
  1 <= l < length szs -> layer_keys (l - 1) = pre ++ k :: rest ->
  match l, inputLookup net with
  | 1, Some lk =>
      match obj_get lk k with
      | Some index => num_at row index
      | None => NaN
      end
  | _, _ => num_at_key row k
  end = num_at row (length pre).
Proof.
  intros Hl Hkeys.
  assert (Hk : nth (length pre) (layer_keys (l - 1)) k = k).
  { rewrite Hkeys. apply nth_middle. }
  assert (Hp : length pre < length (layer_keys (l - 1))).
  { rewrite Hkeys, length_app. cbn [length]. lia. }
  assert (Hidx : layer_keys (l - 1) = map KIdx (seq 0 (nth (l - 1) szs 0)) ->
                 num_at_key row k = num_at row (length pre)).
  { intros E. rewrite E in Hk, Hp. rewrite length_map, length_seq in Hp.
    rewrite <- Hk.
    rewrite (nth_indep _ k (KIdx 0)) by (rewrite length_map, length_seq; exact Hp).
    rewrite (map_nth KIdx (seq 0 (nth (l - 1) szs 0)) 0), seq_nth by exact Hp.
    reflexivity. }
  assert (Hcase : (exists lk, inputLookup net = Some lk) \/ inputLookup net = None).
  { clear. destruct (inputLookup net); eauto. }
  destruct l as [|[|l']]; [lia| |].
  - destruct Hcase as [[lk Elk] | Elk]; rewrite Elk.
    + cbn [Nat.sub] in *. unfold layer_keys in Hk, Hp. rewrite Elk in Hk, Hp.
      pose proof Hin as Hin'. unfold input_lookup_ok in Hin'. rewrite Elk in Hin'.
      destruct Hin' as [Hord Hval].
      unfold Object_keys in Hp. rewrite length_map in Hp.
      rewrite <- Hk, (obj_get_nth lk k 0 Hord Hp), Hval, seq_nth.
      * reflexivity.
      * assert (E : length lk = nth 0 szs 0).
        { rewrite <- (length_map snd lk), Hval, length_seq. reflexivity. }
        rewrite <- E. exact Hp.
    + apply Hidx. apply layer_keys_hidden; [lia | intros _; exact Elk].
  - assert (E : layer_keys (S (S l') - 1) = map KIdx (seq 0 (nth (S (S l') - 1) szs 0))).
    { apply layer_keys_hidden; [lia | cbn [Nat.sub]; lia]. }
    apply Hidx. exact E.
Qed.

Lemma toJSON_weights_exact l j :
  1 <= l < length szs -> j < nth l szs 0 ->
  forall rest pre,
    layer_keys (l - 1) = pre ++ rest ->
    toJSON_weights net l j rest (build pre (fun p => num_at (nth j (nth l ws []) []) p))
    = Ok (weights_json l j).
Proof.
  intros Hl Hj. destruct (@parameters_lengths l Hl) as (Hlb & Hlw & Hrow).
  induction rest as [|k rest IH]; intros pre Hkeys; cbn [toJSON_weights].
  - unfold weights_json. rewrite Hkeys, app_nil_r. reflexivity.
  - rewrite Hw. cbn [deref bind]. rewrite (elem_in ws [] Hlw). cbn [bind].
    rewrite (elem_in (nth l ws []) []) by lia. cbn [bind].
    rewrite (@toJSON_weight_value l (nth j (nth l ws []) []) pre k rest Hl Hkeys).
    rewrite (obj_set_build pre k rest).
    + apply IH. rewrite <- app_assoc. exact Hkeys.
    + rewrite <- Hkeys. apply layer_keys_ordered.
Qed.

Lemma toJSON_weights_start l j :
  1 <= l < length szs -> j < nth l szs 0 ->
  toJSON_weights net l j (layer_keys (l - 1)) [] = Ok (weights_json l j).
Proof.
  intros Hl Hj. exact (@toJSON_weights_exact l j Hl Hj (layer_keys (l - 1)) [] eq_refl).
Qed.

Lemma node_json_of_positive l j :
  0 < l ->
  node_json_of l j = mkNodeJson (Some (num_at (nth l bs []) j)) (Some (weights_json l j)).
Proof. destruct l; [lia | reflexivity]. Qed.

Lemma toJSON_node_exact l j pre k rest :
  l < length szs -> layer_keys l = pre ++ k :: rest -> j = length pre ->
  toJSON_node net l (layer_keys (l - 1)) j k (build pre (node_json_of l))
  = Ok (build (pre ++ [k]) (node_json_of l)).
Proof.
  intros Hl Hkeys ->.
  assert (Hord : js_ordered (pre ++ k :: rest)).
  { rewrite <- Hkeys. apply layer_keys_ordered. }
  assert (Hj : length pre < nth l szs 0).
  { rewrite <- (@length_layer_keys l Hl), Hkeys, length_app. cbn [length]. lia. }
  unfold toJSON_node. rewrite <- (obj_set_build pre k rest) by exact Hord.
  destruct (Nat.ltb_spec 0 l) as [Hpos|Hzero].
  - destruct (@parameters_lengths l ltac:(lia)) as (Hlb & Hlw & Hrow).
    rewrite Hb. cbn [deref bind]. rewrite (elem_in bs [] Hlb). cbn [bind].
    rewrite (@toJSON_weights_start l (length pre)) by (lia || assumption).
    cbn [bind]. rewrite node_json_of_positive by exact Hpos. reflexivity.
  - replace l with 0 by lia. reflexivity.
Qed.

Lemma toJSON_layer_nodes_exact l :
  l < length szs ->
  forall rest pre,
    layer_keys l = pre ++ rest ->
    toJSON_layer_nodes net l (layer_keys (l - 1)) (length pre) rest
      (build pre (node_json_of l))
    = Ok (layer_json l).
Proof.
  intros Hl. induction rest as [|k rest IH]; intros pre Hkeys; cbn [toJSON_layer_nodes].
  - unfold layer_json. rewrite Hkeys, app_nil_r. reflexivity.
  - rewrite (@toJSON_node_exact l (length pre) pre k rest Hl Hkeys eq_refl). cbn [bind].
    replace (S (length pre)) with (length (pre ++ [k]))
      by (rewrite length_app; cbn [length]; lia).
    apply IH. rewrite <- app_assoc. exact Hkeys.
Qed.

(** Layer 0 never reads the names of a previous layer. *)
Lemma toJSON_layer_nodes_first prev prev' j nodes acc :
  toJSON_layer_nodes net 0 prev j nodes acc = toJSON_layer_nodes net 0 prev' j nodes acc.
Proof.
  revert j acc; induction nodes as [|k nodes IH]; intros j acc; [reflexivity|].
  cbn [toJSON_layer_nodes]. unfold toJSON_node. cbn [Nat.ltb Nat.leb bind]. apply IH.
Qed.

Lemma toJSON_exact :
  toJSON net
  = Ok (mkNetworkJson (map layer_json (seq 0 (length szs)))
          (match outputLookup net with Some _ => true | None => false end)
          (match inputLookup net with Some _ => true | None => false end)).
Proof.
  unfold toJSON, outputLayer_number. rewrite HL.
  replace (Z.to_nat (Z.of_nat (length szs) - 1 + 1)) with (length szs) by lia.
  set (F := fun l => @patched (obj (node_json num)) [] 0 l layer_json).
  change (@nil (obj (node_json num))) with (F 0).
  rewrite (for_loop_exact F).
  - cbn [bind]. unfold F, patched. cbn [firstn Nat.add]. rewrite skipn_nil, app_nil_r.
    reflexivity.
  - intros l Hl. unfold toJSON_layer. rewrite toJSON_nodes_keys. cbn [bind].
    assert (Hprev : Object_keys (nth (l - 1) (F l) []) = layer_keys (l - 1) \/ l = 0).
    { destruct l as [|l']; [right; reflexivity | left].
      unfold F. rewrite nth_patched_in by (cbn [length Nat.sub]; lia).
      apply keys_build_from. }
    assert (Hnodes : toJSON_layer_nodes net l (Object_keys (nth (l - 1) (F l) [])) 0
                       (layer_keys l) []
                     = Ok (layer_json l)).
    { destruct Hprev as [-> | ->].
      - apply (@toJSON_layer_nodes_exact l ltac:(lia) (layer_keys l) []). reflexivity.
      - rewrite (toJSON_layer_nodes_first _ (layer_keys (0 - 1))).
        apply (@toJSON_layer_nodes_exact 0 ltac:(lia) (layer_keys 0) []). reflexivity. }
    rewrite Hnodes. cbn [bind]. unfold F. f_equal.
    apply (patched_push [] [] l layer_json).
Qed.

End Serialization.

(* ================================================================== *)
(** ** What [fromJSON] reads *)

Section Deserialization.
Context {num : Type} {N : JSNumber num}.

Lemma patched_full {A} (a : list A) n f : length a <= n -> patched a 0 n f = map f (seq 0 n).
Proof.
  intros H. unfold patched. cbn [firstn Nat.add app].
  rewrite skipn_all2 by exact H. apply app_nil_r.
Qed.

Lemma array_set_push {A} (h : A) n f v :
  v = f n -> array_set h (map f (seq 0 n)) n v = map f (seq 0 (S n)).
Proof.
  intros ->. rewrite <- (app_nil_r (map f (seq 0 n))) at 1.
  rewrite array_set_prefix by (rewrite length_map, length_seq; reflexivity).
  rewrite seq_S, map_app. reflexivity.
Qed.

Lemma map_nth_seq {A} (a : list A) d : map (fun i => nth i a d) (seq 0 (length a)) = a.
Proof.
  induction a as [|x a IH]; [reflexivity|].
  cbn [length seq map nth]. f_equal. rewrite <- seq_shift, map_map. exact IH.
Qed.

Variable keys : nat -> list key.
Variable rec : nat -> nat -> node_json num.
Hypothesis Hord : forall l, js_ordered (keys l).

(** The biases and the rows of weights read from layer [l]. *)
Definition read_bias (l j : nat) : num :=
  match nj_bias (rec l j) with
  | Some b => b
  | None => NaN
  end.

Definition read_biases (l : nat) : list num := map (read_bias l) (seq 0 (length (keys l))).

Definition read_weights (l : nat) : list (list num) :=
  map (fun j => toArray (nj_weights (rec l j))) (seq 0 (length (keys l))).

Lemma fromJSON_nodes_exact l :
  forall rest pre,
    keys l = pre ++ rest ->
    fromJSON_nodes (build (keys l) (rec l)) (length pre) rest
      (map (read_bias l) (seq 0 (length pre)),
       map (fun j => toArray (nj_weights (rec l j))) (seq 0 (length pre)))
    = Ok (read_biases l, read_weights l).
Proof.
  induction rest as [|k rest IH]; intros pre Hkeys; cbn [fromJSON_nodes].
  - unfold read_biases, read_weights. rewrite Hkeys, app_nil_r. reflexivity.
  - assert (Hk : nth (length pre) (keys l) k = k) by (rewrite Hkeys; apply nth_middle).
    assert (Hp : length pre < length (keys l)).
    { rewrite Hkeys, length_app. cbn [length]. lia. }
    rewrite <- Hk at 1. unfold build.
    rewrite (@obj_get_build_from _ 0 (keys l) (rec l) (length pre) k (Hord l) Hp).
    cbn [deref bind Nat.add fst snd].
    rewrite (array_set_push NaN (length pre) (read_bias l)) by reflexivity.
    rewrite (array_set_push [] (length pre) (fun j => toArray (nj_weights (rec l j))))
      by reflexivity.
    replace (S (length pre)) with (length (pre ++ [k]))
      by (rewrite length_app; cbn [length]; lia).
    apply IH. rewrite <- app_assoc. exact Hkeys.
Qed.

Lemma fromJSON_lookups_fields json i layer (net : NeuralNetwork num) :
  sizes (fromJSON_lookups json i layer net) = sizes net /\
  outputLayer (fromJSON_lookups json i layer net) = outputLayer net /\
  weights (fromJSON_lookups json i layer net) = weights net /\
  biases (fromJSON_lookups json i layer net) = biases net /\
  outputs (fromJSON_lookups json i layer net) = outputs net.
Proof.
  unfold fromJSON_lookups.
  repeat match goal with |- context [if ?c then _ else _] => destruct c end;
    repeat split; reflexivity.
Qed.

Lemma fromJSON_exact n flag_out flag_in (receiver : NeuralNetwork num) :
  exists net2,
    fromJSON (mkNetworkJson (map (fun l => build (keys l) (rec l)) (seq 0 n)) flag_out flag_in)
      receiver = Ok net2 /\
    sizes net2 = Some (map (fun l => length (keys l)) (seq 0 n)) /\
    outputLayer net2 = Some (Z.of_nat n - 1)%Z /\
    weights net2 = Some (map read_weights (seq 0 n)) /\
    biases net2 = Some (map read_biases (seq 0 n)) /\
    outputs net2 = Some (repeat [] n).
Proof.
  unfold fromJSON. cbn [j_layers]. rewrite length_map, length_seq.
  set (json := mkNetworkJson _ flag_out flag_in).
  destruct (@for_loop_inv _
              (fun i (net2 : NeuralNetwork num) =>
                 sizes net2 = Some (patched (repeat 0 n) 0 i (fun l => length (keys l))) /\
                 outputLayer net2 = Some (Z.of_nat n - 1)%Z /\
                 weights net2 = Some (patched (repeat [] n) 0 i read_weights) /\
                 biases net2 = Some (patched (repeat [] n) 0 i read_biases) /\
                 outputs net2 = Some (repeat [] n))
              n 0 (fromJSON_layer json)
              (set_outputs
                 (set_biases
                    (set_weights
                       (set_sizes (set_outputLayer receiver (Some (Z.of_nat n - 1)%Z))
                          (Some (repeat 0 n)))
                       (Some (repeat [] n))) (Some (repeat [] n))) (Some (repeat [] n))))
    as (net2 & Hrun & Hs2 & HL2 & Hw2 & Hb2 & Ho2).
  - cbn [sizes outputLayer weights biases outputs set_outputs set_biases set_weights set_sizes
         set_outputLayer].
    rewrite !patched_none. repeat split; reflexivity.
  - intros i net1 Hi (Hs1 & HL1 & Hw1 & Hb1 & Ho1).
    assert (Hnth : nth i (j_layers json) [] = build (keys i) (rec i)).
    { unfold json. cbn [j_layers].
      rewrite (nth_indep _ [] (build (keys 0) (rec 0)))
        by (rewrite length_map, length_seq; lia).
      rewrite (map_nth (fun l => build (keys l) (rec l)) (seq 0 n) 0), seq_nth by lia.
      reflexivity. }
    assert (Hlayer : elem (j_layers json) i = Ok (build (keys i) (rec i))).
    { rewrite <- Hnth. apply elem_in. unfold json. cbn [j_layers].
      rewrite length_map, length_seq. lia. }
    destruct (fromJSON_lookups_fields json i (build (keys i) (rec i)) net1)
      as (Es & EL & Ew & Eb & Eo).
    assert (Hnodes : fromJSON_nodes (build (keys i) (rec i)) 0
                       (Object_keys (build (keys i) (rec i))) ([], [])
                     = Ok (read_biases i, read_weights i)).
    { unfold build at 2. rewrite keys_build_from.
      apply (@fromJSON_nodes_exact i (keys i) []). reflexivity. }
    eexists. split.
    + unfold fromJSON_layer. rewrite Hlayer. cbn [bind].
      rewrite Es, Hs1. cbn [deref bind]. rewrite Hnodes.
      cbn [bind weights biases outputs set_sizes set_weights set_biases].
      rewrite Ew, Hw1. cbn [deref bind]. rewrite Eb, Hb1. cbn [deref bind].
      rewrite Eo, Ho1. cbn [deref bind]. reflexivity.
    + cbn [sizes outputLayer weights biases outputs set_outputs set_biases set_weights
           set_sizes].
      rewrite EL. unfold build at 1. rewrite keys_build_from.
      repeat match goal with |- _ /\ _ => split end; try assumption.
      * f_equal. apply (patched_push 0 (repeat 0 n) i (fun l => length (keys l))).
      * f_equal. apply (patched_push [] (repeat [] n) i read_weights).
      * f_equal. apply (patched_push [] (repeat [] n) i read_biases).
      * f_equal. apply array_set_same. rewrite nth_error_repeat by lia. reflexivity.
  - exists net2. cbn [Nat.add] in *.
    rewrite !patched_full in * by (rewrite repeat_length; lia).
    repeat split; assumption.
Qed.

End Deserialization.

(* ================================================================== *)
(** ** Export, import, and the forward pass *)

Section RoundTrip.
Context {num : Type} {N : JSNumber num}.

Lemma nth_map_seq {A} (f : nat -> A) n j d : j < n -> nth j (map f (seq 0 n)) d = f j.
Proof.
  intros Hj. rewrite (nth_indep _ d (f 0)) by (rewrite length_map, length_seq; exact Hj).
  rewrite (map_nth f (seq 0 n) 0), seq_nth by exact Hj. reflexivity.
Qed.

(** The activations depend on the biases and weights of the layers above the
    input only, and not on what the buffers held. *)
Lemma activations_ext szs bs ws os bs' ws' os' (inp : list num) :
  (forall l, l < length szs -> length (nth l os []) <= nth l szs 0) ->
  (forall l, l < length szs -> length (nth l os' []) <= nth l szs 0) ->
  (forall l j, 1 <= l < length szs -> j < nth l szs 0 ->
               num_at (nth l bs []) j = num_at (nth l bs' []) j /\
               nth j (nth l ws []) [] = nth j (nth l ws' []) []) ->
  forall l, l < length szs ->
            activations szs bs ws os inp l = activations szs bs' ws' os' inp l.
Proof.
  intros Hro Hro' Hsame.
  induction l as [|l IH]; intros Hl; [reflexivity|]. cbn [activations].
  rewrite !patched_full by (apply Hro || apply Hro'; exact Hl).
  apply map_ext_in. intros j Hj. apply in_seq in Hj.
  destruct (Hsame (S l) j ltac:(lia) ltac:(lia)) as [-> ->].
  rewrite IH by lia. reflexivity.
Qed.


End RoundTrip.

(* ================================================================== *)
(** ** The sample network in training and in serialization *)

Lemma trainable_net221 :
  trainable Samples.sizes221 Samples.biases221 Samples.weights221 Samples.outputs221
    Samples.deltas221 Samples.changes221 Samples.errors221 Samples.net221.
Proof.
  split; [exact initialized_net221|].
  unfold buffers_shaped, changes_shaped.
  repeat match goal with |- _ /\ _ => split end; try reflexivity.
  - intros l Hl. by_cases l; simpl in *; lia.
  - intros l Hl. by_cases l; simpl in *; lia.
  - intros l Hl. by_cases l; simpl in *; try lia;
      (split; [reflexivity|]; intros j Hj; by_cases j; simpl in *; try lia; reflexivity).
Defined.

Lemma outputs221_full l :
  l < length Samples.sizes221 -> length (nth l Samples.outputs221 []) = nth l Samples.sizes221 0.
Proof. intros Hl. by_cases l; simpl in *; try lia; reflexivity. Defined.

Section SampleRuns.
Local Open Scope js_scope.
Let szs := Samples.sizes221.
Let ws := Samples.weights221.
Let bs := Samples.biases221.

Lemma calculateDeltas_backward_pass_witness :
  exists acts errs dlts net1 net3,
    runInput [1; 0]%float Samples.net221 = Ok (net1, Some (nth (length szs - 1) acts [])) /\
    outputs net1 = Some acts /\ weights net1 = Some ws /\
    calculateDeltas [1]%float net1
    = Ok (set_deltas (set_errors net1 (Some errs)) (Some dlts)) /\
    (forall j, (j < nth (length szs - 1) szs 0)%nat ->
       num_at (nth (length szs - 1) errs []) j
       = num_at [1]%float j - num_at (nth (length szs - 1) acts []) j) /\
    (forall l j, (l < length szs - 1)%nat -> (j < nth l szs 0)%nat ->
       num_at (nth l errs []) j
       = fold_left
           (fun e k => e + num_at (nth (l + 1) dlts []) k
                           * num_at (nth k (nth (l + 1) ws []) []) j)
           (seq 0 (nth (l + 1) szs 0%nat)) (of_Z 0)) /\
    (forall l j, (l <= length szs - 1)%nat -> (j < nth l szs 0)%nat ->
       num_at (nth l dlts []) j
       = num_at (nth l errs []) j * num_at (nth l acts []) j
         * (of_Z 1 - num_at (nth l acts []) j)) /\
    trainPattern [1; 0]%float [1]%float None Samples.net221
    = Ok (net3,
          fold_left (fun sum e => sum + Math_pow_2 e) (nth (length szs - 1) errs []) (of_Z 0)
          / of_Z (Z.of_nat (nth (length szs - 1) szs 0%nat))).
Proof.
  apply (@calculateDeltas_backward_pass _ Samples.N0 _ _ _ _ _ _ _ _ [1; 0]%float [1]%float None
           trainable_net221).
  reflexivity.
Defined.

End SampleRuns.

Module Stepped.

(** The sample network in the middle of its second training step: after a
    first step on the input [[1, 0]] with the target [[1]], which has left
    changes that are not zero, the forward pass on [[0, 1]] and the backward
    pass for the target [[0]].  The update of [adjustWeights] comes next. *)
Definition net : NeuralNetwork float :=
  Eval vm_compute in
    match trainPattern (N := Samples.N0) [1; 0]%float [1%float] None Samples.net221 with
    | Ok (n1, _) =>
        match runInput (N := Samples.N0) [0; 1]%float n1 with
        | Ok (n2, _) =>
            match calculateDeltas (N := Samples.N0) [0%float] n2 with
            | Ok n3 => n3
            | TypeError => Samples.net221
            end
        | TypeError => Samples.net221
        end
    | TypeError => Samples.net221
    end.

Definition bs : list (list float) :=
  Eval vm_compute in match biases net with Some b => b | None => [] end.
Definition ws : list (list (list float)) :=
  Eval vm_compute in match weights net with Some w => w | None => [] end.
Definition os : list (list float) :=
  Eval vm_compute in match outputs net with Some o => o | None => [] end.
Definition ds : list (list float) :=
  Eval vm_compute in match deltas net with Some d => d | None => [] end.
Definition cs : list (list (list float)) :=
  Eval vm_compute in match changes net with Some c => c | None => [] end.
Definition es : list (list float) :=
  Eval vm_compute in match errors net with Some e => e | None => [] end.

End Stepped.




(** On that state the update moves every weight of the last layer and stores
    changes that are no longer those of the step before. *)
Lemma adjustWeights_moves_stepped :
  exists net' ws' cs',
    adjustWeights (N := Samples.N0) 0.5%float Stepped.net = Ok net' /\
    weights net' = Some ws' /\ changes net' = Some cs' /\
    PrimFloat.ltb (num_at (nth 0 (nth 2 ws' []) []) 0)
      (num_at (nth 0 (nth 2 Stepped.ws []) []) 0) = true /\
    PrimFloat.ltb (num_at (nth 0 (nth 2 cs' []) []) 0) zero = true /\
    PrimFloat.ltb zero (num_at (nth 0 (nth 2 Stepped.cs []) []) 0) = true.
Proof.
  eexists _, _, _. split; [vm_compute; reflexivity|].
  split; [reflexivity|]. split; [reflexivity|].
  split; [vm_compute; reflexivity|]. split; vm_compute; reflexivity.
Qed.

(** On an empty dataset [train] throws at line 137, reading [data[0].input]. *)
Lemma train_empty_throws fuel (options : train_options float) rand p (net : NeuralNetwork float) :
  train (N := Samples.N0) fuel (Many []) options rand p net = Some TypeError.
Proof. reflexivity. Qed.


Lemma initialized_named221 :
  initialized Samples.sizes221 Samples.biases221 Samples.weights221 Samples.outputs221
    Samples.named221.
Proof.
  unfold initialized, parameters_shaped, buffers_shaped.
  repeat match goal with |- _ /\ _ => split end; try reflexivity; simpl; try lia.
  - intros l Hl. by_cases l; simpl in *; try lia;
      (repeat split; try reflexivity; intros j Hj; by_cases j; simpl in *; try lia; reflexivity).
  - intros l Hl. by_cases l; simpl in *; lia.
Defined.


Module Permuted.

(** The sample network with the input lookup table [{b: 0, 1: 1}].
    JavaScript enumerates the key [1], an array index, before the key [b]:
    the order of the keys is not the order of their indices. *)
Definition net221 : NeuralNetwork float :=
  Eval vm_compute in
    set_inputLookup Samples.net221 (Some [(KIdx 1, 1%nat); (KStr "b", 0%nat)]).

(** What [toJSON] returns for it, *)
Definition json : network_json float :=
  Eval vm_compute in
    match toJSON (N := Samples.N0) net221 with
    | Ok j => j
    | TypeError => mkNetworkJson [] false false
    end.


End Permuted.


(* ================================================================== *)
(** ** The network as a function of its input *)

Section NetworkFunction.
Context {num : Type} {N : JSNumber num}.
Local Open Scope js_scope.

(** What the forward pass returns for [inp], whatever the buffers held. *)
Definition network_output (szs : list nat) (bs : list (list num)) (ws : list (list (list num)))
    (inp : list num) : list num :=
  activations szs bs ws [] inp (length szs - 1).

Lemma activations_any_buffers szs bs ws os (inp : list num) l :
  buffers_shaped szs os -> (l < length szs)%nat ->
  activations szs bs ws os inp l = activations szs bs ws [] inp l.
Proof.
  intros (_ & Hro) Hl. apply activations_ext; try assumption.
  - intros k Hk. destruct k; cbn [nth length]; lia.
  - intros; split; reflexivity.
Qed.

Lemma runInput_output szs bs ws os (net : NeuralNetwork num) inp :
  initialized szs bs ws os net ->
  runInput inp net
  = Ok (set_outputs net (Some (forward szs bs ws os inp)), Some (network_output szs bs ws inp)).
Proof.
  intros Hinit. rewrite (runInput_initialized inp Hinit).
  destruct Hinit as (Hlen & _ & _ & _ & _ & _ & _ & Hbuf). pose proof Hbuf as (Hlo & _).
  rewrite forward_layer by lia. unfold network_output.
  rewrite (@activations_any_buffers szs bs ws os inp (length szs - 1)%nat Hbuf) by lia.
  reflexivity.
Qed.

(** The forward pass leaves the network ready for the next one. *)
Lemma initialized_after_runInput szs bs ws os (net : NeuralNetwork num) inp :
  initialized szs bs ws os net -> (length inp <= nth 0 szs 0)%nat ->
  initialized szs bs ws (forward szs bs ws os inp)
    (set_outputs net (Some (forward szs bs ws os inp))).
Proof.
  intros (Hlen & Hs & HL & Hb & Hw & Ho & Hpar & Hbuf) Hinp.
  pose proof Hbuf as (Hlo & Hro).
  unfold initialized, buffers_shaped.
  repeat match goal with |- _ /\ _ => split end; try assumption; try reflexivity.
  - apply length_forward. exact Hlo.
  - intros l Hl. rewrite forward_layer by assumption.
    destruct l as [|l']; [exact Hinp|].
    rewrite length_activations by (assumption || lia). lia.
Qed.

End NetworkFunction.

(* ================================================================== *)
(** ** [test] on a single output node *)

Section BinaryTest.
Context {num : Type} {N : JSNumber num}.
Local Open Scope js_scope.

(** The label of line 313 for the single output activation [a]. *)
Definition binary_label (thresh a : num) : num := if a >? thresh then of_Z 1 else of_Z 0.

(** Modelled from the spec: the label of a single output activation, 1 when
    the activation is at least the threshold. *)
Definition binary_label_spec (thresh a : num) : num := if thresh <=? a then of_Z 1 else of_Z 0.

Variables (szs : list nat) (bs : list (list num)) (ws : list (list (list num))).

(** What [test] adds to [misclasses] for the example [d], lines 313-327. *)
Definition binary_misclass (thresh : num) (d : example num) : list (misclass num) :=
  let actual := binary_label thresh (num_at (network_output szs bs ws (input d)) 0) in
  let expected := num_at (output d) 0 in
  if actual ==? expected then [] else [mkMisclass d actual expected].

Lemma misclasses_count_binary actual expected (st : test_state num) :
  misclasses (count_binary actual expected st) = misclasses st.
Proof.
  unfold count_binary.
  repeat match goal with |- context [if ?c then _ else _] => destruct c end; reflexivity.
Qed.

Lemma misclasses_test_account thresh (d : example num) out st :
  misclasses (test_account true thresh d out st)
  = misclasses st
    ++ (if binary_label thresh (num_at out 0) ==? num_at (output d) 0 then []
        else [mkMisclass d (binary_label thresh (num_at out 0)) (num_at (output d) 0)]).
Proof.
  unfold test_account, classify. fold (binary_label thresh (num_at out 0)).
  cbn [misclasses]. rewrite misclasses_count_binary.
  destruct (binary_label thresh (num_at out 0) ==? num_at (output d) 0); cbn [negb misclasses].
  - rewrite app_nil_r. reflexivity.
  - reflexivity.
Qed.

Lemma test_examples_exact isBinary (data : list (example num)) :
  forall os (net : NeuralNetwork num) ts,
    initialized szs bs ws os net ->
    Forall (fun d => length (input d) = nth 0 szs 0%nat) data ->
    exists net',
      test_examples isBinary data (net, ts)
      = Ok (net',
            fold_left
              (fun ts d =>
                 test_account isBinary (binaryThresh net) d (network_output szs bs ws (input d)) ts)
              data ts).
Proof.
  induction data as [|d data IH]; intros os net ts Hinit Hwidth.
  - exists net. reflexivity.
  - inversion Hwidth as [|? ? Hd Hrest]; subst.
    cbn [test_examples fold_left].
    rewrite (runInput_output (input d) Hinit). cbn [bind deref].
    assert (Hnext := @initialized_after_runInput _ _ szs bs ws os net (input d) Hinit
                       ltac:(rewrite Hd; apply Nat.le_refl)).
    destruct (IH _ _ (test_account isBinary (binaryThresh net) d
                        (network_output szs bs ws (input d)) ts) Hnext Hrest) as (net' & E).
    exists net'. exact E.
Qed.

Lemma misclasses_binary_fold thresh (data : list (example num)) :
  forall ts,
    misclasses
      (fold_left (fun ts d => test_account true thresh d (network_output szs bs ws (input d)) ts)
         data ts)
    = misclasses ts ++ flat_map (binary_misclass thresh) data.
Proof.
  induction data as [|d data IH]; intros ts; cbn [fold_left flat_map].
  - rewrite app_nil_r. reflexivity.
  - rewrite IH, misclasses_test_account, <- app_assoc. reflexivity.
Qed.

(** C2, as the code has it: on a dataset whose first example has one output,
    [test] labels an example 1 when the single output activation is strictly
    greater than [binaryThresh] and 0 otherwise, and reports the examples
    whose label differs from [target[0]], in order, with both labels. *)
Theorem test_binary_label_is_strict os (net : NeuralNetwork num) d0 rest :
  initialized szs bs ws os net ->
  length (output d0) = 1%nat ->
  Forall (fun d => length (input d) = nth 0 szs 0%nat) (d0 :: rest) ->
  exists net' stats,
    test (Many (d0 :: rest)) net = Ok (net', stats) /\
    s_misclasses stats = flat_map (binary_misclass (binaryThresh net)) (d0 :: rest).
Proof.
  intros Hinit Hone Hwidth.
  destruct (@test_examples_exact true (d0 :: rest) os net (mkTestState 0 0 0 0 [] (of_Z 0))
              Hinit Hwidth) as (net' & E).
  unfold test. cbn [formatData elem nth_error deref bind]. rewrite Hone.
  cbn [Nat.eqb]. rewrite E. cbn [bind].
  eexists _, _. split; [reflexivity|].
  cbn [s_misclasses]. rewrite misclasses_binary_fold. reflexivity.
Qed.

End BinaryTest.

Module Threshold.
Import IEEE.

(** The network that [initialize([1, 1])] builds when [Math.random] returns
    0.5 each time: its weight and its bias are 0. *)
Definition net11 : NeuralNetwork float :=
  Eval vm_compute in
    match initialize (N := Samples.N0) [1; 1] false (fun _ => 0.5%float) 0 Samples.fresh with
    | Ok (net, _) => net
    | TypeError => Samples.fresh
    end.

Definition on_threshold : example float := mkExample [0%float] [1%float].

End Threshold.

(** C2, the claim as written fails: the output of [net11] on [[0]] is 0.5,
    the threshold; [test] labels it 0 and reports the example, whose target is
    1, as misclassified, where the rule of the claim labels it 1. *)
Lemma test_labels_threshold_activation_0 :
  exists net' stats,
    test (Single Threshold.on_threshold) Threshold.net11 = Ok (net', stats) /\
    network_output [1; 1] [[]; [0%float]] [[]; [[0%float]]] (input Threshold.on_threshold)
    = [binaryThresh Threshold.net11] /\
    s_misclasses stats = [mkMisclass Threshold.on_threshold 0%float 1%float] /\
    binary_label_spec (binaryThresh Threshold.net11) (binaryThresh Threshold.net11) = 1%float.
Proof.
  eexists _, _. split; [vm_compute; reflexivity|].
  split; [vm_compute; reflexivity|].
  split; vm_compute; reflexivity.
Qed.

Lemma test_binary_label_is_strict_witness :
  exists net' stats,
    test Samples.xor Samples.net221 = Ok (net', stats) /\
    s_misclasses stats
    = flat_map (binary_misclass Samples.sizes221 Samples.biases221 Samples.weights221
                  (binaryThresh Samples.net221))
        (formatData Samples.xor).
Proof.
  apply (@test_binary_label_is_strict _ Samples.N0 _ _ _ _ _
           (mkExample [0; 0] [0])%float
           [mkExample [0; 1] [1]; mkExample [1; 0] [1]; mkExample [1; 1] [0]]%float
           initialized_net221 eq_refl).
  repeat constructor.
Defined.

(* ================================================================== *)
(** ** [initialize] on a kept network and on a short topology *)

Section InitializeClaims.
Context {num : Type} {N : JSNumber num}.

Lemma for_loop_post {St} (P : nat -> St -> Prop) n lo body (s s' : St) :
  P lo s ->
  (forall i s s1, lo <= i < lo + n -> P i s -> body i s = Ok s1 -> P (S i) s1) ->
  for_loop n lo body s = Ok s' -> P (lo + n) s'.
Proof.
  revert lo s; induction n as [|n IH]; intros lo s H0 Hstep; simpl.
  - intros [= <-]. rewrite Nat.add_0_r. exact H0.
  - destruct (body lo s) as [s1|] eqn:E; cbn [bind]; [|discriminate].
    intros Hrun. replace (lo + S n) with (S lo + n) by lia.
    apply (IH (S lo) s1).
    + apply (Hstep lo s s1); [lia | exact H0 | exact E].
    + intros i t t1 Hi. apply Hstep. lia.
    + exact Hrun.
Qed.

(** The random numbers that [initialize] draws before the biases of layer
    [l] when it keeps the network: the biases of the layers [1 .. l-1]. *)
Definition drawn_before (szs : list nat) (l : nat) : nat :=
  list_sum (map (fun i => nth i szs 0) (seq 1 (l - 1))).

Lemma drawn_before_S szs l :
  1 <= l -> drawn_before szs (S l) = drawn_before szs l + nth l szs 0.
Proof.
  intros Hl. unfold drawn_before. replace (S l - 1) with (S (l - 1)) by lia.
  rewrite seq_S, map_app, list_sum_app. cbn [map list_sum fold_right].
  replace (1 + (l - 1)) with l by lia. lia.
Qed.

Lemma initialize_node_keep szs rand k node (net net' : NeuralNetwork num) p p' :
  initialize_node szs true rand k node (net, p) = Ok (net', p') ->
  weights net' = weights net /\ biases net' = biases net /\ outputs net' = outputs net /\
  p' = p.
Proof.
  unfold initialize_node. cbn [negb bind].
  destruct (changes net) as [cs|]; cbn [deref bind]; [|discriminate].
  destruct (elem cs k) as [cl|]; cbn [bind]; [|discriminate].
  intros [= <- <-]. repeat split.
Qed.

Lemma initialize_layer_keep szs rand k (net net' : NeuralNetwork num) p p' :
  initialize_layer szs true rand k (net, p) = Ok (net', p') ->
  weights net' = weights net /\ outputs net' = outputs net /\
  (k = 0 -> biases net' = biases net /\ p' = p) /\
  (0 < k -> exists bs, biases net = Some bs /\
                       biases net' = Some (array_set [] bs k (randos rand p (nth k szs 0))) /\
                       p' = p + nth k szs 0).
Proof.
  unfold initialize_layer.
  destruct (deltas net) as [ds|]; cbn [deref bind]; [|discriminate].
  cbn [errors set_deltas].
  destruct (errors net) as [es|]; cbn [deref bind negb]; [|discriminate].
  destruct (Nat.ltb_spec 0 k) as [Hpos|Hzero].
  - cbn [biases set_errors set_deltas].
    destruct (biases net) as [bs|]; cbn [deref bind]; [|discriminate].
    cbn [changes set_biases set_errors set_deltas].
    destruct (changes net) as [cs|]; cbn [deref bind]; [|discriminate].
    intros Hloop.
    set (P := fun (_ : nat) (st : NeuralNetwork num * nat) =>
                weights (fst st) = weights net /\
                outputs (fst st) = outputs net /\
                biases (fst st) = Some (array_set [] bs k (randos rand p (nth k szs 0))) /\
                snd st = p + nth k szs 0).
    assert (HP : P (0 + nth k szs 0) (net', p')).
    { eapply (@for_loop_post _ P); [| |exact Hloop].
      - unfold P. cbn. repeat split.
      - intros i [n0 q0] [n1 q1] _ (H1 & H2 & H3 & H4) E.
        apply initialize_node_keep in E. unfold P. cbn [fst snd] in *.
        destruct E as (-> & -> & -> & ->). repeat split; assumption. }
    destruct HP as (H1 & H2 & H3 & H4).
    cbn [fst snd] in *. repeat split; try assumption; try lia.
    intros _. exists bs. repeat split; assumption.
  - intros [= <- <-]. cbn. repeat split; try lia.
Qed.

(** C3: with [keepNetworkIntact], [initialize] on a network whose arrays are
    in place returns with the weights (and the outputs) untouched, but with
    the biases of every layer above the input drawn afresh from the random
    source: the biases are not kept. *)
Theorem initialize_keep_redraws_biases szs rand p (net : NeuralNetwork num) :
  2 <= length szs -> parameters_allocated szs net ->
  exists net' p' bs',
    initialize szs true rand p net = Ok (net', p') /\
    weights net' = weights net /\ outputs net' = outputs net /\
    biases net' = Some bs' /\
    (forall l, 1 <= l < length szs ->
               nth l bs' [] = randos rand (p + drawn_before szs l) (nth l szs 0)) /\
    p' = p + drawn_before szs (length szs).
Proof.
  intros Hlen Hpar.
  destruct (@initialize_allocated _ N szs true rand p net Hlen (fun _ => Hpar))
    as (net' & p' & Hrun & _).
  pose proof Hrun as Hloop. unfold initialize in Hloop. cbn [negb] in Hloop.
  set (P := fun (k : nat) (st : NeuralNetwork num * nat) =>
              weights (fst st) = weights net /\
              outputs (fst st) = outputs net /\
              snd st = p + drawn_before szs k /\
              (k <= 1 -> biases (fst st) = biases net) /\
              forall l, 1 <= l < k ->
                exists b, biases (fst st) = Some b /\
                          nth l b [] = randos rand (p + drawn_before szs l) (nth l szs 0)).
  assert (HP : P (0 + length szs) (net', p')).
  2:{ cbn [Nat.add fst snd] in HP. destruct HP as (H1 & H2 & H3 & _ & H5).
      cbn [fst snd] in *.
      destruct (H5 1 ltac:(lia)) as (b & Hb & _).
      exists net', p', b. repeat split; try assumption.
      intros l Hl. destruct (H5 l Hl) as (b' & Hb' & Hrow).
      rewrite Hb in Hb'. injection Hb' as <-. exact Hrow. }
  eapply (@for_loop_post _ P); [| |exact Hloop].
  { unfold P. cbn. repeat split; try (unfold drawn_before; cbn; lia). }
  unfold P.
  intros k [n0 q0] [n1 q1] Hk (H1 & H2 & H3 & H4 & H5) E. cbn [fst snd] in *.
  apply initialize_layer_keep in E. destruct E as (E1 & E2 & E3 & E4).
  destruct (Nat.eq_dec k 0) as [->|Hne].
  - destruct (E3 eq_refl) as (Eb & ->). repeat split; try congruence.
    + rewrite H3. unfold drawn_before. cbn. lia.
    + intros _. rewrite Eb. apply H4. lia.
    + intros l Hl. lia.
  - destruct (E4 ltac:(lia)) as (b0 & Hb0 & Hb1 & ->). repeat split; try congruence.
    + rewrite H3, drawn_before_S by lia. lia.
    + intros Hk1. lia.
    + intros l Hl. exists (array_set [] b0 k (randos rand q0 (nth k szs 0))).
      split; [exact Hb1|].
      destruct (Nat.eq_dec l k) as [->|Hlk].
      * rewrite nth_array_set_eq, H3. reflexivity.
      * rewrite nth_array_set_other by exact Hlk.
        destruct (H5 l ltac:(lia)) as (b' & Hb' & Hrow).
        rewrite Hb0 in Hb'. injection Hb' as <-. exact Hrow.
Qed.

(** C4, as the code has it: [initialize] does not reject a topology of fewer
    than two layers.  It returns, drawing no random number, with [sizes] and
    [outputLayer] set, zeroed [deltas] and [errors] for the layer there is,
    no [changes], and no biases or weights, or the kept ones. *)
Theorem initialize_accepts_short_topology szs keep rand p (net : NeuralNetwork num) :
  length szs < 2 ->
  exists net',
    initialize szs keep rand p net = Ok (net', p) /\
    sizes net' = Some szs /\
    outputLayer net' = Some (Z.of_nat (length szs) - 1)%Z /\
    deltas net' = Some (map zeros szs) /\ errors net' = Some (map zeros szs) /\
    changes net' = Some [] /\
    (keep = false ->
     biases net' = Some [] /\ weights net' = Some [] /\ outputs net' = Some (map zeros szs)) /\
    (keep = true ->
     biases net' = biases net /\ weights net' = weights net /\ outputs net' = outputs net).
Proof.
  intros Hlen. destruct szs as [|s [|s' szs]]; [| |simpl in Hlen; lia];
    destruct keep; (eexists; split; [reflexivity|]);
    cbn; repeat split; discriminate.
Qed.

End InitializeClaims.

Lemma parameters_allocated_net221 : parameters_allocated Samples.sizes221 Samples.net221.
Proof.
  unfold parameters_allocated.
  repeat match goal with |- _ /\ _ => split end.
  - eexists. split; reflexivity.
  - eexists. split; reflexivity.
  - eexists. split; [reflexivity|]. split; [reflexivity|].
    intros l Hl. by_cases l; simpl in *; try lia; reflexivity.
Defined.

Lemma initialize_keep_redraws_biases_witness :
  exists net' p' bs',
    initialize Samples.sizes221 true Samples.rand0 9 Samples.net221 = Ok (net', p') /\
    weights net' = weights Samples.net221 /\ outputs net' = outputs Samples.net221 /\
    biases net' = Some bs' /\
    (forall l, 1 <= l < length Samples.sizes221 ->
               nth l bs' []
               = randos Samples.rand0 (9 + drawn_before Samples.sizes221 l)
                   (nth l Samples.sizes221 0)) /\
    p' = 9 + drawn_before Samples.sizes221 (length Samples.sizes221).
Proof.
  apply (@initialize_keep_redraws_biases _ Samples.N0 Samples.sizes221 Samples.rand0 9
           Samples.net221).
  - simpl. lia.
  - exact parameters_allocated_net221.
Defined.

(** C3, the failing run: [initialize([2, 2, 1], true)] on the sample network,
    the random source continuing where the first initialization left it,
    keeps the weights and replaces all three biases. *)
Lemma initialize_keep_replaces_biases_of_net221 :
  exists net' p',
    initialize [2; 2; 1] true Samples.rand0 9 Samples.net221 = Ok (net', p') /\
    weights net' = weights Samples.net221 /\
    biases Samples.net221
    = Some [[]; [-0x1.3333333333334p-3; 0]; [-0x1.9999999999998p-5]]%float /\
    biases net'
    = Some [[]; [0; 0x1.3333333333334p-3]; [-0x1.999999999999ap-4]]%float /\
    biases net' <> biases Samples.net221.
Proof.
  eexists _, _. split; [vm_compute; reflexivity|].
  split; [reflexivity|]. split; [reflexivity|]. split; [reflexivity|].
  intros H.
  apply (f_equal (fun b => match b with
                           | Some [_; x :: _; _] => PrimFloat.eqb x 0
                           | _ => false
                           end)) in H.
  vm_compute in H. discriminate H.
Qed.

Lemma initialize_accepts_short_topology_witness :
  exists net',
    initialize [3] false Samples.rand0 0 Samples.fresh = Ok (net', 0) /\
    sizes net' = Some [3] /\
    outputLayer net' = Some (Z.of_nat (length [3]) - 1)%Z /\
    deltas net' = Some (map zeros [3]) /\ errors net' = Some (map zeros [3]) /\
    changes net' = Some [] /\
    (false = false ->
     biases net' = Some [] /\ weights net' = Some [] /\ outputs net' = Some (map zeros [3])) /\
    (false = true ->
     biases net' = biases Samples.fresh /\ weights net' = weights Samples.fresh /\
     outputs net' = outputs Samples.fresh).
Proof.
  apply (@initialize_accepts_short_topology _ Samples.N0 [3] false Samples.rand0 0 Samples.fresh).
  simpl. lia.
Defined.

(** C4, the claim as written fails: [initialize([3])] and [initialize([])]
    return, leaving a network of one layer and of none. *)
Lemma initialize_returns_on_short_topology :
  (exists net',
     initialize [3] false Samples.rand0 0 Samples.fresh = Ok (net', 0) /\
     sizes net' = Some [3] /\ outputLayer net' = Some 0%Z /\ weights net' = Some []) /\
  (exists net',
     initialize [] false Samples.rand0 0 Samples.fresh = Ok (net', 0) /\
     sizes net' = Some [] /\ outputLayer net' = Some (-1)%Z /\ weights net' = Some []).
Proof.
  split; eexists; (split; [vm_compute; reflexivity|]); repeat split.
Qed.

(* ================================================================== *)
(** ** The width and the range of the activations *)

Section ExactRange.
Import Exact.

(** A number of the exact arithmetic that is a real number. *)
Definition real (x : xreal) : Prop := exists r, x = Some r.

(** A real number strictly between 0 and 1. *)
Definition in_unit_interval (x : xreal) : Prop := exists r, x = Some r /\ (0 < r < 1)%R.

(** Biases and weights that are real numbers. *)
Definition real_parameters (szs : list nat) (bs : list (list xreal))
    (ws : list (list (list xreal))) : Prop :=
  forall l j, 1 <= l < length szs -> j < nth l szs 0 ->
    real (num_at (nth l bs []) j) /\
    forall k, k < nth (l - 1) szs 0 -> real (num_at (nth j (nth l ws []) []) k).

Lemma in_unit_interval_real x : in_unit_interval x -> real x.
Proof. intros (r & -> & _). exists r. reflexivity. Qed.

Lemma sigmoid_in_unit_interval x : real x -> in_unit_interval (sigmoid (N := exact) x).
Proof.
  intros (r & ->). unfold sigmoid. cbn.
  pose proof (exp_pos (- r)) as He.
  destruct (Req_dec_T (1 + exp (- r)) 0) as [E|E]; [lra|].
  eexists. split; [reflexivity|].
  assert (H1 : (1 / (1 + exp (- r)) * (1 + exp (- r)) = 1)%R) by (field; lra).
  split; nra.
Qed.

Lemma weighted_real (w a : list xreal) (ks : list nat) :
  forall b, real b ->
    (forall k, In k ks -> real (num_at w k) /\ real (num_at a k)) ->
    real (fold_left (fun sum k => add sum (mul (num_at w k) (num_at a k))) ks b).
Proof.
  induction ks as [|k ks IH]; intros b Hb Hks; cbn [fold_left]; [exact Hb|].
  apply IH.
  - destruct Hb as (rb & ->). destruct (Hks k (or_introl eq_refl)) as ((rw & ->) & (ra & ->)).
    eexists. reflexivity.
  - intros k' Hk'. apply Hks. right. exact Hk'.
Qed.

Lemma activations_in_unit_interval szs bs ws os (inp : list xreal) :
  parameters_shaped szs bs ws -> buffers_shaped szs os -> real_parameters szs bs ws ->
  length inp = nth 0 szs 0 -> Forall real inp ->
  forall l, l < length szs ->
    forall j, j < nth l szs 0 ->
      real (num_at (activations szs bs ws os inp l) j) /\
      (1 <= l -> in_unit_interval (num_at (activations szs bs ws os inp l) j)).
Proof.
  intros Hpar Hbuf Hreal Hlen Hinp. pose proof Hbuf as (Hlo & _).
  induction l as [|l IH]; intros Hl j Hj.
  - split; [|lia]. cbn [activations]. unfold num_at.
    rewrite Forall_forall in Hinp. apply Hinp, nth_In. lia.
  - assert (Hunit : in_unit_interval (num_at (activations szs bs ws os inp (S l)) j)).
    { rewrite (@activations_unit _ exact szs bs ws os inp (S l) j Hpar Hlo ltac:(lia) Hj Hlen Hbuf).
      apply sigmoid_in_unit_interval. unfold weighted_input.
      destruct (Hreal (S l) j ltac:(lia) Hj) as (Hb & Hw).
      apply weighted_real; [exact Hb|].
      intros k Hk. apply in_seq in Hk. split; [apply Hw; lia|].
      rewrite forward_layer by lia. cbn [Nat.sub]. rewrite Nat.sub_0_r.
      apply IH; [lia|]. cbn [Nat.sub] in Hk. rewrite Nat.sub_0_r in Hk. lia. }
    split; [apply in_unit_interval_real; exact Hunit | intros _; exact Hunit].
Qed.

End ExactRange.

#[local] Existing Instance Exact.exact.

(** C6, as the code has it: in any arithmetic, the forward pass of an
    initialized network returns [sizes[L]] numbers and leaves [sizes[l]]
    activations in every layer above the input; in exact real arithmetic,
    with real parameters and a real input of width [sizes[0]], every one of
    these activations lies strictly between 0 and 1. *)
Theorem runInput_width_and_exact_range :
  (forall num (N : JSNumber num) szs bs ws os (net : NeuralNetwork num) inp,
     initialized szs bs ws os net ->
     exists net' acts,
       runInput inp net = Ok (net', Some (nth (length szs - 1) acts [])) /\
       outputs net' = Some acts /\
       length (nth (length szs - 1) acts []) = nth (length szs - 1) szs 0 /\
       forall l, 1 <= l < length szs -> length (nth l acts []) = nth l szs 0) /\
  (forall szs bs ws os (net : NeuralNetwork Exact.xreal) inp,
     initialized szs bs ws os net -> real_parameters szs bs ws ->
     length inp = nth 0 szs 0 -> Forall real inp ->
     exists net' acts,
       runInput (N := Exact.exact) inp net = Ok (net', Some (nth (length szs - 1) acts [])) /\
       outputs net' = Some acts /\
       forall l j, 1 <= l < length szs -> j < nth l szs 0 ->
                   in_unit_interval (num_at (nth l acts []) j)).
Proof.
  split.
  - intros num N szs bs ws os net inp Hinit.
    pose proof Hinit as (Hlen & _ & _ & _ & _ & _ & _ & Hbuf). pose proof Hbuf as (Hlo & _).
    exists (set_outputs net (Some (forward szs bs ws os inp))), (forward szs bs ws os inp).
    split; [apply runInput_initialized; exact Hinit|]. split; [reflexivity|].
    assert (Hw : forall l, 1 <= l < length szs ->
                           length (nth l (forward szs bs ws os inp) []) = nth l szs 0).
    { intros l Hl. rewrite forward_layer by lia. apply length_activations; assumption. }
    split; [apply Hw; lia | exact Hw].
  - intros szs bs ws os net inp Hinit Hreal Hwidth Hinp.
    pose proof Hinit as (Hlen & _ & _ & _ & _ & _ & Hpar & Hbuf). pose proof Hbuf as (Hlo & _).
    exists (set_outputs net (Some (forward szs bs ws os inp))), (forward szs bs ws os inp).
    split; [apply runInput_initialized; exact Hinit|]. split; [reflexivity|].
    intros l j Hl Hj. rewrite forward_layer by lia.
    apply (@activations_in_unit_interval szs bs ws os inp Hpar Hbuf Hreal Hwidth Hinp l
             ltac:(lia) j Hj).
    lia.
Qed.

Module Saturation.

(** The serialized form of a network of one input and one output unit. *)
Definition unit_json {num} (bias weight : num) : network_json num :=
  mkNetworkJson
    [[(KIdx 0, mkNodeJson None None)];
     [(KIdx 0, mkNodeJson (Some bias) (Some [(KIdx 0, weight)]))]]
    false false.

(** Bias 0 and weight 1, in IEEE arithmetic. *)
Definition identity_net : NeuralNetwork float :=
  Eval vm_compute in
    match fromJSON (N := Samples.N0) (unit_json 0 1)%float Samples.fresh with
    | Ok net => net
    | TypeError => Samples.fresh
    end.

(** Bias 0 and weight 2^1000, in IEEE arithmetic. *)
Definition steep_net : NeuralNetwork float :=
  Eval vm_compute in
    match fromJSON (N := Samples.N0) (unit_json 0 0x1p+1000)%float Samples.fresh with
    | Ok net => net
    | TypeError => Samples.fresh
    end.

(** Bias 0 and weight 1, in exact arithmetic. *)
Definition exact_fresh : NeuralNetwork Exact.xreal :=
  new_NeuralNetwork (N := Exact.exact) (mkCtorOptions None None None None).

Definition exact_net : NeuralNetwork Exact.xreal :=
  match fromJSON (N := Exact.exact) (unit_json (Some 0%R) (Some 1%R)) exact_fresh with
  | Ok net => net
  | TypeError => exact_fresh
  end.

End Saturation.

Lemma initialized_exact_net :
  initialized [1; 1] [[None]; [Some 0%R]] [[[]]; [[Some 1%R]]] [[]; []] Saturation.exact_net.
Proof.
  unfold initialized, parameters_shaped, buffers_shaped.
  repeat match goal with |- _ /\ _ => split end; try reflexivity; simpl; try lia.
  - intros l Hl. by_cases l; simpl in *; try lia;
      (repeat split; try reflexivity; intros j Hj; by_cases j; simpl in *; try lia; reflexivity).
  - intros l Hl. by_cases l; simpl in *; lia.
Defined.

Lemma real_parameters_exact_net : real_parameters [1; 1] [[None]; [Some 0%R]] [[[]]; [[Some 1%R]]].
Proof.
  intros l j Hl Hj. by_cases l; simpl in *; try lia.
  by_cases j; simpl in *; try lia. split; [eexists; reflexivity|].
  intros k Hk. by_cases k; simpl in *; try lia. eexists; reflexivity.
Defined.

Lemma runInput_width_and_exact_range_witness :
  (exists net' acts,
     runInput (N := Samples.N0) [1; 0]%float Samples.net221
     = Ok (net', Some (nth (length Samples.sizes221 - 1) acts [])) /\
     outputs net' = Some acts /\
     length (nth (length Samples.sizes221 - 1) acts [])
     = nth (length Samples.sizes221 - 1) Samples.sizes221 0 /\
     forall l, 1 <= l < length Samples.sizes221 ->
               length (nth l acts []) = nth l Samples.sizes221 0) /\
  (exists net' acts,
     runInput (N := Exact.exact) [Some 2%R] Saturation.exact_net
     = Ok (net', Some (nth (length [1; 1] - 1) acts [])) /\
     outputs net' = Some acts /\
     forall l j, 1 <= l < length [1; 1] -> j < nth l [1; 1] 0 ->
                 in_unit_interval (num_at (nth l acts []) j)).
Proof.
  split.
  - apply (proj1 runInput_width_and_exact_range _ Samples.N0 _ _ _ _ _ [1; 0]%float
             initialized_net221).
  - apply (proj2 runInput_width_and_exact_range _ _ _ _ _ [Some 2%R]
             initialized_exact_net real_parameters_exact_net eq_refl).
    repeat constructor. eexists; reflexivity.
Defined.

(** C6, the claim as written fails in the arithmetic of the program: with
    bias 0 and weight 1 the activation on the input 40 is 1 and on the input
    -800 it is 0; with weight 2^1000 the weighted sum of the input 2^1000
    overflows and the activation is 1 whatever [Math.exp] does on finite
    arguments. *)
Lemma activation_reaches_1_and_0 :
  (exists net', runInput (N := Samples.N0) [40]%float Saturation.identity_net
                = Ok (net', Some [1]%float)) /\
  (exists net', runInput (N := Samples.N0) [-800]%float Saturation.identity_net
                = Ok (net', Some [0]%float)) /\
  (exists net', runInput (N := Samples.N0) [0x1p+1000]%float Saturation.steep_net
                = Ok (net', Some [1]%float)) /\
  PrimFloat.ltb 1 1 = false /\ PrimFloat.ltb 0 0 = false.
Proof.
  split; [eexists; vm_compute; reflexivity|].
  split; [eexists; vm_compute; reflexivity|].
  split; [eexists; vm_compute; reflexivity|].
  split; reflexivity.
Qed.

(* ================================================================== *)
(** ** A network that has not been initialized, or has a single layer *)

Section BeforeInitialize.
Context {num : Type} {N : JSNumber num}.

(** X1: On a newly constructed network every array is [null]: the forward pass,
    the backward pass, a training step, [test] and [toJSON] throw, and
    [adjustWeights] returns without touching anything, whatever the options
    and the arguments. *)
Theorem new_network_throws (options : ctor_options num) (inp target : list num)
    (lr : option num) (rate : num) (d : example num) (rest : list (example num)) :
  let net := new_NeuralNetwork options in
  runInput inp net = TypeError /\
  calculateDeltas target net = TypeError /\
  trainPattern inp target lr net = TypeError /\
  test (Many (d :: rest)) net = TypeError /\
  test (Single d) net = TypeError /\
  toJSON net = TypeError /\
  adjustWeights rate net = Ok net.
Proof. cbv zeta. repeat (split; [reflexivity|]). reflexivity. Qed.

Lemma for_loop_two {St} n (body : nat -> St -> result St) s :
  for_loop (S (S n)) 0 body s
  = bind (body 0 s) (fun s1 => bind (body 1 s1) (for_loop n 2 body)).
Proof. reflexivity. Qed.

(** Lines 53-61 with [keepNetworkIntact]: the biases of layer 1 are assigned
    into [this.biases], so a network without biases makes [initialize]
    throw once the topology has a second layer. *)
Lemma initialize_keep_without_biases szs rand p (net : NeuralNetwork num) :
  biases net = None -> 2 <= length szs -> initialize szs true rand p net = TypeError.
Proof.
  intros Hb Hlen. destruct szs as [|s0 [|s1 szs]]; try (simpl in Hlen; lia).
  unfold initialize. cbn [negb length]. rewrite for_loop_two.
  match goal with |- context [initialize_layer _ _ _ 0 (?n, _)] => set (net0 := n) end.
  assert (Hb0 : biases net0 = None) by exact Hb.
  destruct (initialize_layer (s0 :: s1 :: szs) true rand 0 (net0, p)) as [[n1 p1]|] eqn:E0;
    cbn [bind]; [|reflexivity].
  destruct (initialize_layer (s0 :: s1 :: szs) true rand 1 (n1, p1)) as [[n2 p2]|] eqn:E1;
    cbn [bind]; [|reflexivity].
  apply initialize_layer_keep in E0. destruct E0 as (_ & _ & E0 & _).
  destruct (E0 eq_refl) as (Hb1 & _).
  apply initialize_layer_keep in E1. destruct E1 as (_ & _ & _ & E1).
  destruct (E1 ltac:(lia)) as (bs & Hbs & _). congruence.
Qed.

(** X2: [train] with [keepNetworkIntact] on a network that has no biases yet (a
    new one, for instance) throws, whatever the data and the other options:
    it has thrown before its loop, so within any number of rounds. *)
Theorem train_keep_without_biases (fuel : nat) (d : example num) (rest : list (example num))
    (options : train_options num) rand p (net : NeuralNetwork num) :
  o_keepNetworkIntact options = true -> biases net = None ->
  train fuel (Many (d :: rest)) options rand p net = Some TypeError /\
  train fuel (Single d) options rand p net = Some TypeError.
Proof.
  intros Hkeep Hb.
  assert (Hinit : initialize (train_sizes net (length (input d)) (length (output d)))
                    true rand p net = TypeError).
  { apply initialize_keep_without_biases; [exact Hb|].
    unfold train_sizes. cbn [length]. rewrite length_app. cbn [length]. lia. }
  split; unfold train; cbn [formatData elem nth_error deref bind];
    rewrite Hkeep, Hinit; reflexivity.
Qed.

(** The forward pass of a network whose [outputLayer] is not above 0 runs no
    iteration of its loop: it stores the input and returns [undefined]. *)
Lemma runInput_no_layer (net : NeuralNetwork num) os inp :
  outputs net = Some os -> (outputLayer_number net <= 0)%Z ->
  runInput inp net = Ok (set_outputs net (Some (array_set [] os 0 inp)), None).
Proof.
  intros Ho HL. unfold runInput. rewrite Ho. cbn [deref bind].
  replace (outputLayer_number (set_outputs net (Some (array_set [] os 0 inp))))
    with (outputLayer_number net) by reflexivity.
  destruct (outputLayer_number net) as [|l|l] eqn:E; try lia; reflexivity.
Qed.

Lemma initialize_short szs rand p (net : NeuralNetwork num) :
  length szs < 2 ->
  exists net1,
    initialize szs false rand p net = Ok (net1, p) /\
    outputs net1 = Some (map zeros szs) /\
    outputLayer net1 = Some (Z.of_nat (length szs) - 1)%Z.
Proof.
  intros Hlen. destruct szs as [|s [|s' szs]]; [| |simpl in Hlen; lia].
  - eexists. split; [reflexivity|]. split; reflexivity.
  - unfold initialize. cbn [negb length for_loop].
    unfold initialize_layer.
    cbn [deltas errors outputs set_errors set_changes set_deltas set_outputs set_weights
         set_biases set_outputLayer set_sizes deref bind negb Nat.ltb Nat.leb nth].
    eexists. split; [reflexivity|]. split; reflexivity.
Qed.

(** X3: After [initialize] with fewer than two layer sizes, the forward pass
    returns [undefined] on every input, and [test] throws on every dataset
    that has an example. *)
Theorem single_layer_network_returns_undefined szs rand p (net : NeuralNetwork num)
    (inp : list num) (d : example num) (rest : list (example num)) :
  length szs < 2 ->
  exists net1 net2,
    initialize szs false rand p net = Ok (net1, p) /\
    runInput inp net1 = Ok (net2, None) /\
    test (Many (d :: rest)) net1 = TypeError.
Proof.
  intros Hlen. destruct (@initialize_short szs rand p net Hlen) as (net1 & Hinit & Ho & HL).
  assert (Hno : (outputLayer_number net1 <= 0)%Z).
  { unfold outputLayer_number. rewrite HL. lia. }
  exists net1. eexists. split; [exact Hinit|].
  split; [apply (@runInput_no_layer net1 _ inp Ho Hno)|].
  unfold test. cbn [formatData elem nth_error deref bind test_examples].
  rewrite (@runInput_no_layer net1 _ (input d) Ho Hno). reflexivity.
Qed.

End BeforeInitialize.

Lemma train_keep_without_biases_witness :
  train (N := Samples.N0) 20000 Samples.xor
    (mkTrainOptions None None None None None false None true) Samples.rand0 0 Samples.fresh
  = Some TypeError /\
  train (N := Samples.N0) 20000 (Single (mkExample [0; 0] [0])%float)
    (mkTrainOptions None None None None None false None true) Samples.rand0 0 Samples.fresh
  = Some TypeError.
Proof.
  exact (@train_keep_without_biases _ Samples.N0 20000 (mkExample [0; 0] [0])%float
           [mkExample [0; 1] [1]; mkExample [1; 0] [1]; mkExample [1; 1] [0]]%float
           (mkTrainOptions None None None None None false None true)
           Samples.rand0 0 Samples.fresh eq_refl eq_refl).
Defined.

Lemma single_layer_network_returns_undefined_witness :
  exists net1 net2,
    initialize (N := Samples.N0) [3] false Samples.rand0 0 Samples.fresh = Ok (net1, 0) /\
    runInput [1; 2; 3]%float net1 = Ok (net2, None) /\
    test (Many [mkExample [1; 2; 3]%float [1%float]]) net1 = TypeError.
Proof.
  apply (@single_layer_network_returns_undefined _ Samples.N0 [3] Samples.rand0 0 Samples.fresh
           [1; 2; 3]%float (mkExample [1; 2; 3]%float [1%float]) []).
  simpl. lia.
Defined.

(* ================================================================== *)
(** ** What the forward pass reads and what it writes *)

(** Opens the next step of a computation in the [result] monad that is known
    to have returned. *)
Ltac returned H :=
  repeat match type of H with
         | context [bind ?c _] => destruct c eqn:?; cbn [bind] in H; try discriminate H
         | context [deref ?c] => destruct c eqn:?; cbn [deref bind] in H; try discriminate H
         end.

Section ForwardPassFacts.
Context {num : Type} {N : JSNumber num}.

(** Two networks that differ at most in [outputs]. *)
Definition only_outputs_differ (n n' : NeuralNetwork num) : Prop :=
  n' = set_outputs n (outputs n').

Lemma only_outputs_differ_refl (n : NeuralNetwork num) : only_outputs_differ n n.
Proof. destruct n; reflexivity. Qed.

Lemma only_outputs_differ_set (n n' : NeuralNetwork num) o :
  only_outputs_differ n n' -> only_outputs_differ n (set_outputs n' o).
Proof. unfold only_outputs_differ. intros ->. reflexivity. Qed.

Lemma only_outputs_differ_trans (n n' n'' : NeuralNetwork num) :
  only_outputs_differ n n' -> only_outputs_differ n' n'' -> only_outputs_differ n n''.
Proof. unfold only_outputs_differ. intros -> ->. reflexivity. Qed.

Lemma runInput_node_frame layer input node (net net' : NeuralNetwork num) :
  runInput_node layer input node net = Ok net' -> only_outputs_differ net net'.
Proof.
  unfold runInput_node, elem. intros H. returned H.
  injection H as <-. apply only_outputs_differ_set, only_outputs_differ_refl.
Qed.

Lemma runInput_frame inp (net net' : NeuralNetwork num) out :
  runInput inp net = Ok (net', out) -> only_outputs_differ net net'.
Proof.
  unfold runInput. intros H.
  destruct (outputs net) as [os|]; cbn [deref bind] in H; [|discriminate H].
  destruct (for_loop _ 1 runInput_layer _) as [[[n1 i1] o1]|] eqn:Hloop;
    cbn [bind] in H; [|discriminate H].
  injection H as <- <-.
  apply (@for_loop_post _
           (fun (_ : nat) (st : NeuralNetwork num * option (list num) * option (list num)) =>
              only_outputs_differ net (fst (fst st))) _ _ _ _ _) in Hloop.
  - exact Hloop.
  - cbn [fst]. apply only_outputs_differ_set, only_outputs_differ_refl.
  - intros l [[n0 i0] o0] [[n2 i2] o2] _ Hinv Hstep. cbn [fst] in *.
    unfold runInput_layer in Hstep.
    destruct (size_of_layer n0 l) as [size|]; cbn [bind] in Hstep; [|discriminate Hstep].
    destruct (for_loop size 0 (runInput_node l i0) n0) as [n3|] eqn:Hnodes;
      cbn [bind] in Hstep; [|discriminate Hstep].
    destruct (outputs n3) as [os3|]; cbn [deref bind] in Hstep; [|discriminate Hstep].
    injection Hstep as <- _ _.
    apply (only_outputs_differ_trans Hinv).
    apply (@for_loop_post _ (fun (_ : nat) (n : NeuralNetwork num) => only_outputs_differ n0 n)
             _ _ _ _ _) in Hnodes.
    + exact Hnodes.
    + apply only_outputs_differ_refl.
    + intros j n4 n5 _ Hinv' Hnode.
      exact (only_outputs_differ_trans Hinv' (runInput_node_frame _ _ _ _ Hnode)).
Qed.

Lemma test_examples_frame isBinary (data : list (example num)) :
  forall (net net' : NeuralNetwork num) ts ts',
    test_examples isBinary data (net, ts) = Ok (net', ts') -> only_outputs_differ net net'.
Proof.
  induction data as [|d data IH]; intros net net' ts ts' H; cbn [test_examples] in H.
  - injection H as <- _. apply only_outputs_differ_refl.
  - destruct (runInput (input d) net) as [[n1 o1]|] eqn:Hrun; cbn [bind] in H; [|discriminate H].
    destruct o1 as [out|]; cbn [deref bind] in H; [|discriminate H].
    apply IH in H. exact (only_outputs_differ_trans (runInput_frame _ _ Hrun) H).
Qed.

(** X4: [runInput] and [test] write to [outputs] only: when they return, every
    other field of the network, its weights and biases among them, is what it
    was. *)
Theorem runInput_and_test_write_outputs_only inp (data : training_data num)
    (net net1 net2 : NeuralNetwork num) out stats :
  (runInput inp net = Ok (net1, out) -> net1 = set_outputs net (outputs net1)) /\
  (test data net = Ok (net2, stats) -> net2 = set_outputs net (outputs net2)).
Proof.
  split.
  - apply runInput_frame.
  - unfold test. intros H.
    destruct (elem (formatData data) 0) as [d0|]; cbn [bind] in H; [|discriminate H].
    destruct (test_examples _ _ _) as [[n ts]|] eqn:Hloop; cbn [bind] in H; [|discriminate H].
    injection H as <- _. exact (test_examples_frame _ _ _ _ Hloop).
Qed.

End ForwardPassFacts.

Section ForwardPassInputs.
Context {num : Type} {N : JSNumber num}.

Lemma fold_left_ext_in {A B} (f g : A -> B -> A) (l : list B) :
  (forall a b, In b l -> f a b = g a b) -> forall a, fold_left f l a = fold_left g l a.
Proof.
  induction l as [|b l IH]; intros H a; cbn [fold_left]; [reflexivity|].
  rewrite (H a b (or_introl eq_refl)). apply IH. intros a' b' Hb'. apply H. right. exact Hb'.
Qed.

Lemma activation_reads (b : num) (w inp inp' : list num) :
  (forall k, k < length w -> num_at inp k = num_at inp' k) ->
  activation b w inp = activation b w inp'.
Proof.
  intros H. unfold activation. f_equal. apply fold_left_ext_in.
  intros a k Hk. apply in_seq in Hk. rewrite H by lia. reflexivity.
Qed.

(** The activations above the input layer depend on the first [sizes[0]]
    entries of the input, and on nothing that the buffers held. *)
Lemma activations_reads szs bs ws os os' (inp inp' : list num) :
  parameters_shaped szs bs ws ->
  (forall l, 1 <= l < length szs -> length (nth l os []) <= nth l szs 0) ->
  (forall l, 1 <= l < length szs -> length (nth l os' []) <= nth l szs 0) ->
  (forall k, k < nth 0 szs 0 -> num_at inp k = num_at inp' k) ->
  forall l, 1 <= l < length szs ->
            activations szs bs ws os inp l = activations szs bs ws os' inp' l.
Proof.
  intros (_ & _ & Hrows) Hro Hro' Hinp.
  induction l as [|l IH]; intros Hl; [lia|]. cbn [activations].
  rewrite !patched_full by (apply Hro || apply Hro'; exact Hl).
  apply map_ext_in. intros j Hj. apply in_seq in Hj.
  destruct l as [|l'].
  - cbn [activations]. apply activation_reads. intros k Hk. apply Hinp.
    destruct (Hrows 1 Hl) as (_ & _ & Hrow). rewrite (Hrow j) in Hk by lia. exact Hk.
  - rewrite IH by lia. reflexivity.
Qed.

Lemma forward_as_map szs bs ws os (inp : list num) :
  length os = length szs ->
  forward szs bs ws os inp = map (activations szs bs ws os inp) (seq 0 (length szs)).
Proof. intros Hlo. unfold forward. apply patched_full. lia. Qed.

(** X5: The network that a forward pass leaves depends on the input of that pass
    only: the passes made before it leave no trace. *)
Theorem runInput_forgets_earlier_inputs szs bs ws os (net : NeuralNetwork num) inp1 inp2 :
  initialized szs bs ws os net ->
  exists net1 out1 net2 out2,
    runInput inp1 net = Ok (net1, out1) /\
    runInput inp2 net1 = Ok (net2, Some out2) /\
    runInput inp2 net = Ok (net2, Some out2).
Proof.
  intros Hinit.
  pose proof Hinit as (Hlen & Hs & HL & Hb & Hw & Ho & Hpar & (Hlo & Hro)).
  pose proof Hpar as (Hlb & Hlw & Hrows).
  set (os1 := forward szs bs ws os inp1).
  assert (Hlo1 : length os1 = length szs) by (apply length_forward; exact Hlo).
  assert (Hro1 : forall l, 1 <= l < length szs -> length (nth l os1 []) <= nth l szs 0).
  { intros l Hl. unfold os1. rewrite forward_layer by lia.
    rewrite length_activations by first [assumption | split; assumption]. lia. }
  assert (HL' : outputLayer net = Some (Z.of_nat (length szs - 1))).
  { rewrite HL. f_equal. lia. }
  assert (Hrw : forall l, 1 <= l <= length szs - 1 -> nth l szs 0 <= length (nth l ws [])).
  { intros l Hl. destruct (Hrows l) as (_ & H & _); lia. }
  assert (Hsame : forward szs bs ws os1 inp2 = forward szs bs ws os inp2).
  { rewrite !forward_as_map by assumption. apply map_ext_in. intros l Hl. apply in_seq in Hl.
    destruct l as [|l]; [reflexivity|].
    apply activations_reads; try assumption; try lia; try reflexivity.
    intros k Hk. apply Hro. lia. }
  exists (set_outputs net (Some os1)), (Some (nth (length szs - 1) os1 [])).
  exists (set_outputs net (Some (forward szs bs ws os inp2))).
  exists (nth (length szs - 1) (forward szs bs ws os inp2) []).
  split; [apply runInput_initialized; exact Hinit|].
  split; [|apply runInput_initialized; exact Hinit].
  rewrite (@runInput_exact _ _ (set_outputs net (Some os1)) szs bs ws os1 (length szs - 1) inp2);
    try assumption; try reflexivity; try lia.
  replace (S (length szs - 1)) with (length szs) by lia.
  fold (forward szs bs ws os1 inp2). rewrite Hsame.
  destruct (length szs - 1) as [|L'] eqn:E; [lia|]. rewrite <- E.
  rewrite <- (@forward_layer _ _ szs bs ws os1 inp2 (length szs - 1)) by lia.
  rewrite Hsame. reflexivity.
Qed.

(** X6: The forward pass reads the first [sizes[0]] entries of its input: what
    follows them is ignored, and an entry that is missing is read as
    [undefined], which is [NaN] in the weighted sum. *)
Theorem runInput_reads_sizes0_entries szs bs ws os (net : NeuralNetwork num) inp :
  initialized szs bs ws os net ->
  exists out net1 net2 net3,
    runInput inp net = Ok (net1, Some out) /\
    runInput (firstn (nth 0 szs 0) inp) net = Ok (net2, Some out) /\
    runInput (inp ++ repeat NaN (nth 0 szs 0 - length inp)) net = Ok (net3, Some out).
Proof.
  intros Hinit.
  pose proof Hinit as (Hlen & _ & _ & _ & _ & _ & Hpar & (Hlo & Hro)).
  assert (Hro' : forall l, 1 <= l < length szs -> length (nth l os []) <= nth l szs 0).
  { intros l Hl. apply Hro. lia. }
  eexists _, _, _, _.
  split; [apply (runInput_initialized inp Hinit)|].
  rewrite !(runInput_initialized _ Hinit). rewrite !forward_layer by lia.
  split; do 3 f_equal; apply activations_reads; try assumption; try lia.
  - intros k Hk. unfold num_at. rewrite nth_firstn.
    destruct (Nat.ltb_spec k (nth 0 szs 0)); [reflexivity | lia].
  - intros k Hk. unfold num_at.
    destruct (Nat.lt_ge_cases k (length inp)) as [Hin|Hout].
    + rewrite app_nth1 by exact Hin. reflexivity.
    + rewrite app_nth2 by exact Hout. rewrite nth_repeat.
      rewrite nth_overflow by exact Hout. reflexivity.
Qed.

End ForwardPassInputs.

(* ================================================================== *)
(** ** [NaN] in IEEE arithmetic *)

Section FloatNaN.
Local Open Scope float_scope.

Lemma float_add_nan_r x : x + nan = nan.
Proof.
  apply Prim2SF_inj. rewrite add_spec. change (Prim2SF nan) with S754_nan.
  unfold SF64add. destruct (Prim2SF x); reflexivity.
Qed.

Lemma float_add_nan_l x : nan + x = nan.
Proof. apply Prim2SF_inj. rewrite add_spec. reflexivity. Qed.

Lemma float_mul_nan_r x : x * nan = nan.
Proof.
  apply Prim2SF_inj. rewrite mul_spec. change (Prim2SF nan) with S754_nan.
  unfold SF64mul. destruct (Prim2SF x); reflexivity.
Qed.

Lemma float_div_nan_r x : x / nan = nan.
Proof.
  apply Prim2SF_inj. rewrite div_spec. change (Prim2SF nan) with S754_nan.
  unfold SF64div. destruct (Prim2SF x); reflexivity.
Qed.

Lemma float_eqb_nan_r x : PrimFloat.eqb x nan = false.
Proof.
  rewrite eqb_spec. change (Prim2SF nan) with S754_nan.
  unfold SFeqb. destruct (Prim2SF x); reflexivity.
Qed.

End FloatNaN.

Section NaNInput.
Import IEEE.
Variable rt : runtime.
Let N : JSNumber float := ieee rt.
Local Existing Instance N.
Hypothesis Hexp : rt_exp rt nan = nan.

Lemma sigmoid_nan : sigmoid nan = nan.
Proof.
  unfold sigmoid. cbn [neg add div of_Z Math_exp N ieee].
  change (- nan)%float with nan. rewrite Hexp, float_add_nan_r, float_div_nan_r. reflexivity.
Qed.

Lemma weighted_sum_nan (w inp : list float) (ks : list nat) :
  forall b,
    b = nan \/ (exists k, In k ks /\ num_at inp k = nan) ->
    fold_left (fun sum k => add sum (mul (num_at w k) (num_at inp k))) ks b = nan.
Proof.
  induction ks as [|k ks IH]; intros b H; cbn [fold_left].
  - destruct H as [H|(k & [] & _)]. exact H.
  - apply IH. destruct H as [->|(k' & [<-|Hin] & Hk')].
    + left. apply float_add_nan_l.
    + left. rewrite Hk'. cbn [add mul N ieee]. rewrite float_mul_nan_r. apply float_add_nan_r.
    + right. exists k'. split; assumption.
Qed.

Lemma activation_nan (b : float) (w inp : list float) k :
  k < length w -> num_at inp k = nan -> activation b w inp = nan.
Proof.
  intros Hk Hnan. unfold activation. rewrite weighted_sum_nan; [apply sigmoid_nan|].
  right. exists k. split; [apply in_seq; lia | exact Hnan].
Qed.

Lemma activations_nan szs bs ws os (inp : list float) k :
  parameters_shaped szs bs ws -> buffers_shaped szs os ->
  Forall (fun s => 1 <= s) szs ->
  k < nth 0 szs 0 -> num_at inp k = nan ->
  forall l, 1 <= l < length szs ->
            activations szs bs ws os inp l = repeat nan (nth l szs 0).
Proof.
  intros (_ & _ & Hrows) (_ & Hro) Hpos Hk Hnan.
  induction l as [|l IH]; intros Hl; [lia|]. cbn [activations].
  rewrite patched_full by (apply Hro; lia).
  transitivity (map (fun _ : nat => nan) (seq 0 (nth (S l) szs 0)));
    [|rewrite map_const, length_seq; reflexivity].
  apply map_ext_in. intros j Hj. apply in_seq in Hj.
  destruct (Hrows (S l) Hl) as (_ & _ & Hrow). cbn [Nat.sub] in Hrow.
  rewrite Nat.sub_0_r in Hrow.
  destruct l as [|l'].
  - cbn [activations]. apply (@activation_nan _ _ _ k); [|exact Hnan].
    rewrite Hrow by lia. exact Hk.
  - rewrite IH by lia. apply (@activation_nan _ _ _ 0).
    + rewrite Hrow by lia. rewrite Forall_forall in Hpos. apply Hpos, nth_In. lia.
    + unfold num_at.
      assert (Hs : 1 <= nth (S l') szs 0).
      { rewrite Forall_forall in Hpos. apply Hpos, nth_In. lia. }
      destruct (nth (S l') szs 0); [lia | reflexivity].
Qed.

(** X7: In IEEE arithmetic one [NaN] among the first [sizes[0]] entries of the
    input, or one entry missing there, makes every output [NaN], whatever the
    weights: no error is raised. *)
Theorem runInput_nan_input_gives_nan_output szs bs ws os (net : NeuralNetwork float)
    (inp : list float) k :
  initialized szs bs ws os net -> Forall (fun s => 1 <= s) szs ->
  k < nth 0 szs 0 -> (nth k inp nan = nan \/ length inp <= k) ->
  exists net',
    runInput inp net = Ok (net', Some (repeat nan (nth (length szs - 1) szs 0))).
Proof.
  intros Hinit Hpos Hk Hnan.
  pose proof Hinit as (Hlen & _ & _ & _ & _ & _ & Hpar & Hbuf). pose proof Hbuf as (Hlo & _).
  eexists. rewrite (runInput_initialized inp Hinit).
  rewrite forward_layer by lia.
  rewrite (@activations_nan szs bs ws os inp k Hpar Hbuf Hpos Hk); [reflexivity| |lia].
  destruct Hnan as [H|H]; [exact H|]. apply nth_overflow. exact H.
Qed.

End NaNInput.

Lemma runInput_nan_input_gives_nan_output_witness :
  exists net',
    runInput (N := Samples.N0) [1%float] Samples.net221
    = Ok (net', Some (repeat nan (nth (length Samples.sizes221 - 1) Samples.sizes221 0))).
Proof.
  apply (@runInput_nan_input_gives_nan_output IEEE.reference eq_refl _ _ _ _ _ [1%float] 1
           initialized_net221).
  - repeat constructor.
  - simpl. lia.
  - right. simpl. lia.
Defined.

Module Runs.

(** The sample network after a forward pass, and after [test] on the four
    examples of exclusive or. *)
Definition ran221 : NeuralNetwork float * option (list float) :=
  Eval vm_compute in
    match runInput (N := Samples.N0) [1; 0]%float Samples.net221 with
    | Ok r => r
    | TypeError => (Samples.net221, None)
    end.

Definition tested221 : result (NeuralNetwork float * test_stats float) :=
  Eval vm_compute in test (N := Samples.N0) Samples.xor Samples.net221.

End Runs.

Lemma runInput_and_test_write_outputs_only_witness :
  fst Runs.ran221 = set_outputs Samples.net221 (outputs (fst Runs.ran221)) /\
  match Runs.tested221 with
  | Ok (net2, _) => net2 = set_outputs Samples.net221 (outputs net2)
  | TypeError => False
  end.
Proof.
  split.
  - apply (proj1 (@runInput_and_test_write_outputs_only _ Samples.N0 [1; 0]%float Samples.xor
                    Samples.net221 (fst Runs.ran221) (fst Runs.ran221) (snd Runs.ran221)
                    (mkTestStats nan [] None))).
    vm_compute. reflexivity.
  - destruct Runs.tested221 as [[net2 stats]|] eqn:E; [|vm_compute in E; discriminate E].
    apply (proj2 (@runInput_and_test_write_outputs_only _ Samples.N0 [1; 0]%float Samples.xor
                    Samples.net221 net2 net2 None stats)).
    rewrite <- E. vm_compute. reflexivity.
Defined.

Lemma runInput_forgets_earlier_inputs_witness :
  exists net1 out1 net2 out2,
    runInput (N := Samples.N0) [1; 0]%float Samples.net221 = Ok (net1, out1) /\
    runInput [0; 1]%float net1 = Ok (net2, Some out2) /\
    runInput [0; 1]%float Samples.net221 = Ok (net2, Some out2).
Proof.
  exact (@runInput_forgets_earlier_inputs _ Samples.N0 _ _ _ _ _ [1; 0]%float [0; 1]%float
           initialized_net221).
Defined.

Lemma runInput_reads_sizes0_entries_witness :
  exists out net1 net2 net3,
    runInput (N := Samples.N0) [1; 0; 7]%float Samples.net221 = Ok (net1, Some out) /\
    runInput (firstn (nth 0 Samples.sizes221 0) [1; 0; 7]%float) Samples.net221
    = Ok (net2, Some out) /\
    runInput ([1; 0; 7]%float ++ repeat NaN (nth 0 Samples.sizes221 0 - length [1; 0; 7]%float))
      Samples.net221
    = Ok (net3, Some out).
Proof.
  exact (@runInput_reads_sizes0_entries _ Samples.N0 _ _ _ _ _ [1; 0; 7]%float
           initialized_net221).
Defined.

(* ================================================================== *)
(** ** What [initialize] builds *)

Section InitializeFresh.
Context {num : Type} {N : JSNumber num}.
Variables (szs : list nat) (rand : random_source num).

(** The random numbers that [initialize] draws for the layers below [k]: one
    per bias and one per weight. *)
Definition draws (k : nat) : nat :=
  list_sum (map (fun l => nth l szs 0 * S (nth (l - 1) szs 0)) (seq 1 (k - 1))).

Lemma draws_S k : 1 <= k -> draws (S k) = draws k + nth k szs 0 * S (nth (k - 1) szs 0).
Proof.
  intros Hk. unfold draws. replace (S k - 1) with (S (k - 1)) by lia.
  rewrite seq_S, map_app, list_sum_app. cbn [map list_sum fold_right].
  replace (1 + (k - 1)) with k by lia. lia.
Qed.

Lemma length_randos p n : length (randos rand p n) = n.
Proof. unfold randos. rewrite length_map, length_seq. reflexivity. Qed.

(** The fields that [initialize] passes over. *)
Definition same_settings (n n' : NeuralNetwork num) : Prop :=
  learningRate n' = learningRate n /\ momentum n' = momentum n /\
  hiddenSizes n' = hiddenSizes n /\ binaryThresh n' = binaryThresh n /\
  inputLookup n' = inputLookup n /\ outputLookup n' = outputLookup n.

(** The rows of one layer while the loop over its nodes runs: [node] rows of
    weights and of zero changes are in place. *)
Definition rows_upto (k node : nat) (wl cl : list (list num)) : Prop :=
  length wl = nth k szs 0 /\ length cl = nth k szs 0 /\
  forall j, j < node ->
            length (nth j wl []) = nth (k - 1) szs 0 /\ nth j cl [] = zeros (nth (k - 1) szs 0).

Lemma initialize_nodes_fresh k (n0 : NeuralNetwork num) W0 C0 q0 :
  weights n0 = Some W0 -> changes n0 = Some C0 ->
  nth_error W0 k = Some (repeat [] (nth k szs 0)) ->
  nth_error C0 k = Some (repeat [] (nth k szs 0)) ->
  exists wl cl,
    for_loop (nth k szs 0) 0 (initialize_node szs false rand k) (n0, q0)
    = Ok (set_changes (set_weights n0 (Some (array_set [] W0 k wl)))
            (Some (array_set [] C0 k cl)),
          q0 + nth k szs 0 * nth (k - 1) szs 0) /\
    rows_upto k (nth k szs 0) wl cl.
Proof.
  intros Hw Hc HW HC.
  set (size := nth k szs 0). set (prev := nth (k - 1) szs 0).
  destruct (@for_loop_inv _
              (fun (node : nat) (st : NeuralNetwork num * nat) =>
                 exists wl cl,
                   st = (set_changes (set_weights n0 (Some (array_set [] W0 k wl)))
                           (Some (array_set [] C0 k cl)),
                         q0 + node * prev) /\
                   rows_upto k node wl cl)
              size 0 (initialize_node szs false rand k) (n0, q0))
    as (st & Hrun & (wl & cl & -> & Hrows)).
  - exists (repeat [] size), (repeat [] size). split.
    + rewrite !array_set_same by assumption.
      destruct n0; cbn in *. rewrite Hw, Hc, Nat.add_0_r. reflexivity.
    + unfold rows_upto. fold size. rewrite repeat_length.
      split; [reflexivity|]. split; [reflexivity|]. intros j Hj. lia.
  - intros node st Hnode (wl & cl & -> & (Hlw & Hlc & Hrows)).
    eexists. split.
    + unfold initialize_node. cbn [negb weights changes set_weights set_changes deref bind].
      unfold elem. rewrite nth_error_array_set_eq. cbn [deref bind].
      cbn [weights changes set_weights set_changes deref bind].
      rewrite nth_error_array_set_eq. cbn [deref bind]. reflexivity.
    + exists (array_set [] wl node (randos rand (q0 + node * prev) prev)).
      exists (array_set [] cl node (zeros prev)).
      split.
      * rewrite !array_set_twice. fold prev. destruct n0; cbn. f_equal. lia.
      * unfold rows_upto. fold size prev. rewrite !array_set_length.
        split; [lia|]. split; [lia|].
        intros j Hj. destruct (Nat.eq_dec j node) as [->|Hne].
        -- rewrite !nth_array_set_eq. split; [apply length_randos | reflexivity].
        -- rewrite !nth_array_set_other by exact Hne. apply Hrows. lia.
  - exists wl, cl. split; [|exact Hrows].
    rewrite Hrun. cbn [Nat.add]. reflexivity.
Qed.

End InitializeFresh.

Section InitializeLayers.
Context {num : Type} {N : JSNumber num}.
Variables (szs : list nat) (rand : random_source num) (p : nat) (net0 : NeuralNetwork num).

(** The network while [initialize] without [keepNetworkIntact] runs: the
    layers below [k] are set up. *)
Definition fresh_upto (k : nat) (st : NeuralNetwork num * nat) : Prop :=
  same_settings net0 (fst st) /\
  sizes (fst st) = Some szs /\
  outputLayer (fst st) = Some (Z.of_nat (length szs) - 1)%Z /\
  (exists ds es os,
     deltas (fst st) = Some ds /\ errors (fst st) = Some es /\ outputs (fst st) = Some os /\
     length ds = k /\ length es = k /\ length os = k /\
     forall l, l < k ->
       nth l ds [] = zeros (nth l szs 0) /\ nth l es [] = zeros (nth l szs 0) /\
       nth l os [] = zeros (nth l szs 0)) /\
  (exists bs ws cs,
     biases (fst st) = Some bs /\ weights (fst st) = Some ws /\ changes (fst st) = Some cs /\
     length bs = rows_len k /\ length ws = rows_len k /\ length cs = rows_len k /\
     forall l, 1 <= l < k ->
       length (nth l bs []) = nth l szs 0 /\
       rows_upto szs l (nth l szs 0) (nth l ws []) (nth l cs [])) /\
  snd st = p + draws szs k.

Lemma rows_len_S k : 1 <= k -> Nat.max (rows_len k) (S k) = rows_len (S k).
Proof.
  intros Hk. unfold rows_len.
  destruct (Nat.leb_spec k 1), (Nat.leb_spec (S k) 1); lia.
Qed.

Lemma initialize_layer_fresh k st :
  k < length szs -> fresh_upto k st ->
  exists st', initialize_layer szs false rand k st = Ok st' /\ fresh_upto (S k) st'.
Proof.
  destruct st as [n q].
  intros Hk (Hset & Hs & HL & (ds & es & os & Hd & He & Ho & Hld & Hle & Hlo & Hbuf) &
             (bs & ws & cs & Hb & Hw & Hc & Hlb & Hlw & Hlc & Hrows) & Hq).
  cbn [fst snd] in *.
  assert (Hbuf' : exists ds' es' os',
            Some (array_set [] ds k (zeros (nth k szs 0))) = Some ds' /\
            Some (array_set [] es k (zeros (nth k szs 0))) = Some es' /\
            Some (array_set [] os k (zeros (nth k szs 0))) = Some os' /\
            length ds' = S k /\ length es' = S k /\ length os' = S k /\
            forall l, l < S k ->
              nth l ds' [] = zeros (nth l szs 0) /\ nth l es' [] = zeros (nth l szs 0) /\
              nth l os' [] = zeros (nth l szs 0)).
  { eexists _, _, _. split; [reflexivity|]. split; [reflexivity|]. split; [reflexivity|].
    rewrite !array_set_length. split; [lia|]. split; [lia|]. split; [lia|].
    intros l Hl. destruct (Nat.eq_dec l k) as [->|Hne].
    - rewrite !nth_array_set_eq. repeat split.
    - rewrite !nth_array_set_other by exact Hne. apply Hbuf. lia. }
  unfold initialize_layer. rewrite Hd. cbn [deref bind errors set_deltas]. rewrite He.
  cbn [deref bind negb outputs set_errors set_deltas]. rewrite Ho. cbn [deref bind].
  destruct (Nat.ltb_spec 0 k) as [Hpos|Hzero].
  - cbn [biases weights changes set_outputs set_errors set_deltas set_biases set_weights].
    rewrite Hb.
    cbn [deref bind biases weights changes set_outputs set_errors set_deltas set_biases
         set_weights].
    rewrite Hw.
    cbn [deref bind biases weights changes set_outputs set_errors set_deltas set_biases
         set_weights].
    rewrite Hc. cbn [deref bind].
    match goal with
    | |- context [for_loop _ 0 _ (?n0, _)] =>
        destruct (@initialize_nodes_fresh _ _ szs rand k n0
                    (array_set [] ws k (repeat [] (nth k szs 0)))
                    (array_set [] cs k (repeat [] (nth k szs 0)))
                    (q + nth k szs 0) eq_refl eq_refl
                    (nth_error_array_set_eq _ _ _ _) (nth_error_array_set_eq _ _ _ _))
          as (wl & cl & Hrun & Hwl)
    end.
    rewrite Hrun. eexists. split; [reflexivity|].
    unfold fresh_upto.
    cbn [fst snd sizes outputLayer biases weights outputs deltas changes errors
         set_outputs set_errors set_deltas set_biases set_weights set_changes].
    split; [exact Hset|]. split; [exact Hs|]. split; [exact HL|].
    split; [exact Hbuf'|]. split.
    + eexists _, _, _. split; [reflexivity|]. split; [reflexivity|]. split; [reflexivity|].
      rewrite !array_set_twice, !array_set_length, Hlb, Hlw, Hlc.
      split; [apply rows_len_S; exact Hpos|]. split; [apply rows_len_S; exact Hpos|].
      split; [apply rows_len_S; exact Hpos|].
      intros l Hl. destruct (Nat.eq_dec l k) as [->|Hne].
      * rewrite !nth_array_set_eq. split; [apply length_randos | exact Hwl].
      * rewrite !nth_array_set_other by exact Hne. apply Hrows. lia.
    + rewrite Hq, draws_S by exact Hpos. lia.
  - destruct k as [|k']; [|lia]. eexists. split; [reflexivity|].
    unfold fresh_upto.
    cbn [fst snd sizes outputLayer biases weights outputs deltas changes errors
         set_outputs set_errors set_deltas].
    split; [exact Hset|]. split; [exact Hs|]. split; [exact HL|].
    split; [exact Hbuf'|]. split.
    + exists bs, ws, cs. split; [exact Hb|]. split; [exact Hw|]. split; [exact Hc|].
      split; [exact Hlb|]. split; [exact Hlw|]. split; [exact Hlc|]. intros l Hl. lia.
    + rewrite Hq. reflexivity.
Qed.

End InitializeLayers.

Section InitializeResult.
Context {num : Type} {N : JSNumber num}.

Lemma pointwise_zeros szs (a : list (list num)) :
  length a = length szs ->
  (forall l, l < length szs -> nth l a [] = zeros (nth l szs 0)) ->
  a = map zeros szs.
Proof.
  intros Hlen Hnth. apply (nth_ext a (map zeros szs) [] (zeros 0)).
  - rewrite length_map. exact Hlen.
  - intros l Hl. rewrite Hlen in Hl. rewrite (map_nth zeros szs 0 l). apply Hnth. exact Hl.
Qed.

Lemma nth_map_zeros szs l : nth l (map (zeros (N := N)) szs) [] = zeros (nth l szs 0).
Proof. exact (map_nth zeros szs 0 l). Qed.

Lemma buffers_shaped_zeros szs : buffers_shaped szs (map (zeros (N := N)) szs).
Proof.
  split; [apply length_map|].
  intros l Hl. rewrite nth_map_zeros, length_zeros. apply Nat.le_refl.
Qed.

Lemma initialize_fresh szs rand p (net : NeuralNetwork num) :
  2 <= length szs ->
  exists net' bs ws cs,
    initialize szs false rand p net = Ok (net', p + draws szs (length szs)) /\
    trainable szs bs ws (map zeros szs) (map zeros szs) cs (map zeros szs) net' /\
    (forall l j, 1 <= l < length szs -> j < nth l szs 0 ->
                 nth j (nth l cs []) [] = zeros (nth (l - 1) szs 0)) /\
    same_settings net net'.
Proof.
  intros Hlen. unfold initialize. cbn [negb].
  match goal with
  | |- context [for_loop _ 0 _ (?n0, p)] =>
      destruct (@for_loop_inv _ (fresh_upto szs p net) (length szs) 0
                  (initialize_layer szs false rand) (n0, p))
        as ([net' q] & Hrun & Hfinal)
  end.
  - unfold fresh_upto.
    cbn [fst snd sizes outputLayer biases weights outputs deltas changes errors
         set_sizes set_outputLayer set_outputs set_errors set_deltas set_biases set_weights
         set_changes].
    split; [repeat split|]. split; [reflexivity|]. split; [reflexivity|]. split; [|split].
    + exists [], [], []. repeat (split; [reflexivity|]). intros l Hl. lia.
    + exists [], [], []. repeat (split; [reflexivity|]). intros l Hl. lia.
    + unfold draws. cbn. lia.
  - intros k st Hk Hinv. apply initialize_layer_fresh; [lia | exact Hinv].
  - cbn [Nat.add] in Hfinal.
    destruct Hfinal as (Hset & Hs & HL & (ds & es & os & Hd & He & Ho & Hld & Hle & Hlo & Hbuf) &
                        (bs & ws & cs & Hb & Hw & Hc & Hlb & Hlw & Hlc & Hrows) & Hq).
    cbn [fst snd] in *. subst q.
    assert (Hrl : rows_len (length szs) = length szs).
    { unfold rows_len. destruct (Nat.leb_spec (length szs) 1); [lia | reflexivity]. }
    rewrite Hrl in *.
    assert (Hdz : ds = map zeros szs).
    { apply pointwise_zeros; [exact Hld|]. intros l Hl. apply Hbuf. exact Hl. }
    assert (Hez : es = map zeros szs).
    { apply pointwise_zeros; [exact Hle|]. intros l Hl. apply Hbuf. exact Hl. }
    assert (Hoz : os = map zeros szs).
    { apply pointwise_zeros; [exact Hlo|]. intros l Hl. apply Hbuf. exact Hl. }
    subst ds es os.
    exists net', bs, ws, cs. split; [exact Hrun|]. split; [|split; [|exact Hset]].
    + unfold trainable, initialized, parameters_shaped, changes_shaped.
      repeat match goal with |- _ /\ _ => split end;
        try assumption; try apply buffers_shaped_zeros.
      * intros l Hl. destruct (Hrows l Hl) as (H1 & H2 & H3 & H4).
        split; [exact H1|]. split; [exact H2|]. intros j Hj. apply H4. exact Hj.
      * intros l Hl. destruct (Hrows l Hl) as (H1 & H2 & H3 & H4).
        split; [exact H3|]. intros j Hj. destruct (H4 j Hj) as (_ & ->). apply length_zeros.
    + intros l j Hl Hj. destruct (Hrows l Hl) as (_ & _ & _ & H4). apply H4. exact Hj.
Qed.

(** X8: [initialize(sizes)] without [keepNetworkIntact], on any network and
    whatever it held: with at least two layer sizes it returns a network ready
    for training, with biases and weights sized by [sizes], zeroed outputs,
    deltas, errors and changes, and the settings of the constructor
    untouched; it draws one random number per bias and per weight. *)
Theorem initialize_builds_trainable_network szs rand p (net : NeuralNetwork num) :
  2 <= length szs ->
  exists net' bs ws cs,
    initialize szs false rand p net = Ok (net', p + draws szs (length szs)) /\
    trainable szs bs ws (map zeros szs) (map zeros szs) cs (map zeros szs) net' /\
    (forall l j, 1 <= l < length szs -> j < nth l szs 0 ->
                 nth j (nth l cs []) [] = zeros (nth (l - 1) szs 0)) /\
    same_settings net net'.
Proof. apply initialize_fresh. Qed.

End InitializeResult.

Lemma initialize_builds_trainable_network_witness :
  exists net' bs ws cs,
    initialize (N := Samples.N0) [2; 2; 1] false Samples.rand0 0 Samples.fresh
    = Ok (net', 0 + draws [2; 2; 1] (length [2; 2; 1])) /\
    trainable [2; 2; 1] bs ws (map zeros [2; 2; 1]) (map zeros [2; 2; 1]) cs
      (map zeros [2; 2; 1]) net' /\
    (forall l j, 1 <= l < length [2; 2; 1] -> j < nth l [2; 2; 1] 0 ->
                 nth j (nth l cs []) [] = zeros (nth (l - 1) [2; 2; 1] 0)) /\
    same_settings Samples.fresh net'.
Proof.
  apply (@initialize_builds_trainable_network _ Samples.N0 [2; 2; 1] Samples.rand0 0
           Samples.fresh).
  simpl. lia.
Defined.

(* ================================================================== *)
(** ** Training keeps the network ready for training *)

Section TrainingInvariant.
Context {num : Type} {N : JSNumber num}.

(** A network ready for training on the topology [szs]. *)
Definition ready (szs : list nat) (net : NeuralNetwork num) : Prop :=
  exists bs ws os ds cs es, trainable szs bs ws os ds cs es net.

(** The update of [adjustWeights] keeps the shape of the parameters and of
    the momentum store. *)
Lemma update_keeps_shapes szs bs ws os ds cs (lr mom : num) :
  2 <= length szs -> parameters_shaped szs bs ws -> changes_shaped szs cs ->
  (forall l, l < length szs -> length (nth l os []) = nth l szs 0) ->
  parameters_shaped szs
    (patched bs 1 (length szs - 1) (new_biases lr szs ds bs))
    (patched ws 1 (length szs - 1) (new_weights lr mom szs os ds cs ws)) /\
  changes_shaped szs (patched cs 1 (length szs - 1) (new_changes lr mom szs os ds cs)).
Proof.
  intros Hlen (Hlb & Hlw & Hrw) (Hlc & Hrc) Hos.
  split.
  - split; [|split].
    + rewrite length_patched_same; lia.
    + rewrite length_patched_same; lia.
    + intros l Hl. destruct (Hrw l Hl) as (Hb1 & Hw1 & Hw2).
      rewrite !nth_patched_in by lia.
      unfold new_biases, biases_layer, new_weights, weights_layer.
      split; [rewrite length_patched by lia; lia|].
      split; [rewrite length_patched by lia; lia|].
      intros j Hj. rewrite nth_patched_in by lia. unfold weights_row.
      rewrite length_patched by lia. rewrite (Hw2 j Hj), Hos by lia. lia.
  - split.
    + rewrite length_patched_same; lia.
    + intros l Hl. destruct (Hrc l Hl) as (Hc1 & Hc2).
      rewrite !nth_patched_in by lia. unfold new_changes, changes_layer.
      split; [rewrite length_patched by lia; lia|].
      intros j Hj. rewrite nth_patched_in by lia. unfold changes_row.
      rewrite length_patched by lia. rewrite (Hc2 j Hj), Hos by lia. lia.
Qed.

Lemma trainPattern_ready szs (net : NeuralNetwork num) inp target lr :
  ready szs net -> length inp = nth 0 szs 0 ->
  exists net' e,
    trainPattern inp target lr net = Ok (net', e) /\
    ready szs net' /\ same_settings net net'.
Proof.
  intros (bs & ws & os & ds & cs & es & Htr) Hinp.
  pose proof (trainable_step_ready Htr) as Hready.
  pose proof (trainable_outputLayer Htr) as HL.
  destruct Htr as (Hinit & Hd & Hc & He & (Hld & Hrd) & (Hle & Hre) & Hcs).
  pose proof Hinit as (Hlen & Hs & HLz & Hb & Hw & Ho & Hpar & (Hlo & Hro)).
  set (L := length szs - 1) in *.
  rewrite (@trainPattern_exact _ _ net szs L ws bs os ds cs es inp target lr
             Hs HL Hw Hb Ho Hd Hc He Hready).
  set (os1 := patched os 0 (S L) (activations szs bs ws os inp)).
  set (es1 := patched es 0 (S L) (errors_of szs ws os1 es ds target L)).
  set (ds1 := patched ds 0 (S L) (deltas_of szs ws os1 es ds target L)).
  assert (Hos1 : forall l, l < length szs -> length (nth l os1 []) = nth l szs 0).
  { intros l Hl. unfold os1. rewrite nth_patched_in by lia.
    destruct l as [|l']; [exact Hinp|].
    apply length_activations; [split; assumption | lia]. }
  assert (Hds1 : forall l, l < length szs -> length (nth l ds1 []) = nth l szs 0).
  { intros l Hl. unfold ds1. rewrite nth_patched_in by lia.
    destruct (@deltas_of_shape _ _ szs ws os1 es ds target L l ltac:(lia)) as [f ->].
    rewrite length_patched by lia. specialize (Hrd l Hl). lia. }
  assert (Hes1 : forall l, l < length szs -> length (nth l es1 []) = nth l szs 0).
  { intros l Hl. unfold es1. rewrite nth_patched_in by lia.
    destruct (@errors_of_shape _ _ szs ws os1 es ds target L l ltac:(lia)) as [f ->].
    rewrite length_patched by lia. specialize (Hre l Hl). lia. }
  assert (Hbo1 : buffers_shaped szs os1).
  { split; [unfold os1; rewrite length_patched_same; lia|].
    intros l Hl. rewrite Hos1 by exact Hl. apply Nat.le_refl. }
  assert (Hbd1 : buffers_shaped szs ds1).
  { split; [unfold ds1; rewrite length_patched_same; lia|].
    intros l Hl. rewrite Hds1 by exact Hl. apply Nat.le_refl. }
  assert (Hbe1 : buffers_shaped szs es1).
  { split; [unfold es1; rewrite length_patched_same; lia|].
    intros l Hl. rewrite Hes1 by exact Hl. apply Nat.le_refl. }
  destruct (@update_keeps_shapes szs bs ws os1 ds1 cs (or_default lr (learningRate net))
              (momentum net) Hlen Hpar Hcs Hos1) as (Hpar' & Hcs').
  fold L in Hpar', Hcs'.
  eexists _, _. split; [reflexivity|]. split; [|repeat split].
  eexists _, _, _, _, _, _.
  unfold trainable, initialized.
  cbn [sizes outputLayer biases weights outputs deltas changes errors
       set_biases set_weights set_changes set_deltas set_errors set_outputs].
  repeat match goal with |- _ /\ _ => split end;
    try reflexivity; try assumption; try exact Hpar'; try exact Hcs'.
Qed.

(** X9: One training step on an input of width [sizes[0]] returns, whatever the
    target and the learning rate, and leaves the network ready for the next
    step, with its topology and its settings unchanged. *)
Theorem trainPattern_keeps_network_ready szs (net : NeuralNetwork num) inp target lr :
  ready szs net -> length inp = nth 0 szs 0 ->
  exists net' e,
    trainPattern inp target lr net = Ok (net', e) /\
    ready szs net' /\ same_settings net net'.
Proof. apply trainPattern_ready. Qed.

Lemma same_settings_refl (n : NeuralNetwork num) : same_settings n n.
Proof. repeat split. Qed.

Lemma same_settings_trans (n n' n'' : NeuralNetwork num) :
  same_settings n n' -> same_settings n' n'' -> same_settings n n''.
Proof.
  intros (H1 & H2 & H3 & H4 & H5 & H6) (G1 & G2 & G3 & G4 & G5 & G6).
  repeat split; congruence.
Qed.

Lemma train_examples_ready szs (data : list (example num)) lr :
  Forall (fun d => length (input d) = nth 0 szs 0) data ->
  forall (net : NeuralNetwork num) sum,
    ready szs net ->
    exists net' sum',
      train_examples data lr (net, sum) = Ok (net', sum') /\
      ready szs net' /\ same_settings net net'.
Proof.
  induction 1 as [|d data Hd Hdata IH]; intros net sum Hready; cbn [train_examples].
  - exists net, sum. split; [reflexivity|]. split; [exact Hready | apply same_settings_refl].
  - destruct (@trainPattern_ready szs net (input d) (output d) (Some lr) Hready Hd)
      as (net1 & e & -> & Hready1 & Hset1).
    cbn [bind]. destruct (IH net1 (add sum e) Hready1) as (net' & sum' & Hrun & Hready' & Hset').
    exists net', sum'. split; [exact Hrun|]. split; [exact Hready'|].
    exact (same_settings_trans Hset1 Hset').
Qed.

Lemma epoch_error_ready szs (data : list (example num)) lr (net : NeuralNetwork num) :
  Forall (fun d => length (input d) = nth 0 szs 0) data ->
  ready szs net ->
  exists net' e, epoch_error data lr net = Ok (net', e) /\ ready szs net' /\ same_settings net net'.
Proof.
  intros Hdata Hready. rewrite epoch_error_examples.
  destruct (@train_examples_ready szs data lr Hdata net (of_Z 0) Hready)
    as (net1 & sum & -> & Hready1 & Hset1).
  cbn [bind]. eexists _, _. split; [reflexivity|]. split; assumption.
Qed.

Lemma mean_errors_ready szs (data : list (example num)) lr k :
  Forall (fun d => length (input d) = nth 0 szs 0) data ->
  forall (net net' : NeuralNetwork num) history,
    ready szs net ->
    mean_errors k data lr net = Ok (net', history) ->
    ready szs net' /\ same_settings net net'.
Proof.
  intros Hdata. induction k as [|k IH]; intros net net' history Hready Hrun;
    cbn [mean_errors] in Hrun.
  - injection Hrun as <- _. split; [exact Hready | apply same_settings_refl].
  - destruct (@epoch_error_ready szs data lr net Hdata Hready)
      as (net1 & e & E & Hready1 & Hset1).
    rewrite E in Hrun. cbn [bind] in Hrun.
    destruct (mean_errors k data lr net1) as [[net2 h]|] eqn:E2; cbn [bind] in Hrun;
      [|discriminate Hrun].
    injection Hrun as <- _.
    destruct (IH net1 net2 h Hready1 E2) as (Hready2 & Hset2).
    split; [exact Hready2 | exact (same_settings_trans Hset1 Hset2)].
Qed.

End TrainingInvariant.

Section TrainResult.
Context {num : Type} {N : JSNumber num}.

Lemma length_train_sizes (net : NeuralNetwork num) i o : 2 <= length (train_sizes net i o).
Proof. unfold train_sizes. cbn [length]. rewrite length_app. cbn [length]. lia. Qed.

Lemma nth_last_snoc (x : nat) (l : list nat) (o : nat) :
  nth (length (x :: l ++ [o]) - 1) (x :: l ++ [o]) 0 = o.
Proof.
  cbn [length]. rewrite length_app. cbn [length].
  replace (S (length l + 1) - 1) with (S (length l)) by lia.
  cbn [nth]. rewrite app_nth2 by lia. rewrite Nat.sub_diag. reflexivity.
Qed.

Lemma train_sizes_last (net : NeuralNetwork num) i o :
  nth (length (train_sizes net i o) - 1) (train_sizes net i o) 0 = o.
Proof. unfold train_sizes. apply nth_last_snoc. Qed.

Lemma train_sizes_same_settings (net net' : NeuralNetwork num) i o :
  same_settings net net' -> train_sizes net' i o = train_sizes net i o.
Proof. intros (_ & _ & H & _). unfold train_sizes. rewrite H. reflexivity. Qed.

Lemma ready_runInput szs (net : NeuralNetwork num) inp :
  ready szs net ->
  exists net' out,
    runInput inp net = Ok (net', Some out) /\ length out = nth (length szs - 1) szs 0.
Proof.
  intros (bs & ws & os & ds & cs & es & (Hinit & _)).
  pose proof Hinit as (Hlen & _ & _ & _ & _ & _ & _ & Hbuf). pose proof Hbuf as (Hlo & _).
  eexists _, _. split; [apply (runInput_initialized inp Hinit)|].
  rewrite forward_layer by lia. apply length_activations; [exact Hbuf | lia].
Qed.

(** Every epoch keeps a network ready, with its settings. *)
Lemma epoch_keeps_ready szs (data : list (example num)) lr (net : NeuralNetwork num) :
  Forall (fun d => length (input d) = nth 0 szs 0) data ->
  forall n, ready szs n /\ same_settings net n ->
    exists n' e, epoch_error data lr n = Ok (n', e) /\ ready szs n' /\ same_settings net n'.
Proof.
  intros Hdata n [Hr Hs].
  destruct (@epoch_error_ready _ _ szs data lr n Hdata Hr) as (n' & e & E & Hr' & Hs').
  exists n', e. split; [exact E|]. split; [exact Hr' | exact (same_settings_trans Hs Hs')].
Qed.

(** [train] once [initialize] has left a ready network: it throws nothing, and
    what it returns is ready. *)
Lemma train_on_ready fuel data options rand p (net net0 : NeuralNetwork num) p0 d0 rest :
  let szs := train_sizes net (length (input d0)) (length (output d0)) in
  formatData data = d0 :: rest ->
  Forall (fun d => length (input d) = length (input d0)) rest ->
  initialize szs (o_keepNetworkIntact options) rand p net = Ok (net0, p0) ->
  ready szs net0 -> same_settings net net0 ->
  match train fuel data options rand p net with
  | None => True
  | Some TypeError => False
  | Some (Ok (net', p', _, _)) => p' = p0 /\ ready szs net' /\ same_settings net net'
  end.
Proof.
  intros szs Hdata Hwidth Hinit Hready Hset.
  assert (Hall : Forall (fun d => length (input d) = nth 0 szs 0) (formatData data)).
  { rewrite Hdata. constructor; [reflexivity | exact Hwidth]. }
  unfold train. unfold elem. rewrite Hdata. cbn [nth_error deref].
  rewrite <- Hdata. fold szs. rewrite Hinit.
  match goal with
  | |- context [train_epochs fuel ?i ?d ?it ?th ?lr ?lg ?lp ?cb ?cp ?e net0 ?tr] =>
      pose proof (@train_epochs_safe _ _ (fun n => ready szs n /\ same_settings net n)
                    d it th lr lg lp cb cp (@epoch_keeps_ready szs d lr net Hall)
                    fuel i e net0 tr (conj Hready Hset)) as Hsafe;
      destruct (train_epochs fuel i d it th lr lg lp cb cp e net0 tr)
        as [[[[net' trace] res]|]|]
  end; cbn [bind]; try exact I; try exact Hsafe.
  destruct Hsafe as [Hr Hs]. split; [reflexivity|]. split; assumption.
Qed.

(** ... and it returns once the counter is no longer below [iterations]. *)
Lemma train_on_ready_ends K data options rand p (net net0 : NeuralNetwork num) p0 d0 rest :
  let szs := train_sizes net (length (input d0)) (length (output d0)) in
  formatData data = d0 :: rest ->
  Forall (fun d => length (input d) = length (input d0)) rest ->
  initialize szs (o_keepNetworkIntact options) rand p net = Ok (net0, p0) ->
  ready szs net0 -> same_settings net net0 ->
  ltb (counter K) (or_default (o_iterations options) (of_Z 20000)) = false ->
  exists net' p' trace res, train K data options rand p net = Some (Ok (net', p', trace, res)).
Proof.
  intros szs Hdata Hwidth Hinit Hready Hset HK.
  assert (Hall : Forall (fun d => length (input d) = nth 0 szs 0) (formatData data)).
  { rewrite Hdata. constructor; [reflexivity | exact Hwidth]. }
  unfold train. unfold elem. rewrite Hdata. cbn [nth_error deref].
  rewrite <- Hdata. fold szs. rewrite Hinit.
  change (of_Z 0) with (counter 0).
  match goal with
  | |- context [train_epochs K (counter 0) ?d ?it ?th ?lr ?lg ?lp ?cb ?cp ?e net0 ?tr] =>
      destruct (@train_epochs_ends _ _ (fun n => ready szs n /\ same_settings net n)
                  d it th lr lg lp cb cp (@epoch_keeps_ready szs d lr net Hall)
                  K 0 e net0 tr (conj Hready Hset) HK) as ([[net' trace] res] & ->)
  end.
  cbn [bind]. exists net', p0, trace, res. reflexivity.
Qed.

(** X10: [train] without [keepNetworkIntact], on a dataset whose inputs all have
    the width of the first: it throws nothing, and it returns once its loop
    counter is no longer below [iterations]; the network it returns is ready
    for more training on the topology derived from the first example, with
    the settings of the constructor untouched, and its forward pass returns,
    on every input, as many numbers as the first example has outputs. *)
Theorem train_leaves_network_ready data options rand p (net : NeuralNetwork num) d0 rest :
  formatData data = d0 :: rest ->
  o_keepNetworkIntact options = false ->
  Forall (fun d => length (input d) = length (input d0)) rest ->
  (forall fuel,
     match train fuel data options rand p net with
     | None => True
     | Some TypeError => False
     | Some (Ok (net', _, _, _)) =>
         ready (train_sizes net (length (input d0)) (length (output d0))) net' /\
         same_settings net net' /\
         forall inp, exists net'' out,
           runInput inp net' = Ok (net'', Some out) /\ length out = length (output d0)
     end) /\
  (forall K,
     ltb (counter K) (or_default (o_iterations options) (of_Z 20000)) = false ->
     exists net' p' trace res,
       train K data options rand p net = Some (Ok (net', p', trace, res))).
Proof.
  intros Hdata Hkeep Hwidth.
  set (szs := train_sizes net (length (input d0)) (length (output d0))).
  pose proof (length_train_sizes net (length (input d0)) (length (output d0))) as Hlen.
  fold szs in Hlen.
  destruct (@initialize_fresh _ _ szs rand p net Hlen)
    as (net0 & bs & ws & cs & Hinit & Htr & _ & Hset0).
  assert (Hready0 : ready szs net0) by (do 6 eexists; exact Htr).
  rewrite <- Hkeep in Hinit.
  split.
  - intros fuel.
    pose proof (@train_on_ready fuel data options rand p net net0 _ d0 rest
                  Hdata Hwidth Hinit Hready0 Hset0) as H.
    destruct (train fuel data options rand p net) as [[[[[net' p'] trace] res]|]|];
      try exact H.
    destruct H as (_ & Hready & Hset). fold szs in Hready.
    split; [exact Hready|]. split; [exact Hset|].
    intros inp. destruct (@ready_runInput szs net' inp Hready) as (net'' & out & Hout & Hw).
    exists net'', out. split; [exact Hout|]. rewrite Hw. apply train_sizes_last.
  - intros K HK.
    exact (@train_on_ready_ends K data options rand p net net0 _ d0 rest
             Hdata Hwidth Hinit Hready0 Hset0 HK).
Qed.

(** X11: When the initial error 1 is not above the threshold, [train] runs no
    epoch and calls neither the log nor the callback, whatever [iterations]
    is: it returns the error 1 and 0 iterations, and the network is the one
    that [initialize] has just drawn at random. *)
Theorem train_runs_no_epoch fuel data options rand p (net : NeuralNetwork num) d0 rest :
  formatData data = d0 :: rest ->
  o_keepNetworkIntact options = false ->
  gtb (of_Z 1) (or_default (o_errorThresh options) (dec 5 3)) = false ->
  let szs := train_sizes net (length (input d0)) (length (output d0)) in
  exists net0 p',
    initialize szs false rand p net = Ok (net0, p') /\
    train fuel data options rand p net
    = Some (Ok (net0, p', [], mkTrainResult (of_Z 1) (of_Z 0))).
Proof.
  intros Hdata Hkeep Hgt szs.
  pose proof (length_train_sizes net (length (input d0)) (length (output d0))) as Hlen.
  fold szs in Hlen.
  destruct (@initialize_fresh _ _ szs rand p net Hlen) as (net0 & bs & ws & cs & Hinit & _).
  exists net0. eexists. split; [exact Hinit|].
  unfold train. unfold elem. rewrite Hdata. cbn [nth_error deref].
  rewrite <- Hdata. fold szs. rewrite Hkeep, Hinit.
  rewrite train_epochs_eq, Hgt, andb_false_r. reflexivity.
Qed.

End TrainResult.

(* ================================================================== *)
(** ** The calls that [train] makes to the log and to the callback *)

Section TrainCalls.
Import IEEE.
Variable rt : runtime.
Let N : JSNumber float := ieee rt.
Local Existing Instance N.

(** The calls after the epoch numbered [j] when the periods are the natural
    numbers [m] and [c]: the log when [j] is a multiple of [m], then the
    callback when [j] is a multiple of [c]. *)
Definition calls_at_multiples (log : option log_sink) (m : nat) (callback : bool) (c : nat)
    (j : nat) (error : float) : list (event float) :=
  (match log with
   | Some sink => if (j mod m =? 0)%nat then [Logged sink (float_of_Z (Z.of_nat j)) error] else []
   | None => []
   end) ++
  (if callback && (j mod c =? 0)%nat then [CalledBack error (float_of_Z (Z.of_nat j))] else []).

Lemma epoch_events_natural log m callback c j error :
  (Z.of_nat j < 2 ^ 53)%Z -> (0 < Z.of_nat m < 2 ^ 53)%Z -> (0 < Z.of_nat c < 2 ^ 53)%Z ->
  epoch_events log (of_Z (Z.of_nat m)) callback (of_Z (Z.of_nat c)) (counter j) error
  = calls_at_multiples log m callback c j error.
Proof.
  intros Hj Hm Hc. unfold epoch_events, calls_at_multiples.
  change (rem (counter j) (of_Z (Z.of_nat m)) ==? of_Z 0)%js
    with (PrimFloat.eqb (float_rem (counter j) (float_of_Z (Z.of_nat m))) (float_of_Z 0)).
  change (rem (counter j) (of_Z (Z.of_nat c)) ==? of_Z 0)%js
    with (PrimFloat.eqb (float_rem (counter j) (float_of_Z (Z.of_nat c))) (float_of_Z 0)).
  unfold N. rewrite !counter_rem_zero by assumption.
  rewrite (@counter_exact rt j Hj). reflexivity.
Qed.

Lemma flat_map_ext_seq {A} (f g : nat -> list A) n :
  (forall j, j < n -> f j = g j) -> flat_map f (seq 0 n) = flat_map g (seq 0 n).
Proof.
  intros H. rewrite !flat_map_concat_map. f_equal. apply map_ext_in.
  intros j Hj. apply in_seq in Hj. apply H. lia.
Qed.

(** X12: The calls of [train], in order, whenever it returns: after each epoch,
    numbered by the loop counter from 0, the log when the number modulo
    [logPeriod] is 0 and then the callback when the number modulo
    [callbackPeriod] is 0, both with the number of the epoch and with its
    mean error, the mean of the errors that the training steps of the epoch
    return, the epochs being run one after the other from the initialized
    network.  The object returned holds the number of epochs, as counted,
    and the mean error of the last one (1 when none ran).  When the periods
    are natural numbers (10 when the option is missing or 0) the calls are
    made at the multiples of the periods, with the number of the epoch. *)
Theorem train_calls_after_each_epoch fuel data options rand p (net net' : NeuralNetwork float)
    p' trace res :
  train fuel data options rand p net = Some (Ok (net', p', trace, res)) ->
  let lr := or_default (o_learningRate options) (or_default (Some (learningRate net)) (dec 3 1)) in
  let logPeriod := or_default (o_logPeriod options) (of_Z 10) in
  let callbackPeriod := or_default (o_callbackPeriod options) (of_Z 10) in
  exists d0 net0 history,
    nth_error (formatData data) 0 = Some d0 /\
    initialize (train_sizes net (length (input d0)) (length (output d0)))
      (o_keepNetworkIntact options) rand p net = Ok (net0, p') /\
    mean_errors (length history) (formatData data) lr net0 = Ok (net', history) /\
    tr_iterations res = counter (length history) /\
    tr_error res = last history one /\
    trace = flat_map
              (fun j => epoch_events (o_log options) logPeriod (o_callback options)
                          callbackPeriod (counter j) (nth j history nan))
              (seq 0 (length history)) /\
    (forall m c,
       (0 < Z.of_nat m < 2 ^ 53)%Z -> (0 < Z.of_nat c < 2 ^ 53)%Z ->
       (Z.of_nat (length history) < 2 ^ 53)%Z ->
       logPeriod = of_Z (Z.of_nat m) -> callbackPeriod = of_Z (Z.of_nat c) ->
       tr_iterations res = of_Z (Z.of_nat (length history)) /\
       trace = flat_map
                 (fun j => calls_at_multiples (o_log options) m (o_callback options) c j
                             (nth j history nan))
                 (seq 0 (length history))).
Proof.
  intros H lr logPeriod callbackPeriod. apply train_returned in H.
  destruct H as (d0 & net0 & history & Hd & Hinit & _ & Hmean & Hres & _ & _ & Htrace).
  exists d0, net0, history.
  split; [exact Hd|]. split; [exact Hinit|]. split; [exact Hmean|].
  rewrite Hres. split; [reflexivity|]. split; [reflexivity|]. split; [exact Htrace|].
  intros m c Hm Hc Hn Em Ec. cbn [tr_iterations]. split; [apply counter_exact; exact Hn|].
  rewrite Htrace. unfold epoch_calls. fold logPeriod callbackPeriod. rewrite Em, Ec.
  apply flat_map_ext_seq. intros j Hj. cbn [Nat.add].
  apply epoch_events_natural; [lia | exact Hm | exact Hc].
Qed.

End TrainCalls.

(* ================================================================== *)
(** ** The counts that [test] reports for a single output node *)

Section BinaryCounts.
Import IEEE.
Variable rt : runtime.
Let N : JSNumber float := ieee rt.
Local Existing Instance N.

(** The four counters add up to [n], and the misclassified examples are the
    false negatives and the false positives. *)
Definition counts_add_up (ts : test_state float) (n : nat) : Prop :=
  trueNeg ts + truePos ts + falseNeg ts + falsePos ts = n /\
  length (misclasses ts) = falseNeg ts + falsePos ts.

Lemma test_account_counts thresh (d : example float) out ts n :
  nth 0 (output d) nan = 0%float \/ nth 0 (output d) nan = 1%float ->
  counts_add_up ts n -> counts_add_up (test_account true thresh d out ts) (S n).
Proof.
  intros Htarget (Hsum & Hmis).
  unfold test_account, classify, count_binary, num_at.
  cbn [gtb eqb of_Z NaN N ieee].
  replace (float_of_Z 1) with 1%float by reflexivity.
  replace (float_of_Z 0) with 0%float by reflexivity.
  destruct (PrimFloat.ltb thresh (nth 0 out nan)); destruct Htarget as [-> | ->];
    cbn; unfold counts_add_up; cbn; rewrite ?length_app; cbn [length]; lia.
Qed.

Lemma fold_test_account_counts thresh (f : example float -> list float)
    (data : list (example float)) :
  Forall (fun d => nth 0 (output d) nan = 0%float \/ nth 0 (output d) nan = 1%float) data ->
  forall ts n,
    counts_add_up ts n ->
    counts_add_up (fold_left (fun ts d => test_account true thresh d (f d) ts) data ts)
      (n + length data).
Proof.
  induction 1 as [|d data Hd Hdata IH]; intros ts n Hts; cbn [fold_left length].
  - rewrite Nat.add_0_r. exact Hts.
  - replace (n + S (length data)) with (S n + length data) by lia.
    apply IH. apply test_account_counts; assumption.
Qed.

(** X13: On a dataset of single targets that are 0 or 1, every example is counted
    once, as a true or false positive or negative: the four counts add up to
    [total], the number of examples, and the examples reported in
    [misclasses] are as many as the false negatives and false positives. *)
Theorem test_binary_counts_add_up szs bs ws os (net : NeuralNetwork float) d0 rest :
  initialized szs bs ws os net ->
  length (output d0) = 1 ->
  Forall (fun d => length (input d) = nth 0 szs 0) (d0 :: rest) ->
  Forall (fun d => nth 0 (output d) nan = 0%float \/ nth 0 (output d) nan = 1%float)
    (d0 :: rest) ->
  exists net' stats b,
    test (Many (d0 :: rest)) net = Ok (net', stats) /\
    s_binary stats = Some b /\
    s_total b = length (d0 :: rest) /\
    s_trueNeg b + s_truePos b + s_falseNeg b + s_falsePos b = s_total b /\
    length (s_misclasses stats) = s_falseNeg b + s_falsePos b.
Proof.
  intros Hinit Hone Hwidth Htargets.
  destruct (@test_examples_exact _ N szs bs ws true (d0 :: rest) os net
              (mkTestState 0 0 0 0 [] (of_Z 0)) Hinit Hwidth) as (net' & E).
  destruct (@fold_test_account_counts (binaryThresh net)
              (fun d => network_output szs bs ws (input d)) (d0 :: rest) Htargets
              (mkTestState 0 0 0 0 [] (of_Z 0)) 0 (conj eq_refl eq_refl)) as (Hsum & Hmis).
  unfold test. cbn [formatData elem nth_error deref bind]. rewrite Hone.
  cbn [Nat.eqb]. rewrite E. cbn [bind].
  eexists _, _, _. split; [reflexivity|]. split; [reflexivity|].
  cbn [s_total s_trueNeg s_truePos s_falseNeg s_falsePos s_misclasses].
  split; [reflexivity|]. split; [|exact Hmis].
  cbn [Nat.add] in Hsum. lia.
Qed.

End BinaryCounts.

(* ================================================================== *)
(** ** What the serialized form carries *)

Section SerializedForm.
Context {num : Type} {N : JSNumber num}.

(** The fields that [fromJSON] passes over: the settings of the constructor
    and the three arrays of the training state. *)
Definition not_loaded (n n' : NeuralNetwork num) : Prop :=
  learningRate n' = learningRate n /\ momentum n' = momentum n /\
  hiddenSizes n' = hiddenSizes n /\ binaryThresh n' = binaryThresh n /\
  deltas n' = deltas n /\ changes n' = changes n /\ errors n' = errors n.

Lemma not_loaded_refl (n : NeuralNetwork num) : not_loaded n n.
Proof. repeat split. Qed.

Lemma not_loaded_trans (n n' n'' : NeuralNetwork num) :
  not_loaded n n' -> not_loaded n' n'' -> not_loaded n n''.
Proof.
  intros (H1 & H2 & H3 & H4 & H5 & H6 & H7) (G1 & G2 & G3 & G4 & G5 & G6 & G7).
  repeat split; congruence.
Qed.

Lemma fromJSON_lookups_not_loaded json i layer (net : NeuralNetwork num) :
  not_loaded net (fromJSON_lookups json i layer net).
Proof.
  unfold fromJSON_lookups.
  repeat match goal with |- context [if ?c then _ else _] => destruct c end;
    repeat split.
Qed.

Lemma fromJSON_layer_not_loaded json i (net net' : NeuralNetwork num) :
  fromJSON_layer json i net = Ok net' -> not_loaded net net'.
Proof.
  unfold fromJSON_layer. intros H.
  destruct (elem (j_layers json) i) as [layer|]; cbn [bind] in H; [|discriminate H].
  pose proof (fromJSON_lookups_not_loaded json i layer net) as Hl.
  set (net1 := fromJSON_lookups json i layer net) in *.
  destruct (sizes net1) as [szs|]; cbn [deref bind] in H; [|discriminate H].
  destruct (fromJSON_nodes _ _ _ _) as [[bl wl]|]; cbn [bind] in H; [|discriminate H].
  cbn [weights set_sizes] in H.
  destruct (weights net1) as [ws|]; cbn [deref bind] in H; [|discriminate H].
  cbn [biases set_sizes set_weights] in H.
  destruct (biases net1) as [bs|]; cbn [deref bind] in H; [|discriminate H].
  cbn [outputs set_sizes set_weights set_biases] in H.
  destruct (outputs net1) as [os|]; cbn [deref bind] in H; [|discriminate H].
  injection H as <-. apply (not_loaded_trans Hl). repeat split.
Qed.

Lemma fromJSON_not_loaded json (net net' : NeuralNetwork num) :
  fromJSON json net = Ok net' -> not_loaded net net'.
Proof.
  unfold fromJSON. intros H.
  apply (@for_loop_post _ (fun (_ : nat) (n : NeuralNetwork num) => not_loaded net n)
           _ _ _ _ _) in H.
  - exact H.
  - repeat split.
  - intros i n n1 _ Hinv Hstep.
    exact (not_loaded_trans Hinv (fromJSON_layer_not_loaded _ _ _ Hstep)).
Qed.

End SerializedForm.

Section RoundTripParameters.
Context {num : Type} {N : JSNumber num}.

Lemma round_trip_parameters szs bs ws os (net receiver : NeuralNetwork num) :
  initialized szs bs ws os net ->
  input_lookup_ok (inputLookup net) (nth 0 szs 0) ->
  output_lookup_ok (outputLookup net) (nth (length szs - 1) szs 0) ->
  exists json net2 bs2 ws2,
    toJSON net = Ok json /\
    length (j_layers json) = length szs /\
    (forall l, l < length szs -> length (nth l (j_layers json) []) = nth l szs 0) /\
    fromJSON json receiver = Ok net2 /\
    sizes net2 = Some szs /\ outputLayer net2 = outputLayer net /\
    biases net2 = Some bs2 /\ weights net2 = Some ws2 /\
    outputs net2 = Some (repeat [] (length szs)) /\
    length bs2 = length szs /\ length ws2 = length szs /\
    forall l, 1 <= l < length szs ->
              nth l bs2 [] = nth l bs [] /\ nth l ws2 [] = nth l ws [].
Proof.
  intros Hinit Hin Hout.
  pose proof Hinit as (Hlen & Hs & HL & Hb & Hw & Ho & Hpar & Hbuf).
  pose proof Hpar as (Hlb & Hlw & Hrows).
  pose proof (@toJSON_exact _ _ net szs bs ws Hlen Hs HL Hb Hw Hpar Hin Hout) as Hjson.
  set (keys := layer_keys net szs) in *.
  set (rec := node_json_of net szs bs ws) in *.
  assert (Hord : forall l, js_ordered (keys l)).
  { intros l. apply layer_keys_ordered; assumption. }
  destruct (@fromJSON_exact _ _ keys rec Hord (length szs)
              (match outputLookup net with Some _ => true | None => false end)
              (match inputLookup net with Some _ => true | None => false end) receiver)
    as (net2 & Hfrom & Hs2 & HL2 & Hw2 & Hb2 & Ho2).
  assert (Hklen : forall l, l < length szs -> length (keys l) = nth l szs 0).
  { intros l Hl. apply length_layer_keys; assumption. }
  assert (Hszs : map (fun l => length (keys l)) (seq 0 (length szs)) = szs).
  { transitivity (map (fun l => nth l szs 0) (seq 0 (length szs))); [|apply map_nth_seq].
    apply map_ext_in. intros l Hl. apply in_seq in Hl. apply Hklen. lia. }
  rewrite Hszs in Hs2.
  eexists _, net2, _, _.
  split; [exact Hjson|]. cbn [j_layers].
  split; [rewrite length_map, length_seq; reflexivity|].
  split.
  { intros l Hl. rewrite nth_map_seq by exact Hl. unfold layer_json, build.
    rewrite length_build_from. apply Hklen. exact Hl. }
  split; [exact Hfrom|]. split; [exact Hs2|]. split; [rewrite HL2, HL; reflexivity|].
  split; [exact Hb2|]. split; [exact Hw2|]. split; [exact Ho2|].
  split; [rewrite length_map, length_seq; reflexivity|].
  split; [rewrite length_map, length_seq; reflexivity|].
  intros l Hl. rewrite !nth_map_seq by lia.
  destruct (Hrows l Hl) as (Hbl & Hwl & Hrow).
  unfold read_biases, read_weights. rewrite Hklen by lia. split.
  - transitivity (map (fun j => nth j (nth l bs []) NaN) (seq 0 (length (nth l bs []))));
      [|apply map_nth_seq].
    rewrite Hbl. apply map_ext_in. intros j Hj. apply in_seq in Hj.
    unfold read_bias, rec. rewrite node_json_of_positive by lia. reflexivity.
  - transitivity (map (fun j => nth j (nth l ws []) []) (seq 0 (length (nth l ws []))));
      [|apply map_nth_seq].
    rewrite Hwl. apply map_ext_in. intros j Hj. apply in_seq in Hj.
    unfold rec. rewrite node_json_of_positive by lia. cbn [nj_weights toArray].
    unfold weights_json, build. rewrite values_build_from.
    fold keys. rewrite Hklen by lia.
    rewrite <- (Hrow j) by lia. apply map_nth_seq.
Qed.

(** X14: [fromJSON(toJSON(net))] restores the topology and, in every layer above
    the input, the very biases and weights of [net]; the buffers of
    [outputs] are empty.  The settings of the constructor ([learningRate],
    [momentum], [hiddenLayers], [binaryThresh]) and the training state are
    not part of the serialized form: they stay those of the network that
    reads it. *)
Theorem fromJSON_toJSON_restores_parameters_only szs bs ws os
    (net receiver : NeuralNetwork num) :
  initialized szs bs ws os net ->
  input_lookup_ok (inputLookup net) (nth 0 szs 0) ->
  output_lookup_ok (outputLookup net) (nth (length szs - 1) szs 0) ->
  exists json net2 bs2 ws2,
    toJSON net = Ok json /\ fromJSON json receiver = Ok net2 /\
    sizes net2 = Some szs /\ outputLayer net2 = outputLayer net /\
    biases net2 = Some bs2 /\ weights net2 = Some ws2 /\
    outputs net2 = Some (repeat [] (length szs)) /\
    (forall l, 1 <= l < length szs ->
               nth l bs2 [] = nth l bs [] /\ nth l ws2 [] = nth l ws []) /\
    learningRate net2 = learningRate receiver /\ momentum net2 = momentum receiver /\
    hiddenSizes net2 = hiddenSizes receiver /\ binaryThresh net2 = binaryThresh receiver /\
    deltas net2 = deltas receiver /\ changes net2 = changes receiver /\
    errors net2 = errors receiver.
Proof.
  intros Hinit Hin Hout.
  destruct (@round_trip_parameters szs bs ws os net receiver Hinit Hin Hout)
    as (json & net2 & bs2 & ws2 & Hto & _ & _ & Hfrom & Hs & HL & Hb & Hw & Ho & _ & _ & Hsame).
  exists json, net2, bs2, ws2.
  repeat (split; [assumption|]). exact (fromJSON_not_loaded _ _ Hfrom).
Qed.

End RoundTripParameters.

(* ================================================================== *)
(** ** A loaded network has no training state *)

Section LoadedNetwork.
Context {num : Type} {N : JSNumber num}.

Lemma for_down_S {St} n (body : nat -> St -> result St) s :
  for_down (S n) body s = bind (body n s) (for_down n body).
Proof. reflexivity. Qed.

Lemma for_loop_S {St} n lo (body : nat -> St -> result St) s :
  for_loop (S n) lo body s = bind (body lo s) (for_loop n (S lo) body).
Proof. reflexivity. Qed.

(** The backward pass on a network whose [errors] array is [null] throws at
    the first unit of the output layer. *)
Lemma calculateDeltas_without_errors szs os (net : NeuralNetwork num) target :
  2 <= length szs -> sizes net = Some szs ->
  outputLayer net = Some (Z.of_nat (length szs) - 1)%Z ->
  outputs net = Some os -> length os = length szs ->
  1 <= nth (length szs - 1) szs 0 -> errors net = None ->
  calculateDeltas target net = TypeError.
Proof.
  intros Hlen Hs HL Ho Hlo Hout He. unfold calculateDeltas. rewrite HL.
  replace (Z.to_nat (Z.of_nat (length szs) - 1 + 1)) with (S (length szs - 1)) by lia.
  rewrite for_down_S. unfold calculateDeltas_layer at 1, size_of_layer.
  rewrite Hs. cbn [deref bind].
  destruct (nth (length szs - 1) szs 0) as [|m] eqn:Em; [lia|].
  rewrite for_loop_S. unfold calculateDeltas_node at 1. rewrite Ho. cbn [deref bind].
  rewrite (elem_in os []) by lia. cbn [bind].
  unfold is_outputLayer. rewrite HL.
  replace (Z.of_nat (length szs - 1) =? Z.of_nat (length szs) - 1)%Z with true
    by (symmetry; apply Z.eqb_eq; lia).
  cbn [bind]. rewrite He. reflexivity.
Qed.

(** X15: [fromJSON] sets up no training state: after reading the serialized form
    of a network into a newly constructed one, a training step throws, on
    every input and target, as soon as the output layer has a unit. *)
Theorem trainPattern_after_fromJSON_throws szs bs ws os (net : NeuralNetwork num)
    (options : ctor_options num) inp target lr :
  initialized szs bs ws os net ->
  input_lookup_ok (inputLookup net) (nth 0 szs 0) ->
  output_lookup_ok (outputLookup net) (nth (length szs - 1) szs 0) ->
  1 <= nth (length szs - 1) szs 0 ->
  exists json net2,
    toJSON net = Ok json /\
    fromJSON json (new_NeuralNetwork options) = Ok net2 /\
    trainPattern inp target lr net2 = TypeError.
Proof.
  intros Hinit Hin Hout Hpos.
  destruct (@round_trip_parameters _ _ szs bs ws os net (new_NeuralNetwork options)
              Hinit Hin Hout)
    as (json & net2 & bs2 & ws2 & Hto & _ & _ & Hfrom & Hs & HL & Hb & Hw & Ho & Hlb & Hlw &
        Hsame).
  pose proof (fromJSON_not_loaded _ _ Hfrom) as (_ & _ & _ & _ & _ & _ & He).
  pose proof Hinit as (Hlen & _ & HLn & _ & _ & _ & (_ & _ & Hrows) & _).
  exists json, net2. split; [exact Hto|]. split; [exact Hfrom|].
  unfold trainPattern.
  rewrite (@runInput_exact _ _ net2 szs bs2 ws2 (repeat [] (length szs)) (length szs - 1) inp);
    try assumption; try (rewrite ?repeat_length; lia).
  - cbn [bind].
    match goal with
    | |- context [calculateDeltas target (set_outputs net2 (Some ?o))] =>
        rewrite (@calculateDeltas_without_errors szs o (set_outputs net2 (Some o)) target Hlen)
    end; try reflexivity; try assumption.
    + cbn [outputLayer set_outputs]. rewrite HL, HLn. reflexivity.
    + rewrite length_patched_same; rewrite repeat_length; lia.
  - rewrite HL, HLn. f_equal. lia.
  - intros l Hl. destruct (Hsame l ltac:(lia)) as (_ & ->).
    destruct (Hrows l ltac:(lia)) as (_ & -> & _). apply Nat.le_refl.
Qed.

End LoadedNetwork.

(* ================================================================== *)
(** ** Serializing a loaded network again *)

Section SerializeAgain.
Context {num : Type} {N : JSNumber num}.

Lemma layer_keys_plain (net : NeuralNetwork num) szs l :
  inputLookup net = None -> outputLookup net = None ->
  layer_keys net szs l = map KIdx (seq 0 (nth l szs 0)).
Proof.
  intros Hin Hout. unfold layer_keys. rewrite Hin, Hout.
  destruct l, (is_outputLayer net _); reflexivity.
Qed.

Lemma fromJSON_layer_no_lookups json i (net net' : NeuralNetwork num) :
  j_inputLookup json = false -> j_outputLookup json = false ->
  (forall layer, nth_error (j_layers json) i = Some layer -> obj_get layer (KIdx 0) <> None) ->
  inputLookup net = None /\ outputLookup net = None ->
  fromJSON_layer json i net = Ok net' ->
  inputLookup net' = None /\ outputLookup net' = None.
Proof.
  intros Hfi Hfo Hzero (Hin & Hout) H. unfold fromJSON_layer, elem in H.
  destruct (nth_error (j_layers json) i) as [layer|]; cbn [deref bind] in H; [|discriminate H].
  assert (Hsame : fromJSON_lookups json i layer net = net).
  { unfold fromJSON_lookups. rewrite Hfi, Hfo.
    destruct (obj_get layer (KIdx 0)) eqn:E; [|exfalso; exact (Hzero layer eq_refl E)].
    cbn [orb]. rewrite !Bool.andb_false_r. reflexivity. }
  rewrite Hsame in H.
  destruct (sizes net) as [szs|]; cbn [deref bind] in H; [|discriminate H].
  destruct (fromJSON_nodes _ _ _ _) as [[bl wl]|]; cbn [bind] in H; [|discriminate H].
  cbn [weights set_sizes] in H.
  destruct (weights net) as [ws|]; cbn [deref bind] in H; [|discriminate H].
  cbn [biases set_sizes set_weights] in H.
  destruct (biases net) as [bs|]; cbn [deref bind] in H; [|discriminate H].
  cbn [outputs set_sizes set_weights set_biases] in H.
  destruct (outputs net) as [os|]; cbn [deref bind] in H; [|discriminate H].
  injection H as <-. split; assumption.
Qed.

Lemma fromJSON_no_lookups json (receiver net2 : NeuralNetwork num) :
  j_inputLookup json = false -> j_outputLookup json = false ->
  (forall i layer, nth_error (j_layers json) i = Some layer ->
                   obj_get layer (KIdx 0) <> None) ->
  inputLookup receiver = None -> outputLookup receiver = None ->
  fromJSON json receiver = Ok net2 ->
  inputLookup net2 = None /\ outputLookup net2 = None.
Proof.
  intros Hfi Hfo Hzero Hin Hout H. unfold fromJSON in H.
  apply (@for_loop_post _
           (fun (_ : nat) (n : NeuralNetwork num) =>
              inputLookup n = None /\ outputLookup n = None) _ _ _ _ _) in H.
  - exact H.
  - split; assumption.
  - intros i n n1 _ Hinv Hstep.
    exact (@fromJSON_layer_no_lookups json i n n1 Hfi Hfo (Hzero i) Hinv Hstep).
Qed.

Lemma layer_json_plain (net net' : NeuralNetwork num) szs bs ws bs' ws' l :
  inputLookup net = None -> outputLookup net = None ->
  inputLookup net' = None -> outputLookup net' = None ->
  (1 <= l -> nth l bs' [] = nth l bs [] /\ nth l ws' [] = nth l ws []) ->
  layer_json net' szs bs' ws' l = layer_json net szs bs ws l.
Proof.
  intros Hin Hout Hin' Hout' Hsame.
  unfold layer_json. rewrite !layer_keys_plain by assumption.
  destruct l as [|l']; [reflexivity|].
  destruct (Hsame ltac:(lia)) as (Hb & Hw).
  unfold node_json_of, weights_json. rewrite Hb, Hw.
  rewrite !layer_keys_plain by assumption. reflexivity.
Qed.

(** X16: Without lookup tables and without empty layers, serializing the network
    that [fromJSON] built from a serialized form gives that form back:
    [toJSON(fromJSON(toJSON(net)))] is [toJSON(net)]. *)
Theorem toJSON_fromJSON_toJSON szs bs ws os (net receiver : NeuralNetwork num) :
  initialized szs bs ws os net ->
  inputLookup net = None -> outputLookup net = None ->
  inputLookup receiver = None -> outputLookup receiver = None ->
  Forall (fun s => 1 <= s) szs ->
  exists json net2,
    toJSON net = Ok json /\ fromJSON json receiver = Ok net2 /\ toJSON net2 = Ok json.
Proof.
  intros Hinit Hin Hout Hrin Hrout Hpos.
  pose proof Hinit as (Hlen & Hs & HL & Hb & Hw & Ho & Hpar & Hbuf).
  pose proof Hpar as (Hlb & Hlw & Hrows).
  assert (Hiok : input_lookup_ok (inputLookup net) (nth 0 szs 0)) by (rewrite Hin; exact I).
  assert (Hook : output_lookup_ok (outputLookup net) (nth (length szs - 1) szs 0))
    by (rewrite Hout; exact I).
  pose proof (@toJSON_exact _ _ net szs bs ws Hlen Hs HL Hb Hw Hpar Hiok Hook) as Hjson.
  rewrite Hin, Hout in Hjson.
  destruct (@round_trip_parameters _ _ szs bs ws os net receiver Hinit Hiok Hook)
    as (json & net2 & bs2 & ws2 & Hto & _ & _ & Hfrom & Hs2 & HL2 & Hb2 & Hw2 & Ho2 &
        Hlb2 & Hlw2 & Hsame).
  rewrite Hjson in Hto. injection Hto as <-.
  destruct (@fromJSON_no_lookups
              (mkNetworkJson (map (layer_json net szs bs ws) (seq 0 (length szs))) false false)
              receiver net2 eq_refl eq_refl) as (Hin2 & Hout2);
    try assumption.
  { intros i layer Hi. cbn [j_layers] in Hi.
    assert (Hi' : i < length (map (layer_json net szs bs ws) (seq 0 (length szs)))).
    { apply nth_error_Some. rewrite Hi. discriminate. }
    assert (Hil : i < length szs) by (rewrite length_map, length_seq in Hi'; exact Hi').
    assert (Hlay : Some layer
                   = Some (nth i (map (layer_json net szs bs ws) (seq 0 (length szs))) [])).
    { rewrite <- Hi. exact (nth_error_nth_in _ [] Hi'). }
    injection Hlay as ->. rewrite nth_map_seq by exact Hil.
    unfold layer_json, build. rewrite layer_keys_plain by assumption.
    assert (Hsz : 1 <= nth i szs 0).
    { rewrite Forall_forall in Hpos. apply Hpos, nth_In. exact Hil. }
    destruct (nth i szs 0) as [|m] eqn:Em; [lia|].
    rewrite (@obj_get_build_from _ 0 (map KIdx (seq 0 (S m))) _ 0 (KIdx 0)
               (js_ordered_indices 0 (S m)))
      by (rewrite length_map, length_seq; lia).
    discriminate. }
  exists (mkNetworkJson (map (layer_json net szs bs ws) (seq 0 (length szs))) false false), net2.
  split; [exact Hjson|]. split; [exact Hfrom|].
  assert (Hpar2 : parameters_shaped szs bs2 ws2).
  { split; [exact Hlb2|]. split; [exact Hlw2|].
    intros l Hl. destruct (Hsame l Hl) as (-> & ->). apply Hrows. exact Hl. }
  rewrite (@toJSON_exact _ _ net2 szs bs2 ws2 Hlen Hs2 ltac:(rewrite HL2; exact HL) Hb2 Hw2 Hpar2
             ltac:(rewrite Hin2; exact I) ltac:(rewrite Hout2; exact I)).
  rewrite Hin2, Hout2. do 2 f_equal.
  apply map_ext_in. intros l Hl. apply in_seq in Hl.
  apply layer_json_plain; try assumption. intros Hl1. apply Hsame. lia.
Qed.

End SerializeAgain.

(* ================================================================== *)
(** ** The layers of the serialized form *)

Section SerializedLayers.
Context {num : Type} {N : JSNumber num}.

(** X17: [toJSON] returns one object per layer.  The object of layer [l] has one
    record per unit, named by the keys of the lookup table of the layer, or
    by the indices [0 .. sizes[l]-1] when the layer has none, in that order.
    A record of layer 0 is empty; the record of unit [j] of a layer above
    holds [biases[l][j]] and the weights [weights[l][j][k]] keyed by the names
    of the previous layer.  The two flags tell whether the network has lookup
    tables. *)
Theorem toJSON_describes_network szs bs ws os (net : NeuralNetwork num) :
  initialized szs bs ws os net ->
  input_lookup_ok (inputLookup net) (nth 0 szs 0) ->
  output_lookup_ok (outputLookup net) (nth (length szs - 1) szs 0) ->
  exists json,
    toJSON net = Ok json /\
    length (j_layers json) = length szs /\
    j_inputLookup json = (match inputLookup net with Some _ => true | None => false end) /\
    j_outputLookup json = (match outputLookup net with Some _ => true | None => false end) /\
    forall l, l < length szs ->
      Object_keys (nth l (j_layers json) []) = layer_keys net szs l /\
      length (layer_keys net szs l) = nth l szs 0 /\
      forall j, j < nth l szs 0 ->
        obj_get (nth l (j_layers json) []) (nth j (layer_keys net szs l) (KIdx 0))
        = Some (match l with
                | 0 => mkNodeJson None None
                | S _ =>
                    mkNodeJson (Some (num_at (nth l bs []) j))
                      (Some (build (layer_keys net szs (l - 1))
                               (fun k => num_at (nth j (nth l ws []) []) k)))
                end).
Proof.
  intros Hinit Hin Hout.
  pose proof Hinit as (Hlen & Hs & HL & Hb & Hw & Ho & Hpar & Hbuf).
  pose proof (@toJSON_exact _ _ net szs bs ws Hlen Hs HL Hb Hw Hpar Hin Hout) as Hjson.
  eexists. split; [exact Hjson|]. cbn [j_layers j_inputLookup j_outputLookup].
  split; [rewrite length_map, length_seq; reflexivity|].
  split; [reflexivity|]. split; [reflexivity|].
  intros l Hl. rewrite nth_map_seq by exact Hl.
  assert (Hk : length (layer_keys net szs l) = nth l szs 0).
  { apply length_layer_keys; assumption. }
  split; [apply keys_build_from|]. split; [exact Hk|].
  intros j Hj. unfold layer_json, build.
  rewrite obj_get_build_from by (try apply layer_keys_ordered; try assumption; lia).
  cbn [Nat.add]. destruct l; reflexivity.
Qed.

End SerializedLayers.

(* ================================================================== *)
(** ** [test] on an example whose input holds [NaN] *)

Section NaNLabel.
Import IEEE.
Variable rt : runtime.
Let N : JSNumber float := ieee rt.
Local Existing Instance N.
Hypothesis Hexp : rt_exp rt nan = nan.

Lemma float_max_nan (l : list float) :
  forall acc, acc = nan \/ In nan l -> fold_left float_max2 l acc = nan.
Proof.
  induction l as [|x l IH]; intros acc H; cbn [fold_left].
  - destruct H as [H|[]]. exact H.
  - apply IH. destruct H as [->|[->|H]].
    + left. reflexivity.
    + left. unfold float_max2. destruct (is_nan acc); reflexivity.
    + right. exact H.
Qed.

Lemma indexOf_nan (l : list float) : forall i, indexOf_from l nan i = (-1)%Z.
Proof.
  induction l as [|y l IH]; intros i; cbn [indexOf_from]; [reflexivity|].
  cbn [eqb N ieee]. rewrite float_eqb_nan_r. apply IH.
Qed.

(** The label of lines 316-317 for an output that holds [NaN]:
    [Math.max] is [NaN], which [indexOf] never finds. *)
Lemma classify_nan thresh (out target : list float) :
  In nan out ->
  classify false thresh out target = (of_Z (-1), indexOf target (max target)).
Proof.
  intros Hin. unfold classify, indexOf, max. cbn [Math_max N ieee]. unfold float_max.
  rewrite (@float_max_nan out neg_infinity (or_intror Hin)), indexOf_nan. reflexivity.
Qed.

(** X18: On a dataset of one example with several outputs (or none) and a [NaN]
    among its inputs, [test] gives the example the label -1, [indexOf] of a
    maximum that is [NaN]: it is reported as misclassified unless its
    expected label is -1 as well; no error is raised. *)
Theorem test_labels_nan_input_minus_1 szs bs ws os (net : NeuralNetwork float)
    (d : example float) k :
  initialized szs bs ws os net -> Forall (fun s => 1 <= s) szs ->
  length (input d) = nth 0 szs 0 -> k < nth 0 szs 0 -> nth k (input d) nan = nan ->
  length (output d) <> 1 ->
  exists net' stats,
    test (Single d) net = Ok (net', stats) /\
    s_binary stats = None /\
    s_misclasses stats
    = (if eqb (of_Z (-1)) (indexOf (output d) (max (output d))) then []
       else [mkMisclass d (of_Z (-1)) (indexOf (output d) (max (output d)))]).
Proof.
  intros Hinit Hpos Hwidth Hk Hnan Hmulti.
  pose proof Hinit as (Hlen & _ & _ & _ & _ & _ & Hpar & Hbuf).
  destruct (@test_examples_exact _ N szs bs ws false [d] os net
              (mkTestState 0 0 0 0 [] (of_Z 0)) Hinit
              (Forall_cons _ Hwidth (Forall_nil _))) as (net' & E).
  assert (Hout : network_output szs bs ws (input d) = repeat nan (nth (length szs - 1) szs 0)).
  { unfold network_output.
    rewrite <- (@activations_any_buffers _ N szs bs ws os (input d) (length szs - 1) Hbuf)
      by lia.
    apply (@activations_nan rt Hexp szs bs ws os (input d) k); try assumption. lia. }
  assert (Hin : In nan (network_output szs bs ws (input d))).
  { rewrite Hout. assert (Hs : 1 <= nth (length szs - 1) szs 0).
    { rewrite Forall_forall in Hpos. apply Hpos, nth_In. lia. }
    destruct (nth (length szs - 1) szs 0); [lia | left; reflexivity]. }
  unfold test. cbn [formatData elem nth_error deref bind].
  replace (length (output d) =? 1) with false by (symmetry; apply Nat.eqb_neq; exact Hmulti).
  rewrite E. cbn [bind fold_left]. eexists _, _. split; [reflexivity|].
  split; [reflexivity|].
  cbn [s_misclasses]. unfold test_account.
  rewrite (@classify_nan (binaryThresh net) _ (output d) Hin).
  destruct (eqb (of_Z (-1)) (indexOf (output d) (max (output d)))); reflexivity.
Qed.

End NaNLabel.

(* ================================================================== *)
(** ** The sample network again *)

Lemma ready_net221 : ready Samples.sizes221 Samples.net221.
Proof. do 6 eexists. exact trainable_net221. Defined.

Lemma named221_input_ok :
  input_lookup_ok (inputLookup Samples.named221) (nth 0 Samples.sizes221 0).
Proof. simpl. repeat constructor. Defined.

Lemma named221_output_ok :
  output_lookup_ok (outputLookup Samples.named221)
    (nth (length Samples.sizes221 - 1) Samples.sizes221 0).
Proof. simpl. repeat constructor. Defined.

Lemma sizes221_positive : Forall (fun s => 1 <= s) Samples.sizes221.
Proof. repeat constructor. Defined.

Lemma trainPattern_keeps_network_ready_witness :
  exists net' e,
    trainPattern (N := Samples.N0) [1; 0]%float [1%float] None Samples.net221 = Ok (net', e) /\
    ready Samples.sizes221 net' /\ same_settings Samples.net221 net'.
Proof.
  exact (@trainPattern_keeps_network_ready _ Samples.N0 Samples.sizes221 Samples.net221
           [1; 0]%float [1%float] None ready_net221 eq_refl).
Defined.

Lemma train_leaves_network_ready_witness :
  let options := mkTrainOptions (Some 2%float) None None None None false None false in
  (forall fuel,
     match train (N := Samples.N0) fuel Samples.xor options Samples.rand0 0 Samples.fresh with
     | None => True
     | Some TypeError => False
     | Some (Ok (net', _, _, _)) =>
         ready (train_sizes Samples.fresh (length [0; 0]%float) (length [0%float])) net' /\
         same_settings Samples.fresh net' /\
         forall inp, exists net'' out,
           runInput inp net' = Ok (net'', Some out) /\ length out = length [0%float]
     end) /\
  (forall K,
     ltb (counter K) (or_default (o_iterations options) (of_Z 20000)) = false ->
     exists net' p' trace res,
       train K Samples.xor options Samples.rand0 0 Samples.fresh
       = Some (Ok (net', p', trace, res))).
Proof.
  apply (@train_leaves_network_ready _ Samples.N0 Samples.xor
           (mkTrainOptions (Some 2%float) None None None None false None false)
           Samples.rand0 0 Samples.fresh (mkExample [0; 0] [0])%float
           [mkExample [0; 1] [1]; mkExample [1; 0] [1]; mkExample [1; 1] [0]]%float
           eq_refl eq_refl).
  repeat constructor.
Defined.

Lemma train_runs_no_epoch_witness :
  exists net0 p',
    initialize (N := Samples.N0)
      (train_sizes Samples.fresh (length [0; 0]%float) (length [0%float]))
      false Samples.rand0 0 Samples.fresh
    = Ok (net0, p') /\
    train (N := Samples.N0) 0 Samples.xor
      (mkTrainOptions None (Some 2%float) None None None false None false)
      Samples.rand0 0 Samples.fresh
    = Some (Ok (net0, p', [], mkTrainResult (of_Z 1) (of_Z 0))).
Proof.
  exact (@train_runs_no_epoch _ Samples.N0 0 Samples.xor
           (mkTrainOptions None (Some 2%float) None None None false None false)
           Samples.rand0 0 Samples.fresh (mkExample [0; 0] [0])%float
           [mkExample [0; 1] [1]; mkExample [1; 0] [1]; mkExample [1; 1] [0]]%float
           eq_refl eq_refl eq_refl).
Defined.

Module Calls.

(** Three epochs on the examples of exclusive or, with a log function called
    every tenth epoch and a callback every second epoch. *)
Definition options : train_options float :=
  mkTrainOptions (Some 3%float) None (Some LogFunction) None None true (Some 2%float) false.

Definition trained
  : option (result (NeuralNetwork float * nat * list (event float) * train_result float)) :=
  Eval vm_compute in
    train (N := Samples.N0) 3 Samples.xor options Samples.rand0 0 Samples.fresh.

End Calls.

Lemma train_calls_after_each_epoch_witness :
  match Calls.trained with
  | Some (Ok (net', p', trace, res)) =>
      let lr := or_default (o_learningRate Calls.options)
                  (or_default (Some (learningRate Samples.fresh)) (dec 3 1)) in
      let logPeriod := or_default (o_logPeriod Calls.options) (of_Z 10) in
      let callbackPeriod := or_default (o_callbackPeriod Calls.options) (of_Z 10) in
      exists d0 net0 history,
        nth_error (formatData Samples.xor) 0 = Some d0 /\
        initialize (N := Samples.N0)
          (train_sizes Samples.fresh (length (input d0)) (length (output d0)))
          (o_keepNetworkIntact Calls.options) Samples.rand0 0 Samples.fresh = Ok (net0, p') /\
        mean_errors (length history) (formatData Samples.xor) lr net0 = Ok (net', history) /\
        tr_iterations res = counter (length history) /\
        tr_error res = last history one /\
        trace = flat_map
                  (fun j => epoch_events (o_log Calls.options) logPeriod
                              (o_callback Calls.options) callbackPeriod
                              (counter j) (nth j history nan))
                  (seq 0 (length history)) /\
        (forall m c,
           (0 < Z.of_nat m < 2 ^ 53)%Z -> (0 < Z.of_nat c < 2 ^ 53)%Z ->
           (Z.of_nat (length history) < 2 ^ 53)%Z ->
           logPeriod = of_Z (Z.of_nat m) -> callbackPeriod = of_Z (Z.of_nat c) ->
           tr_iterations res = of_Z (Z.of_nat (length history)) /\
           trace = flat_map
                     (fun j => calls_at_multiples (o_log Calls.options) m
                                 (o_callback Calls.options) c j (nth j history nan))
                     (seq 0 (length history)))
  | _ => False
  end.
Proof.
  destruct Calls.trained as [[[[[net' p'] trace] res]|]|] eqn:E;
    [|vm_compute in E; discriminate E|vm_compute in E; discriminate E].
  apply (@train_calls_after_each_epoch IEEE.reference 3 Samples.xor Calls.options Samples.rand0 0
           Samples.fresh net' p' trace res).
  rewrite <- E. vm_compute. reflexivity.
Defined.

(** The calls of that run: the log after the first epoch, the callback after
    the first and after the third. *)
Lemma train_calls_of_three_epochs :
  match Calls.trained with
  | Some (Ok (_, _, trace, res)) =>
      exists e0 e2,
        trace = [Logged LogFunction 0%float e0; CalledBack e0 0%float; CalledBack e2 2%float] /\
        res = mkTrainResult e2 3%float
  | _ => False
  end.
Proof. vm_compute. eexists _, _. split; reflexivity. Qed.

Lemma test_binary_counts_add_up_witness :
  exists net' stats b,
    test (N := Samples.N0) Samples.xor Samples.net221 = Ok (net', stats) /\
    s_binary stats = Some b /\
    s_total b = length (formatData Samples.xor) /\
    s_trueNeg b + s_truePos b + s_falseNeg b + s_falsePos b = s_total b /\
    length (s_misclasses stats) = s_falseNeg b + s_falsePos b.
Proof.
  apply (@test_binary_counts_add_up IEEE.reference _ _ _ _ _
           (mkExample [0; 0] [0])%float
           [mkExample [0; 1] [1]; mkExample [1; 0] [1]; mkExample [1; 1] [0]]%float
           initialized_net221 eq_refl).
  - repeat constructor.
  - constructor; [left; reflexivity|]. constructor; [right; reflexivity|].
    constructor; [right; reflexivity|]. constructor; [left; reflexivity|]. constructor.
Defined.

Lemma fromJSON_toJSON_restores_parameters_only_witness :
  exists json net2 bs2 ws2,
    toJSON (N := Samples.N0) Samples.named221 = Ok json /\
    fromJSON json Samples.fresh = Ok net2 /\
    sizes net2 = Some Samples.sizes221 /\ outputLayer net2 = outputLayer Samples.named221 /\
    biases net2 = Some bs2 /\ weights net2 = Some ws2 /\
    outputs net2 = Some (repeat [] (length Samples.sizes221)) /\
    (forall l, 1 <= l < length Samples.sizes221 ->
               nth l bs2 [] = nth l Samples.biases221 [] /\
               nth l ws2 [] = nth l Samples.weights221 []) /\
    learningRate net2 = learningRate Samples.fresh /\
    momentum net2 = momentum Samples.fresh /\
    hiddenSizes net2 = hiddenSizes Samples.fresh /\
    binaryThresh net2 = binaryThresh Samples.fresh /\
    deltas net2 = deltas Samples.fresh /\ changes net2 = changes Samples.fresh /\
    errors net2 = errors Samples.fresh.
Proof.
  exact (@fromJSON_toJSON_restores_parameters_only _ Samples.N0 _ _ _ _ Samples.named221
           Samples.fresh initialized_named221 named221_input_ok named221_output_ok).
Defined.

Lemma trainPattern_after_fromJSON_throws_witness :
  exists json net2,
    toJSON (N := Samples.N0) Samples.named221 = Ok json /\
    fromJSON json (new_NeuralNetwork (mkCtorOptions None None None None)) = Ok net2 /\
    trainPattern [1; 0]%float [1%float] None net2 = TypeError.
Proof.
  apply (@trainPattern_after_fromJSON_throws _ Samples.N0 _ _ _ _ Samples.named221
           (mkCtorOptions None None None None) [1; 0]%float [1%float] None
           initialized_named221 named221_input_ok named221_output_ok).
  simpl. lia.
Defined.

Lemma toJSON_fromJSON_toJSON_witness :
  exists json net2,
    toJSON (N := Samples.N0) Samples.net221 = Ok json /\
    fromJSON json Samples.fresh = Ok net2 /\ toJSON net2 = Ok json.
Proof.
  exact (@toJSON_fromJSON_toJSON _ Samples.N0 _ _ _ _ Samples.net221 Samples.fresh
           initialized_net221 eq_refl eq_refl eq_refl eq_refl sizes221_positive).
Defined.

Lemma toJSON_describes_network_witness :
  exists json,
    toJSON (N := Samples.N0) Samples.named221 = Ok json /\
    length (j_layers json) = length Samples.sizes221 /\
    j_inputLookup json
    = (match inputLookup Samples.named221 with Some _ => true | None => false end) /\
    j_outputLookup json
    = (match outputLookup Samples.named221 with Some _ => true | None => false end) /\
    forall l, l < length Samples.sizes221 ->
      Object_keys (nth l (j_layers json) []) = layer_keys Samples.named221 Samples.sizes221 l /\
      length (layer_keys Samples.named221 Samples.sizes221 l) = nth l Samples.sizes221 0 /\
      forall j, j < nth l Samples.sizes221 0 ->
        obj_get (nth l (j_layers json) [])
          (nth j (layer_keys Samples.named221 Samples.sizes221 l) (KIdx 0))
        = Some (match l with
                | 0 => mkNodeJson None None
                | S _ =>
                    mkNodeJson (Some (num_at (nth l Samples.biases221 []) j))
                      (Some (build (layer_keys Samples.named221 Samples.sizes221 (l - 1))
                               (fun k => num_at (nth j (nth l Samples.weights221 []) []) k)))
                end).
Proof.
  exact (@toJSON_describes_network _ Samples.N0 _ _ _ _ Samples.named221
           initialized_named221 named221_input_ok named221_output_ok).
Defined.

Lemma test_labels_nan_input_minus_1_witness :
  exists net' stats,
    test (N := Samples.N0) (Single (mkExample [nan; 0] [0; 1])%float) Samples.net221
    = Ok (net', stats) /\
    s_binary stats = None /\
    s_misclasses stats
    = (if eqb (of_Z (-1)) (indexOf [0; 1]%float (max [0; 1]%float)) then []
       else [mkMisclass (mkExample [nan; 0] [0; 1])%float (of_Z (-1))
               (indexOf [0; 1]%float (max [0; 1]%float))]).
Proof.
  apply (@test_labels_nan_input_minus_1 IEEE.reference eq_refl _ _ _ _ Samples.net221
           (mkExample [nan; 0] [0; 1])%float 0 initialized_net221 sizes221_positive).
  - reflexivity.
  - simpl. lia.
  - reflexivity.
  - simpl. lia.
Defined.

(* ================================================================== *)
(** ** [initialize] and [train] on a network that is kept *)

Section InitializeKept.
Context {num : Type} {N : JSNumber num}.
Variables (szs : list nat) (rand : random_source num) (p : nat) (net0 : NeuralNetwork num).

Lemma initialize_nodes_kept k (n0 : NeuralNetwork num) C0 q0 :
  changes n0 = Some C0 ->
  nth_error C0 k = Some (repeat [] (nth k szs 0)) ->
  exists cl,
    for_loop (nth k szs 0) 0 (initialize_node szs true rand k) (n0, q0)
    = Ok (set_changes n0 (Some (array_set [] C0 k cl)), q0) /\
    length cl = nth k szs 0 /\
    forall j, j < nth k szs 0 -> nth j cl [] = zeros (nth (k - 1) szs 0).
Proof.
  intros Hc HC.
  destruct (@for_loop_inv _
              (fun (node : nat) (st : NeuralNetwork num * nat) =>
                 exists cl,
                   st = (set_changes n0 (Some (array_set [] C0 k cl)), q0) /\
                   length cl = nth k szs 0 /\
                   forall j, j < node -> nth j cl [] = zeros (nth (k - 1) szs 0))
              (nth k szs 0) 0 (initialize_node szs true rand k) (n0, q0))
    as (st & Hrun & (cl & -> & Hlc & Hrows)).
  - exists (repeat [] (nth k szs 0)). split.
    + rewrite array_set_same by assumption. destruct n0; cbn in *. rewrite Hc. reflexivity.
    + rewrite repeat_length. split; [reflexivity|]. intros j Hj. lia.
  - intros node st Hnode (cl & -> & Hlc & Hrows).
    eexists. split.
    + unfold initialize_node. cbn [negb changes set_changes deref bind].
      unfold elem. rewrite nth_error_array_set_eq. cbn [deref bind]. reflexivity.
    + exists (array_set [] cl node (zeros (nth (k - 1) szs 0))).
      split; [rewrite array_set_twice; destruct n0; reflexivity|].
      rewrite array_set_length. split; [lia|].
      intros j Hj. destruct (Nat.eq_dec j node) as [->|Hne].
      * apply nth_array_set_eq.
      * rewrite nth_array_set_other by exact Hne. apply Hrows. lia.
  - exists cl. split; [exact Hrun|]. split; [exact Hlc|]. exact Hrows.
Qed.

(** The network while [initialize] with [keepNetworkIntact] runs. *)
Definition kept_upto (k : nat) (st : NeuralNetwork num * nat) : Prop :=
  same_settings net0 (fst st) /\
  sizes (fst st) = Some szs /\
  outputLayer (fst st) = Some (Z.of_nat (length szs) - 1)%Z /\
  weights (fst st) = weights net0 /\ outputs (fst st) = outputs net0 /\
  (exists ds es,
     deltas (fst st) = Some ds /\ errors (fst st) = Some es /\
     length ds = k /\ length es = k /\
     forall l, l < k ->
       nth l ds [] = zeros (nth l szs 0) /\ nth l es [] = zeros (nth l szs 0)) /\
  (exists bs cs,
     biases (fst st) = Some bs /\ changes (fst st) = Some cs /\
     length bs = length szs /\ length cs = rows_len k /\
     forall l, 1 <= l < k ->
       length (nth l bs []) = nth l szs 0 /\ length (nth l cs []) = nth l szs 0 /\
       forall j, j < nth l szs 0 -> nth j (nth l cs []) [] = zeros (nth (l - 1) szs 0)).

Lemma initialize_layer_kept k st :
  k < length szs -> kept_upto k st ->
  exists st', initialize_layer szs true rand k st = Ok st' /\ kept_upto (S k) st'.
Proof.
  destruct st as [n q].
  intros Hk (Hset & Hs & HL & Hw & Ho & (ds & es & Hd & He & Hld & Hle & Hbuf) &
             (bs & cs & Hb & Hc & Hlb & Hlc & Hrows)).
  cbn [fst snd] in *.
  assert (Hbuf' : exists ds' es',
            Some (array_set [] ds k (zeros (nth k szs 0))) = Some ds' /\
            Some (array_set [] es k (zeros (nth k szs 0))) = Some es' /\
            length ds' = S k /\ length es' = S k /\
            forall l, l < S k ->
              nth l ds' [] = zeros (nth l szs 0) /\ nth l es' [] = zeros (nth l szs 0)).
  { eexists _, _. split; [reflexivity|]. split; [reflexivity|].
    rewrite !array_set_length. split; [lia|]. split; [lia|].
    intros l Hl. destruct (Nat.eq_dec l k) as [->|Hne].
    - rewrite !nth_array_set_eq. split; reflexivity.
    - rewrite !nth_array_set_other by exact Hne. apply Hbuf. lia. }
  unfold initialize_layer. rewrite Hd. cbn [deref bind errors set_deltas]. rewrite He.
  cbn [deref bind negb].
  destruct (Nat.ltb_spec 0 k) as [Hpos|Hzero].
  - cbn [biases changes set_errors set_deltas set_biases].
    rewrite Hb.
    cbn [deref bind biases changes set_errors set_deltas set_biases].
    rewrite Hc. cbn [deref bind].
    match goal with
    | |- context [for_loop _ 0 _ (?n0, _)] =>
        destruct (@initialize_nodes_kept k n0
                    (array_set [] cs k (repeat [] (nth k szs 0)))
                    (q + nth k szs 0) eq_refl (nth_error_array_set_eq _ _ _ _))
          as (cl & Hrun & Hlcl & Hcl)
    end.
    rewrite Hrun. eexists. split; [reflexivity|].
    unfold kept_upto.
    cbn [fst snd sizes outputLayer biases weights outputs deltas changes errors
         set_errors set_deltas set_biases set_changes].
    split; [exact Hset|]. split; [exact Hs|]. split; [exact HL|].
    split; [exact Hw|]. split; [exact Ho|]. split; [exact Hbuf'|].
    eexists _, _. split; [reflexivity|]. split; [reflexivity|].
    rewrite !array_set_twice, !array_set_length, Hlb, Hlc.
    split; [lia|]. split; [apply rows_len_S; exact Hpos|].
    intros l Hl. destruct (Nat.eq_dec l k) as [->|Hne].
    + rewrite !nth_array_set_eq. split; [apply length_randos|]. split; [exact Hlcl | exact Hcl].
    + rewrite !nth_array_set_other by exact Hne. apply Hrows. lia.
  - destruct k as [|k']; [|lia]. eexists. split; [reflexivity|].
    unfold kept_upto.
    cbn [fst snd sizes outputLayer biases weights outputs deltas changes errors
         set_errors set_deltas].
    split; [exact Hset|]. split; [exact Hs|]. split; [exact HL|].
    split; [exact Hw|]. split; [exact Ho|]. split; [exact Hbuf'|].
    exists bs, cs. split; [exact Hb|]. split; [exact Hc|].
    split; [exact Hlb|]. split; [exact Hlc|]. intros l Hl. lia.
Qed.

End InitializeKept.

Section TrainKept.
Context {num : Type} {N : JSNumber num}.

Lemma ready_parameters_allocated szs (net : NeuralNetwork num) :
  ready szs net -> parameters_allocated szs net.
Proof.
  intros (bs & ws & os & ds & cs & es & (Hinit & _)).
  destruct Hinit as (_ & _ & _ & Hb & Hw & Ho & (Hlb & Hlw & Hrows) & (Hlo & _)).
  split; [exists os; split; assumption|]. split; [exists bs; split; assumption|].
  exists ws. split; [exact Hw|]. split; [exact Hlw|].
  intros l Hl. apply Hrows. exact Hl.
Qed.

Lemma initialize_kept szs rand p (net : NeuralNetwork num) :
  ready szs net ->
  exists net' p',
    initialize szs true rand p net = Ok (net', p') /\
    ready szs net' /\ weights net' = weights net /\ outputs net' = outputs net /\
    same_settings net net'.
Proof.
  intros (bs & ws & os & ds0 & cs0 & es0 & (Hinit & _)).
  pose proof Hinit as (Hlen & _ & _ & Hb & Hw & Ho & Hpar & Hbuf).
  pose proof Hpar as (Hlb & Hlw & Hrw).
  unfold initialize. cbn [negb].
  match goal with
  | |- context [for_loop _ 0 _ (?n0, p)] =>
      destruct (@for_loop_inv _ (kept_upto szs net) (length szs) 0
                  (initialize_layer szs true rand) (n0, p))
        as ([net' q] & Hrun & Hfinal)
  end.
  - unfold kept_upto.
    cbn [fst snd sizes outputLayer biases weights outputs deltas changes errors
         set_sizes set_outputLayer set_errors set_deltas set_changes].
    split; [repeat split|]. split; [reflexivity|]. split; [reflexivity|].
    split; [reflexivity|]. split; [reflexivity|]. split.
    + exists [], []. repeat (split; [reflexivity|]). intros l Hl. lia.
    + exists bs, []. split; [exact Hb|]. split; [reflexivity|]. split; [exact Hlb|].
      split; [reflexivity|]. intros l Hl. lia.
  - intros k st Hk Hinv. apply initialize_layer_kept; [lia | exact Hinv].
  - cbn [Nat.add] in Hfinal.
    destruct Hfinal as (Hset & Hs & HL & Hw' & Ho' & (ds & es & Hd & He & Hld & Hle & Hzero) &
                        (bs' & cs & Hb' & Hc & Hlb' & Hlc & Hrows)).
    cbn [fst snd] in *.
    assert (Hrl : rows_len (length szs) = length szs).
    { unfold rows_len. destruct (Nat.leb_spec (length szs) 1); [lia | reflexivity]. }
    rewrite Hrl in Hlc.
    assert (Hdz : ds = map zeros szs).
    { apply pointwise_zeros; [exact Hld|]. intros l Hl. apply Hzero. exact Hl. }
    assert (Hez : es = map zeros szs).
    { apply pointwise_zeros; [exact Hle|]. intros l Hl. apply Hzero. exact Hl. }
    subst ds es.
    exists net', q. split; [exact Hrun|].
    split; [|split; [exact Hw'|split; [exact Ho' | exact Hset]]].
    exists bs', ws, os, (map zeros szs), cs, (map zeros szs).
    unfold trainable, initialized, parameters_shaped, changes_shaped.
    rewrite Hw', Ho'.
    repeat match goal with |- _ /\ _ => split end;
      try assumption; try apply buffers_shaped_zeros.
    + intros l Hl. destruct (Hrows l Hl) as (H1 & H2 & H3).
      destruct (Hrw l Hl) as (_ & H4 & H5).
      split; [exact H1|]. split; [exact H4 | exact H5].
    + intros l Hl. destruct (Hrows l Hl) as (H1 & H2 & H3).
      split; [exact H2|]. intros j Hj. rewrite (H3 j Hj). apply length_zeros.
Qed.

(** X19: [train] with [keepNetworkIntact] on a network that is ready for the
    topology of the data: [initialize] keeps the weights, and training throws
    nothing, returns once its loop counter is no longer below [iterations],
    and leaves the network ready for that topology again, so that training
    can be continued. *)
Theorem train_continues_on_kept_network data options rand p (net : NeuralNetwork num)
    d0 rest :
  formatData data = d0 :: rest ->
  o_keepNetworkIntact options = true ->
  Forall (fun d => length (input d) = length (input d0)) rest ->
  ready (train_sizes net (length (input d0)) (length (output d0))) net ->
  exists net0 p',
    initialize (train_sizes net (length (input d0)) (length (output d0))) true rand p net
    = Ok (net0, p') /\
    weights net0 = weights net /\
    (forall fuel,
       match train fuel data options rand p net with
       | None => True
       | Some TypeError => False
       | Some (Ok (net', _, _, _)) =>
           ready (train_sizes net (length (input d0)) (length (output d0))) net' /\
           same_settings net net'
       end) /\
    (forall K,
       ltb (counter K) (or_default (o_iterations options) (of_Z 20000)) = false ->
       exists net' p'' trace res,
         train K data options rand p net = Some (Ok (net', p'', trace, res))).
Proof.
  intros Hdata Hkeep Hwidth Hready.
  set (szs := train_sizes net (length (input d0)) (length (output d0))) in *.
  destruct (@initialize_kept szs rand p net Hready)
    as (net0 & p' & Hinit & Hready0 & Hw0 & _ & Hset0).
  exists net0, p'. split; [exact Hinit|]. split; [exact Hw0|].
  rewrite <- Hkeep in Hinit.
  split.
  - intros fuel.
    pose proof (@train_on_ready _ _ fuel data options rand p net net0 _ d0 rest
                  Hdata Hwidth Hinit Hready0 Hset0) as H.
    destruct (train fuel data options rand p net) as [[[[[net' p''] trace] res]|]|];
      try exact H.
    destruct H as (_ & Hr & Hs). split; assumption.
  - intros K HK.
    exact (@train_on_ready_ends _ _ K data options rand p net net0 _ d0 rest
             Hdata Hwidth Hinit Hready0 Hset0 HK).
Qed.

End TrainKept.

Module Kept.

(** The network that [initialize([2, 3, 1])] builds from [rand0]: the
    topology that [train] derives for the examples of exclusive or. *)
Definition net231 : NeuralNetwork float :=
  Eval vm_compute in
    match initialize (N := Samples.N0) [2; 3; 1] false Samples.rand0 0 Samples.fresh with
    | Ok (net, _) => net
    | TypeError => Samples.fresh
    end.

Definition options : train_options float :=
  mkTrainOptions (Some 2%float) None None None None false None true.

End Kept.

Lemma ready_net231 : ready [2; 3; 1] Kept.net231.
Proof.
  destruct (@initialize_fresh _ Samples.N0 [2; 3; 1] Samples.rand0 0 Samples.fresh)
    as (net' & bs & ws & cs & Hinit & Htr & _); [simpl; lia|].
  assert (Hnet : net' = Kept.net231).
  { assert (H : Ok (net', 0 + draws [2; 3; 1] (length [2; 3; 1])) = Ok (Kept.net231, 13)).
    { rewrite <- Hinit. vm_compute. reflexivity. }
    injection H as ->. reflexivity. }
  rewrite <- Hnet. do 6 eexists. exact Htr.
Defined.

Lemma train_continues_on_kept_network_witness :
  exists net0 p',
    initialize (N := Samples.N0)
      (train_sizes Kept.net231 (length [0; 0]%float) (length [0%float])) true Samples.rand0 13
      Kept.net231
    = Ok (net0, p') /\
    weights net0 = weights Kept.net231 /\
    (forall fuel,
       match train fuel Samples.xor Kept.options Samples.rand0 13 Kept.net231 with
       | None => True
       | Some TypeError => False
       | Some (Ok (net', _, _, _)) =>
           ready (train_sizes Kept.net231 (length [0; 0]%float) (length [0%float])) net' /\
           same_settings Kept.net231 net'
       end) /\
    (forall K,
       ltb (counter K) (or_default (o_iterations Kept.options) (of_Z 20000)) = false ->
       exists net' p'' trace res,
         train K Samples.xor Kept.options Samples.rand0 13 Kept.net231
         = Some (Ok (net', p'', trace, res))).
Proof.
  apply (@train_continues_on_kept_network _ Samples.N0 Samples.xor Kept.options Samples.rand0 13
           Kept.net231 (mkExample [0; 0] [0])%float
           [mkExample [0; 1] [1]; mkExample [1; 0] [1]; mkExample [1; 1] [0]]%float
           eq_refl eq_refl).
  - repeat constructor.
  - exact ready_net231.
Defined.

(* ================================================================== *)
(** ** Runs of [train] whose error never moves *)

Module Settled.

(** One example, the input 0 with the target 0.5, and a random source that
    always yields 0.5: every weight and every bias that [initialize] draws is
    [0.5 * 0.4 - 0.2 = 0], the network answers [1 / (1 + exp(-0)) = 0.5]
    from the start, every error and delta is 0, and training changes
    nothing. *)
Definition example : example float := mkExample [0%float] [0.5%float].

Definition data : training_data float := Single example.

Definition rand : random_source float := fun _ => 0.5%float.

(** The network that [train] initializes for this example, [sizes] being
    [[1, 3, 1]]. *)
Definition started : NeuralNetwork float :=
  Eval vm_compute in
    match initialize (N := Samples.N0) [1; 3; 1] false rand 0 Samples.fresh with
    | Ok (net, _) => net
    | TypeError => Samples.fresh
    end.

(** The network after the first epoch: the output buffers now hold 0.5. *)
Definition settled : NeuralNetwork float :=
  Eval vm_compute in
    match epoch_error (N := Samples.N0) [example] (3 / 10)%float started with
    | Ok (net, _) => net
    | TypeError => started
    end.



(** Every numeric option given as 0, but for the threshold. *)
Definition zeros_but_threshold : train_options float :=
  mkTrainOptions (Some zero) (Some (-1)%float) None (Some zero) (Some zero) false (Some zero)
    false.

(** Every numeric option given as 0, with a log function and a callback. *)
Definition all_zero : train_options float :=
  mkTrainOptions (Some zero) (Some zero) (Some LogFunction) (Some zero) (Some zero) true
    (Some zero) false.

Definition trained_all_zero
  : option (result (NeuralNetwork float * nat * list (event float) * train_result float)) :=
  Eval vm_compute in train (N := Samples.N0) 1 data all_zero rand 0 Samples.fresh.

End Settled.

Section SettledRuns.
Import IEEE.
Let N : JSNumber float := Samples.N0.
Local Existing Instance N.

Lemma settled_initialize :
  initialize [1; 3; 1] false Settled.rand 0 Samples.fresh = Ok (Settled.started, 10).
Proof. vm_compute. reflexivity. Qed.

Lemma settled_first_epoch :
  epoch_error [Settled.example] (3 / 10)%float Settled.started = Ok (Settled.settled, zero).
Proof. vm_compute. reflexivity. Qed.

Lemma settled_epoch :
  epoch_error [Settled.example] (3 / 10)%float Settled.settled = Ok (Settled.settled, zero).
Proof. vm_compute. reflexivity. Qed.

Lemma settled_epochs n :
  mean_errors n [Settled.example] (3 / 10)%float Settled.settled
  = Ok (Settled.settled, repeat zero n).
Proof.
  induction n as [|n IH]; [reflexivity|].
  cbn [mean_errors]. rewrite settled_epoch. cbn [bind]. rewrite IH. reflexivity.
Qed.

Lemma started_epochs n :
  mean_errors n [Settled.example] (3 / 10)%float Settled.started
  = Ok (match n with O => Settled.started | S _ => Settled.settled end, repeat zero n).
Proof.
  destruct n as [|n]; [reflexivity|].
  cbn [mean_errors]. rewrite settled_first_epoch. cbn [bind]. rewrite settled_epochs. reflexivity.
Qed.

Lemma last_repeat_zero n d : (0 < n)%nat -> last (repeat zero n) d = zero.
Proof.
  revert d; induction n as [|n IH]; intros d Hn; [lia|].
  cbn [repeat]. rewrite last_cons_default. destruct n as [|n]; [reflexivity|].
  apply IH. lia.
Qed.

(** The error stays above -1: 1 before the first epoch, 0 after every epoch. *)
Lemma settled_above n j :
  j <= n -> PrimFloat.ltb (-1) (nth j (one :: repeat zero n) nan) = true.
Proof.
  intros Hj. destruct j as [|j]; [reflexivity|]. cbn [nth].
  rewrite (nth_indep _ nan zero) by (rewrite repeat_length; lia).
  rewrite nth_repeat. reflexivity.
Qed.

Lemma settled_last_above n : PrimFloat.ltb (-1) (last (repeat zero n) one) = true.
Proof.
  destruct n as [|n]; [reflexivity|]. rewrite last_repeat_zero by lia. reflexivity.
Qed.

(** [train] on the settled example with the threshold -1: it runs as many
    epochs as the counter takes to be no longer below [iterations], and is
    still running before that. *)
Lemma settled_run (options : train_options float) fuel n :
  o_errorThresh options = Some (-1)%float ->
  or_default (o_learningRate options) (or_default (Some (learningRate Samples.fresh)) (dec 3 1))
  = (3 / 10)%float ->
  o_keepNetworkIntact options = false ->
  (forall j, j < n ->
     PrimFloat.ltb (counter j) (or_default (o_iterations options) (of_Z 20000)) = true) ->
  (n <= fuel ->
   PrimFloat.ltb (counter n) (or_default (o_iterations options) (of_Z 20000)) = false ->
   exists net' trace,
     train fuel Settled.data options Settled.rand 0 Samples.fresh
     = Some (Ok (net', 10, trace, mkTrainResult (last (repeat zero n) one) (counter n)))) /\
  (fuel < n -> train fuel Settled.data options Settled.rand 0 Samples.fresh = None).
Proof.
  intros Hth Hlr Hkeep Hbelow. split.
  - intros Hfuel Hstop.
    pose proof (@train_replay _ N fuel Settled.data options Settled.rand 0 Samples.fresh
                  Settled.started
                  (match n with O => Settled.started | S _ => Settled.settled end)
                  10 Settled.example (repeat zero n)) as H.
    cbv zeta in H. rewrite repeat_length, Hth, Hlr, Hkeep in H.
    eexists _, _. apply H.
    + reflexivity.
    + exact settled_initialize.
    + exact (started_epochs n).
    + intros j Hj. split; [apply Hbelow; exact Hj | apply settled_above; lia].
    + change (PrimFloat.ltb (counter n) (or_default (o_iterations options) (of_Z 20000))
              && PrimFloat.ltb (-1) (last (repeat zero n) one) = false).
      rewrite Hstop. reflexivity.
    + exact Hfuel.
  - intros Hfuel.
    destruct (train fuel Settled.data options Settled.rand 0 Samples.fresh)
      as [[[[[net' p'] trace] res]|]|] eqn:E; [exfalso | exfalso | reflexivity].
    + apply train_returned in E.
      destruct E as (d0 & net0 & history & Hd & Hinit & Hlen & Hmean & _ & _ & Hstop & _).
      injection Hd as <-. rewrite Hkeep in Hinit.
      change (initialize [1; 3; 1] false Settled.rand 0 Samples.fresh = Ok (net0, p')) in Hinit.
      rewrite settled_initialize in Hinit. injection Hinit as <- <-.
      rewrite Hlr in Hmean.
      change (mean_errors (length history) [Settled.example] (3 / 10)%float Settled.started
              = Ok (net', history)) in Hmean.
      rewrite started_epochs in Hmean. injection Hmean as _ Hh.
      rewrite Hth in Hstop.
      change (PrimFloat.ltb (counter (length history))
                (or_default (o_iterations options) (of_Z 20000))
              && PrimFloat.ltb (-1) (last history one) = false) in Hstop.
      rewrite Hbelow in Hstop by lia. rewrite <- Hh in Hstop.
      rewrite settled_last_above in Hstop. discriminate Hstop.
    + pose proof (@train_on_ready _ N fuel Settled.data options Settled.rand 0 Samples.fresh
                    Settled.started 10 Settled.example []) as H.
      cbv zeta in H. rewrite E, Hkeep in H. apply H.
      * reflexivity.
      * constructor.
      * exact settled_initialize.
      * destruct (@initialize_fresh _ N [1; 3; 1] Settled.rand 0 Samples.fresh)
          as (net0 & bs & ws & cs & Hinit & Htr & _); [simpl; lia|].
        rewrite settled_initialize in Hinit. injection Hinit as <-.
        do 6 eexists. exact Htr.
      * repeat split.
Qed.



(** With [iterations] given as 0 the loop runs its 20000 epochs. *)
Lemma settled_default_iterations :
  train 19999 Settled.data Settled.zeros_but_threshold Settled.rand 0 Samples.fresh = None /\
  exists net' trace,
    train 20000 Settled.data Settled.zeros_but_threshold Settled.rand 0 Samples.fresh
    = Some (Ok (net', 10, trace, mkTrainResult zero 20000%float)).
Proof.
  assert (Hbelow : forall j, j < 20000 ->
            PrimFloat.ltb (counter j)
              (or_default (o_iterations Settled.zeros_but_threshold) (of_Z 20000)) = true).
  { intros j Hj.
    assert (H20 : Z.of_nat 20000 = 20000%Z) by reflexivity.
    refine (eq_trans (@counter_ltb reference j 20000 _ _) _);
      [lia | lia | apply Nat.ltb_lt; exact Hj]. }
  split.
  - apply (@settled_run Settled.zeros_but_threshold 19999 20000); try reflexivity; [exact Hbelow|].
    apply Nat.lt_succ_diag_r.
  - destruct (@settled_run Settled.zeros_but_threshold 20000 20000 eq_refl eq_refl eq_refl Hbelow)
      as [H _].
    assert (Hstop : PrimFloat.ltb (counter 20000)
                      (or_default (o_iterations Settled.zeros_but_threshold) (of_Z 20000))
                    = false).
    { change (or_default (o_iterations Settled.zeros_but_threshold) (of_Z 20000))
        with (float_of_Z 20000).
      exact (default_iterations_reached reference). }
    destruct (H (Nat.le_refl 20000) Hstop) as (net' & trace & E).
    assert (Hc : counter 20000 = 20000%float).
    { refine (eq_trans (@counter_exact reference 20000 _) _); reflexivity. }
    exists net', trace. rewrite E, Hc, last_repeat_zero by apply Nat.lt_0_succ. reflexivity.
Qed.

End SettledRuns.


Lemma zero_option_is_omitted_option_witness :
  match Settled.trained_all_zero with
  | Some (Ok (net', p', trace, res)) =>
      ran_under IEEE.reference 20000 (or_default (Some zero) (dec 5 3))
        (or_default (Some zero) (or_default (Some (learningRate Samples.fresh)) (dec 3 1)))
        (or_default (Some zero) (of_Z 10)) (or_default (Some zero) (of_Z 10))
        (Some LogFunction) true false Settled.data Settled.rand 0 Samples.fresh
        net' p' trace res
  | _ => False
  end.
Proof.
  destruct Settled.trained_all_zero as [[[[[net' p'] trace] res]|]|] eqn:E;
    [|vm_compute in E; discriminate E|vm_compute in E; discriminate E].
  apply (proj1 (proj2 (proj2 (zero_option_is_omitted_option IEEE.reference))
                  1 Settled.data (Some zero) (Some zero) (Some LogFunction) (Some zero)
                  (Some zero) true (Some zero) false Settled.rand 0 Samples.fresh
                  net' p' trace res)).
  rewrite <- E. vm_compute. reflexivity.
Defined.
